(** * AgentX: the agent session and provider-abstraction layer

    A shallow embedding of [src/llm.py], [src/agent_manager.py] and the
    session part of [src/app.py], followed by the properties of the
    specification that concern them; then of the other endpoints of
    [src/app.py], of [generate_response] and [get_tool_call], and of the
    tools of [src/tools], with further properties of the code.

    Conventions of the embedding:
    - Python [str] is [string], the sequence of the bytes of its UTF-8
      encoding; a [Dict[str, str]] message is a [gmap string string];
      module-level dictionaries are [gmap]s. What [json.loads] returns,
      and the session id of a [chat] request, of which the endpoint
      knows no type, is a [Json] value.
    - Code that can raise returns a [result]; code that also mutates the
      module-level dictionaries or objects runs in the monad [M] of
      module [App], in which a raised exception keeps the mutations made
      before it, as in Python.
    - Exceptions are instances of [Exception] (what [except Exception]
      and a bare [except] both catch).
    - Objects that are shared and mutated (provider adapters, websockets,
      transport handles) live in stores indexed by their identity.
    - An object of a class that defines neither [__bool__] nor [__len__]
      is truthy: a stored manager and a stored provider pass the test
      [if agent and agent.llm_provider]. A [requests.Response] defines
      [__bool__] as its [ok]: it is falsy when its status is an error
      status, from 400 to 599, which is what the test
      [if self._current_request] of [cancel_request] sees.
    - An endpoint runs from its first statement to its last: what other
      coroutines could do while one is suspended at an [await] is not
      part of the embedding.
    - [print] and [logger] calls, and keyword arguments passed on
      unchanged ([**kwargs]), have no counterpart.
    - The LLM backends, the [smolagents.CodeAgent] loop and [uuid.uuid4]
      are outside the repository: they are the fields of the classes
      [Backends] and [Runtime]. So are the services of the other
      endpoints ([Services]), the streaming calls of [generate_response]
      ([Completions]), and the libraries and the operating system under
      the tools ([Host], [Market]). *)

From Stdlib Require Import Ascii String.
From stdpp Require Import gmap strings list sorting pretty.

Open Scope string_scope.

(** ** Python string operations used by the source *)

Module PyStr.

Definition nl : string := String (ascii_of_nat 10) EmptyString.

Definition of_bytes (codes : list nat) : string :=
  foldr (fun n s => String (ascii_of_nat n) s) EmptyString codes.

(** The characters for which [str.isspace] holds, which are those that
    [str.strip] removes, in UTF-8: U+0009 to U+000D, U+001C to U+0020,
    U+0085, U+00A0, U+1680, U+2000 to U+200A, U+2028, U+2029, U+202F,
    U+205F and U+3000. *)
Definition whitespace : list string :=
  map of_bytes
    ([[9]; [10]; [11]; [12]; [13]; [28]; [29]; [30]; [31]; [32];
      [194; 133]; [194; 160]; [225; 154; 128]] ++
     map (fun n => [226; 128; n]) (seq 128 11) ++
     [[226; 128; 168]; [226; 128; 169]; [226; 128; 175]; [226; 129; 159];
      [227; 128; 128]]).

(** [s] without its prefix [p], when it has that prefix. *)
Fixpoint drop_prefix (p s : string) : option string :=
  match p with
  | EmptyString => Some s
  | String a p' =>
      match s with
      | String b s' => if Ascii.eqb a b then drop_prefix p' s' else None
      | EmptyString => None
      end
  end.

(** [s] without the whitespace character it begins with, when it begins
    with one. *)
Definition after_space (s : string) : option string :=
  foldr (fun w found =>
           match drop_prefix w s with
           | Some rest => Some rest
           | None => found
           end) None whitespace.

(** [s.lstrip()]: whitespace characters are removed from the front while
    there is one; each removal shortens the string, so the length of
    the string bounds their number. *)
Fixpoint lstrip_fuel (fuel : nat) (s : string) : string :=
  match fuel with
  | 0 => s
  | S fuel =>
      match after_space s with
      | Some rest => lstrip_fuel fuel rest
      | None => s
      end
  end.

Definition lstrip (s : string) : string := lstrip_fuel (String.length s) s.

(** [s.rstrip()]: the string up to the first position from which it is
    whitespace to its end. *)
Fixpoint rstrip (s : string) : string :=
  match s with
  | EmptyString => EmptyString
  | String c s' =>
      match lstrip s with
      | EmptyString => EmptyString
      | _ => String c (rstrip s')
      end
  end.

(** [s.strip()] *)
Definition strip (s : string) : string := rstrip (lstrip s).

Definition lower_ascii (c : ascii) : ascii :=
  let n := nat_of_ascii c in
  if Nat.leb 65 n && Nat.leb n 90 then ascii_of_nat (n + 32) else c.

(** [s.lower()] on the letters of ASCII. The other characters, which
    [str.lower] may change, are left as they are: their bytes, before and
    after, are outside ASCII, and the only ASCII letters [str.lower] makes
    of them are a k (of the Kelvin sign) and an i that a combining dot
    follows (of the dotted capital I), so that a search for the two
    texts [_handle_api_error] looks for finds the same either way. *)
Fixpoint lower (s : string) : string :=
  match s with
  | EmptyString => EmptyString
  | String c s' => String (lower_ascii c) (lower s')
  end.

(** [needle in hay] *)
Fixpoint contains (needle hay : string) : bool :=
  String.prefix needle hay ||
  match hay with
  | EmptyString => false
  | String _ hay' => contains needle hay'
  end.

(** Truth value of a string: the empty string is falsy. *)
Definition truthy (s : string) : bool :=
  match s with EmptyString => false | _ => true end.

(** Truth value of an optional string ([None] is falsy). *)
Definition truthy_opt (o : option string) : bool :=
  match o with Some s => truthy s | None => false end.

(** [a or b] on optional strings. *)
Definition py_or (a b : option string) : option string :=
  if truthy_opt a then a else b.

(** A string of whitespace characters. *)
Inductive all_space : string -> Prop :=
| spaces_nil : all_space EmptyString
| spaces_cons w s : w ∈ whitespace -> all_space s -> all_space (w +:+ s).

End PyStr.

(** ** Exceptions and results *)

Inductive exn : Type :=
| KeyError (key : string)
| KeyErrorAt (index : nat)          (* a [KeyError] whose key is an integer *)
| IndexError
| StringIndexError                  (* the [IndexError] of a string *)
| ValueError (msg : string)
| TypeError (msg : string)
| AttributeError (msg : string)
| HTTPError (status : nat) (msg : string)
| TransportError (msg : string)
| RuntimeError (msg : string).

(** [str(e)] *)
Definition str_exn (e : exn) : string :=
  match e with
  | KeyError key => "'" +:+ key +:+ "'"
  | KeyErrorAt index => pretty index
  | IndexError => "list index out of range"
  | StringIndexError => "string index out of range"
  | ValueError msg => msg
  | TypeError msg => msg
  | AttributeError msg => msg
  | HTTPError _ msg => msg
  | TransportError msg => msg
  | RuntimeError msg => msg
  end.

Inductive result (A : Type) : Type :=
| Ok (a : A)
| Raise (e : exn).
Arguments Ok {A} a.
Arguments Raise {A} e.

Definition rbind {A B} (r : result A) (k : A -> result B) : result B :=
  match r with Ok a => k a | Raise e => Raise e end.

(** ** JSON values *)

(** What [json.loads] returns, and what the web framework makes of the
    body of a request. A float is kept as what the code can see of it:
    whether it differs from zero, and its [repr]. *)
#[warnings="-register-all"] Inductive Json : Type :=
| JNull
| JBool (b : bool)
| JInt (n : Z)
| JFloat (nonzero : bool) (repr : string)
| JString (s : string)
| JArray (items : list Json)
| JObject (fields : gmap string Json).

Module PyJson.

(** [bool(v)] *)
Definition truthy (v : Json) : bool :=
  match v with
  | JNull => false
  | JBool b => b
  | JInt n => negb (Z.eqb n 0)
  | JFloat nonzero _ => nonzero
  | JString s => PyStr.truthy s
  | JArray items => negb (Nat.eqb (length items) 0)
  | JObject fields => negb (Nat.eqb (size fields) 0)
  end.

(** [type(v).__name__] *)
Definition type_name (v : Json) : string :=
  match v with
  | JNull => "NoneType"
  | JBool _ => "bool"
  | JInt _ => "int"
  | JFloat _ _ => "float"
  | JString _ => "str"
  | JArray _ => "list"
  | JObject _ => "dict"
  end.

(** [v.get(key, fallback)]: only a dictionary has the method. *)
Definition get (v : Json) (key : string) (fallback : Json) : result Json :=
  match v with
  | JObject fields => Ok (default fallback (fields !! key))
  | _ => Raise (AttributeError
                  ("'" +:+ type_name v +:+ "' object has no attribute 'get'"))
  end.

(** The bytes of the first character of a string: its first byte and
    the continuation bytes, from 128 to 191, that follow it. *)
Fixpoint continuation (s : string) : string :=
  match s with
  | String c s' =>
      if Nat.leb 128 (nat_of_ascii c) && Nat.ltb (nat_of_ascii c) 192
      then String c (continuation s')
      else EmptyString
  | EmptyString => EmptyString
  end.

(** [v[0]]. The keys of a dictionary are strings, so that 0 is none of
    them. *)
Definition item0 (v : Json) : result Json :=
  match v with
  | JArray (item :: _) => Ok item
  | JArray [] => Raise IndexError
  | JObject _ => Raise (KeyErrorAt 0)
  | JString (String c s) => Ok (JString (String c (continuation s)))
  | JString EmptyString => Raise StringIndexError
  | _ => Raise (TypeError
                  ("'" +:+ type_name v +:+ "' object is not subscriptable"))
  end.

(** [hash(v)], which a dictionary calls on a key that is looked up or
    assigned: lists and dictionaries have none. *)
Definition hash (v : Json) : result unit :=
  match v with
  | JArray _ | JObject _ =>
      Raise (TypeError ("unhashable type: '" +:+ type_name v +:+ "'"))
  | _ => Ok tt
  end.

End PyJson.

(** ** src/llm.py *)

Abbreviation Message := (gmap string string).

(** What an adapter posts with [requests.post]. *)
Inductive PostBody : Type :=
| OllamaGenerate (model prompt : string) (stream : bool) (stop : option (list string))
| DeepSeekChat (model : string) (messages : list Message) (stop : list string).

(** The part of a [requests.Response] the adapters read: the status and
    the answer field of the JSON body ([None] when the field is absent). *)
Record HttpResponse : Type := {
  status_code : nat;
  answer : option string
}.

(** The remote services, as the adapters call them. Each call either
    returns or raises. *)
Class Backends : Type := {
  (* client.chat.completions.create: the contents of the choices *)
  chat_completions_create :
    string -> list Message -> option (list string) -> result (list string);
  (* client.messages.create: the texts of the content blocks *)
  messages_create :
    string -> string -> option (list string) -> result (list string);
  (* requests.post(url, json=...) *)
  requests_post : string -> PostBody -> result HttpResponse
}.

Module Llm.
Import PyStr.

Inductive ProviderClass : Type := OpenAI | Anthropic | Ollama | DeepSeek.

(** The attached transport handle: the only assignment of the attribute
    other than [None] stores a [requests.Response], here its identity
    and its status. *)
Record Attached : Type := {
  handle : nat;
  handle_status : nat
}.

(** [bool(response)], which is [response.ok]: [raise_for_status] does not
    raise. *)
Definition handle_ok (r : Attached) : bool :=
  negb (Nat.leb 400 (handle_status r) && Nat.ltb (handle_status r) 600).

(** The attributes of a provider object. *)
Record Provider : Type := {
  cls : ProviderClass;
  api_key : option string;
  model_name : string;
  base_url : option string;
  _current_request : option Attached
}.

Definition clear_current_request (p : Provider) : Provider :=
  {| cls := cls p; api_key := api_key p; model_name := model_name p;
     base_url := base_url p; _current_request := None |}.

(** Transport handles that have been closed. *)
Abbreviation Handles := (gset nat).

(** [response.raise_for_status()] *)
Definition raise_for_status (r : HttpResponse) : result unit :=
  if Nat.leb 400 (status_code r) && Nat.ltb (status_code r) 600
  then Raise (HTTPError (status_code r) "HTTP error")
  else Ok tt.

(** [xs[0]] *)
Definition first {A} (xs : list A) : result A :=
  match xs with
  | [] => Raise IndexError
  | x :: _ => Ok x
  end.

(** [msg[key]] *)
Definition getitem (msg : Message) (key : string) : result string :=
  match msg !! key with
  | Some v => Ok v
  | None => Raise (KeyError key)
  end.

(** The body shared by [AnthropicProvider._convert_messages_to_prompt]
    and [OllamaProvider._convert_messages_to_prompt]: one turn of the
    [for] loop, on the prompt built so far. *)
Definition append_message (prompt : string) (msg : Message) : result string :=
  rbind (getitem msg "role") (fun role =>
  rbind (getitem msg "content") (fun content =>
  if String.eqb role "system" then
    Ok (prompt +:+ "System: " +:+ content +:+ nl +:+ nl)
  else if String.eqb role "user" then
    Ok (prompt +:+ "Human: " +:+ content +:+ nl +:+ nl)
  else if String.eqb role "assistant" then
    Ok (prompt +:+ "Assistant: " +:+ content +:+ nl +:+ nl)
  else if String.eqb role "function" || String.eqb role "tool-response" then
    Ok (prompt +:+ "Tool Response: " +:+ content +:+ nl +:+ nl)
  else if String.eqb role "tool" then
    Ok (prompt +:+ "Tool Call: " +:+ content +:+ nl +:+ nl)
  else Ok prompt)).

Fixpoint convert_loop (prompt : string) (messages : list Message) : result string :=
  match messages with
  | [] => Ok prompt
  | msg :: rest => rbind (append_message prompt msg) (fun p => convert_loop p rest)
  end.

Module OpenAIProvider.

Definition __init__ (env : gmap string string)
    (model_name : string) (api_key : option string) : result Provider :=
  let key := py_or api_key (env !! "OPENAI_API_KEY") in
  if truthy_opt key then
    Ok {| cls := OpenAI; api_key := key; model_name := model_name;
          base_url := None; _current_request := None |}
  else Raise (ValueError "OpenAI API key not provided").

Definition cancel_request (self : Provider) (closed : Handles) : Provider * Handles :=
  match _current_request self with
  | Some r =>
      if handle_ok r then (clear_current_request self, {[handle r]} ∪ closed)
      else (self, closed)
  | None => (self, closed)
  end.

Definition role_mapping : gmap string string :=
  <["human" := "user"]> (<["assistant" := "assistant"]> (<["system" := "system"]>
  (<["tool" := "assistant"]> (<["tool-response" := "assistant"]> ∅)))).

Definition _map_role_to_openai (message : Message) : Message :=
  let role := default EmptyString (message !! "role") in
  <["role" := default role (role_mapping !! role)]>
    (<["content" := default EmptyString (message !! "content")]> ∅).

Definition _handle_api_error (error : exn) (context : string) : string :=
  if contains "invalid_request_error" (lower (str_exn error)) then
    "I encountered an issue with the request format. Let me try a different approach."
  else if contains "rate_limit_error" (lower (str_exn error)) then
    "I'm receiving too many requests at the moment. Please try again in a moment."
  else
    "I encountered an error: " +:+ str_exn error +:+ ". Let me try a different approach.".

Definition _make_api_call `{Backends} (self : Provider)
    (messages : list Message) (stop : option (list string)) : result (list string) :=
  let mapped_messages := map _map_role_to_openai messages in
  match chat_completions_create (model_name self) mapped_messages stop with
  | Ok response => Ok response
  | Raise e => Raise e
  end.

Definition __call__ `{Backends} (self : Provider)
    (messages : list Message) (stop_sequences : option (list string)) : result string :=
  match rbind (_make_api_call self messages stop_sequences) first with
  | Ok content => Ok content
  | Raise e => Ok (_handle_api_error e "call")
  end.

End OpenAIProvider.

Module AnthropicProvider.

Definition __init__ (env : gmap string string)
    (model_name : string) (api_key : option string) : result Provider :=
  let key := py_or api_key (env !! "ANTHROPIC_API_KEY") in
  if truthy_opt key then
    Ok {| cls := Anthropic; api_key := key; model_name := model_name;
          base_url := None; _current_request := None |}
  else Raise (ValueError "Anthropic API key not provided").

Definition cancel_request (self : Provider) (closed : Handles) : Provider * Handles :=
  match _current_request self with
  | Some r =>
      if handle_ok r then (clear_current_request self, {[handle r]} ∪ closed)
      else (self, closed)
  | None => (self, closed)
  end.

Definition _convert_messages_to_prompt (messages : list Message) : result string :=
  rbind (convert_loop EmptyString messages) (fun prompt => Ok (strip prompt)).

Definition __call__ `{Backends} (self : Provider)
    (messages : list Message) (stop_sequences : option (list string)) : result string :=
  rbind (_convert_messages_to_prompt messages) (fun prompt =>
  rbind (messages_create (model_name self) prompt stop_sequences) (fun response =>
  first response)).

End AnthropicProvider.

Module OllamaProvider.

Definition __init__ (model_name : string) : result Provider :=
  Ok {| cls := Ollama; api_key := None; model_name := model_name;
        base_url := Some "http://localhost:11434"; _current_request := None |}.

Definition cancel_request (self : Provider) (closed : Handles) : Provider * Handles :=
  match _current_request self with
  | Some r =>
      if handle_ok r then (clear_current_request self, {[handle r]} ∪ closed)
      else (self, closed)
  | None => (self, closed)
  end.

Definition _convert_messages_to_prompt (messages : list Message) : result string :=
  rbind (convert_loop EmptyString messages) (fun prompt => Ok (strip prompt)).

Definition __call__ `{Backends} (self : Provider)
    (messages : list Message) (stop_sequences : option (list string)) : result string :=
  rbind (_convert_messages_to_prompt messages) (fun prompt =>
  rbind (requests_post (default EmptyString (base_url self) +:+ "/api/generate")
           (OllamaGenerate (model_name self) prompt false
              (Some (default [] stop_sequences)))) (fun response =>
  rbind (raise_for_status response) (fun _ =>
  match answer response with
  | Some text => Ok text
  | None => Raise (KeyError "response")
  end))).

End OllamaProvider.

Module DeepSeekProvider.

Definition __init__ (env : gmap string string)
    (model_name : string) (api_key : option string) : result Provider :=
  let key := py_or api_key (env !! "DEEPSEEK_API_KEY") in
  if truthy_opt key then
    Ok {| cls := DeepSeek; api_key := key; model_name := model_name;
          base_url := Some "https://api.deepseek.com/v1"; _current_request := None |}
  else Raise (ValueError "DeepSeek API key not provided").

Definition cancel_request (self : Provider) (closed : Handles) : Provider * Handles :=
  match _current_request self with
  | Some r =>
      if handle_ok r then (clear_current_request self, {[handle r]} ∪ closed)
      else (self, closed)
  | None => (self, closed)
  end.

Definition __call__ `{Backends} (self : Provider)
    (messages : list Message) (stop_sequences : option (list string)) : result string :=
  rbind (requests_post (default EmptyString (base_url self) +:+ "/chat/completions")
           (DeepSeekChat (model_name self) messages (default [] stop_sequences)))
    (fun response =>
  rbind (raise_for_status response) (fun _ =>
  match answer response with
  | Some text => Ok text
  | None => Raise (KeyError "choices")
  end)).

End DeepSeekProvider.

(** Method dispatch on the class of the object. *)
Definition cancel_request (self : Provider) (closed : Handles) : Provider * Handles :=
  match cls self with
  | OpenAI => OpenAIProvider.cancel_request self closed
  | Anthropic => AnthropicProvider.cancel_request self closed
  | Ollama => OllamaProvider.cancel_request self closed
  | DeepSeek => DeepSeekProvider.cancel_request self closed
  end.

Definition __call__ `{Backends} (self : Provider)
    (messages : list Message) (stop_sequences : option (list string)) : result string :=
  match cls self with
  | OpenAI => OpenAIProvider.__call__ self messages stop_sequences
  | Anthropic => AnthropicProvider.__call__ self messages stop_sequences
  | Ollama => OllamaProvider.__call__ self messages stop_sequences
  | DeepSeek => DeepSeekProvider.__call__ self messages stop_sequences
  end.

End Llm.

(** ** smolagents: what the repository passes to it and gets back *)

Module Smolagents.

Record Tool : Type := {
  name : string;
  description : string;
  inputs : list (string * string);   (* parameter name, declared type *)
  output_type : string
}.

(** The arguments [CodeAgent(...)] is constructed with. [model] is the
    provider object, named by its identity. *)
Record CodeAgent : Type := {
  tools : list Tool;
  model : nat;
  max_steps : Z;
  verbose : bool;
  additional_authorized_imports : list string
}.

(** An item produced by iterating a value. *)
Inductive Chunk : Type :=
| ChunkStr (s : string)
| ChunkObj (repr : string).          (* any item that is not a [str] *)

(** The values [CodeAgent.run] and [process_request] return, as far as
    [chat] tells them apart. *)
Inductive PyValue : Type :=
| PyStr (s : string)
| PyGenerator (chunks : list Chunk) (failure : option exn)
    (* a lazy finite sequence: its items, then the end or an exception *)
| PyErrorDict (message : string)     (* {'error': True, 'message': message} *)
| PyObject (repr : string).          (* any other value, not iterable *)

End Smolagents.

(** The agent loop and the source of identifiers. *)
Class Runtime : Type := {
  (* agent.run(request, stream=stream, additional_args=...) *)
  agent_run : Smolagents.CodeAgent -> string -> bool -> result Smolagents.PyValue;
  (* the n-th value drawn from str(uuid.uuid4()) *)
  uuid4 : nat -> string
}.

(** ** src/agent_manager.py *)

Module AgentManager.
Import Smolagents.

(** The attributes of an [AgentManager]. [llm_provider] is a reference to
    a provider object. *)
Record t : Type := {
  llm_provider : nat;
  max_steps : Z;
  verbose : bool;
  tools : list Tool;
  authorized_imports : gset string;
  agent : CodeAgent
}.

Definition WebSearchTool : Tool :=
  {| name := "web_search"; description := "Search the web using DuckDuckGo";
     inputs := [("query", "string"); ("max_results", "integer")];
     output_type := "string" |}.
Definition WebScrapeTool : Tool :=
  {| name := "web_scrape"; description := "Scrape content from a webpage";
     inputs := [("url", "string")]; output_type := "string" |}.
Definition SystemCommandTool : Tool :=
  {| name := "system_command";
     description := "Execute system commands (use with caution)";
     inputs := [("command", "string")]; output_type := "string" |}.
Definition FileSystemTool : Tool :=
  {| name := "file_system"; description := "Perform file system operations";
     inputs := [("operation", "string"); ("path", "string"); ("content", "string")];
     output_type := "string" |}.
Definition TwitterSearchTool : Tool :=
  {| name := "twitter_search"; description := "Search Twitter for recent tweets";
     inputs := [("query", "string"); ("max_results", "integer")];
     output_type := "string" |}.
Definition SystemInfoTool : Tool :=
  {| name := "system_info"; description := "Get system information and metrics";
     inputs := [("metric", "string")]; output_type := "string" |}.

Definition default_tools : list Tool :=
  [WebSearchTool; WebScrapeTool; SystemCommandTool; FileSystemTool;
   TwitterSearchTool; SystemInfoTool].

Definition default_imports : gset string :=
  list_to_set ["os"; "sys"; "json"; "time"; "datetime"; "math";
               "random"; "requests"; "numpy"; "pandas"].

Definition _initialize_agent (self : t) : CodeAgent :=
  {| Smolagents.tools := tools self;
     Smolagents.model := llm_provider self;
     Smolagents.max_steps := max_steps self;
     Smolagents.verbose := verbose self;
     Smolagents.additional_authorized_imports := elements (authorized_imports self) |}.

Definition set_agent (self : t) (a : CodeAgent) : t :=
  {| llm_provider := llm_provider self; max_steps := max_steps self;
     verbose := verbose self; tools := tools self;
     authorized_imports := authorized_imports self; agent := a |}.

Definition set_tools (self : t) (ts : list Tool) : t :=
  {| llm_provider := llm_provider self; max_steps := max_steps self;
     verbose := verbose self; tools := ts;
     authorized_imports := authorized_imports self; agent := agent self |}.

(** The attribute assignment [self.llm_provider = p]. *)
Definition set_llm_provider (self : t) (p : nat) : t :=
  {| llm_provider := p; max_steps := max_steps self;
     verbose := verbose self; tools := tools self;
     authorized_imports := authorized_imports self; agent := agent self |}.

Definition set_max_steps (self : t) (n : Z) : t :=
  {| llm_provider := llm_provider self; max_steps := n;
     verbose := verbose self; tools := tools self;
     authorized_imports := authorized_imports self; agent := agent self |}.

Definition set_verbose (self : t) (b : bool) : t :=
  {| llm_provider := llm_provider self; max_steps := max_steps self;
     verbose := b; tools := tools self;
     authorized_imports := authorized_imports self; agent := agent self |}.

Definition set_authorized_imports (self : t) (s : gset string) : t :=
  {| llm_provider := llm_provider self; max_steps := max_steps self;
     verbose := verbose self; tools := tools self;
     authorized_imports := s; agent := agent self |}.

(** [__init__], once [llm_provider or OpenAIProvider()] has been
    evaluated to the object [llm_provider] (see [App.new_AgentManager]).
    An empty [additional_tools] or [additional_imports] is falsy and adds
    nothing, like [None]. *)
Definition __init__ (llm_provider : nat) (max_steps : Z) (verbose : bool)
    (additional_tools : list Tool) (additional_imports : list string) : t :=
  let self :=
    {| llm_provider := llm_provider; max_steps := max_steps; verbose := verbose;
       tools := default_tools ++ additional_tools;
       authorized_imports := default_imports ∪ list_to_set additional_imports;
       agent := {| Smolagents.tools := []; Smolagents.model := llm_provider;
                   Smolagents.max_steps := max_steps; Smolagents.verbose := verbose;
                   Smolagents.additional_authorized_imports := [] |} |} in
  set_agent self (_initialize_agent self).

Definition add_tool (self : t) (tool : Tool) : t :=
  let self := set_tools self (tools self ++ [tool]) in
  set_agent self (_initialize_agent self).

Definition remove_tool (self : t) (tool_name : string) : t :=
  let self :=
    set_tools self (filter (fun t => name t <> tool_name) (tools self)) in
  set_agent self (_initialize_agent self).

Definition get_available_tools (self : t) : list Tool := tools self.

Definition process_request `{Runtime} (self : t) (request : string)
    (stream : bool) : result PyValue :=
  match agent_run (agent self) request stream with
  | Ok v => Ok v
  | Raise e => Ok (PyErrorDict ("Error processing request: " +:+ str_exn e))
  end.

Definition update_configuration (self : t) (llm_provider : option nat)
    (max_steps : option Z) (verbose : option bool)
    (additional_imports : list string) : t :=
  let self := match llm_provider with
              | Some p => set_llm_provider self p | None => self end in
  let self := match max_steps with
              | Some n => set_max_steps self n | None => self end in
  let self := match verbose with
              | Some b => set_verbose self b | None => self end in
  let self := match additional_imports with
              | [] => self
              | _ => set_authorized_imports self
                       (authorized_imports self ∪ list_to_set additional_imports)
              end in
  set_agent self (_initialize_agent self).

(** What [get_agent_status] returns. *)
Record Status : Type := {
  status_llm_provider : string;
  num_tools : nat;
  status_max_steps : Z;
  status_verbose : bool;
  status_authorized_imports : list string
}.

(** [obj.__class__.__name__] of a provider object. *)
Definition class_name (c : Llm.ProviderClass) : string :=
  match c with
  | Llm.OpenAI => "OpenAIProvider"
  | Llm.Anthropic => "AnthropicProvider"
  | Llm.Ollama => "OllamaProvider"
  | Llm.DeepSeek => "DeepSeekProvider"
  end.

(** [get_agent_status]; [provider] is the object [self.llm_provider]
    refers to. [sorted] orders strings by their characters' codes. *)
Definition get_agent_status (self : t) (provider : Llm.Provider) : Status :=
  {| status_llm_provider := class_name (Llm.cls provider);
     num_tools := length (tools self);
     status_max_steps := max_steps self;
     status_verbose := verbose self;
     status_authorized_imports :=
       merge_sort String.le (elements (authorized_imports self)) |}.

End AgentManager.

(** ** src/app.py: sessions, connections and the chat endpoint *)

Module App.
Import PyStr Smolagents.

(** The events pushed over a websocket. *)
Inductive Event : Type :=
| Thinking (value : bool)
    (* {"type": "thinking", "value": value} *)
| ChatMessage (id role content : string) (is_streaming : option bool).
    (* {"type": "message", "content": {id, role, content, is_streaming?}} *)

(** A websocket object: what was sent through it, whether [close] was
    called on it, and whether its peer is gone. The transport is outside
    the repository; its contract as taken here is that [send_json] and
    [close] raise on a websocket that is closed or whose peer is gone,
    and succeed otherwise. *)
Record Socket : Type := {
  sent : list Event;
  closed : bool;
  broken : bool
}.

Definition usable (s : Socket) : bool := negb (closed s) && negb (broken s).

(** An entry of [active_connections]. *)
Record Connection : Type := {
  websocket : nat;
  client_id : string
}.

(** What the endpoints answer. *)
Inductive Response : Type :=
| Success                   (* {"status": "success"} *)
| Failure (message : string).   (* {"status": "error", "message": message} *)

(** The module-level dictionaries of [app.py], the stores of the objects
    they refer to, the process environment and the number of identifiers
    drawn so far. *)
Record World : Type := {
  chat_sessions : gmap string AgentManager.t;
  active_requests : gmap string (option nat);
  active_connections : gmap string Connection;
  providers : gmap nat Llm.Provider;
  closed_handles : gset nat;
  sockets : gmap nat Socket;
  environ : gmap string string;
  uuid_count : nat
}.

Definition with_chat_sessions (f : gmap string AgentManager.t -> gmap string AgentManager.t)
    (w : World) : World :=
  {| chat_sessions := f (chat_sessions w); active_requests := active_requests w;
     active_connections := active_connections w; providers := providers w;
     closed_handles := closed_handles w; sockets := sockets w;
     environ := environ w; uuid_count := uuid_count w |}.

Definition with_active_requests (f : gmap string (option nat) -> gmap string (option nat))
    (w : World) : World :=
  {| chat_sessions := chat_sessions w; active_requests := f (active_requests w);
     active_connections := active_connections w; providers := providers w;
     closed_handles := closed_handles w; sockets := sockets w;
     environ := environ w; uuid_count := uuid_count w |}.

Definition with_active_connections (f : gmap string Connection -> gmap string Connection)
    (w : World) : World :=
  {| chat_sessions := chat_sessions w; active_requests := active_requests w;
     active_connections := f (active_connections w); providers := providers w;
     closed_handles := closed_handles w; sockets := sockets w;
     environ := environ w; uuid_count := uuid_count w |}.

Definition with_providers (f : gmap nat Llm.Provider -> gmap nat Llm.Provider)
    (w : World) : World :=
  {| chat_sessions := chat_sessions w; active_requests := active_requests w;
     active_connections := active_connections w; providers := f (providers w);
     closed_handles := closed_handles w; sockets := sockets w;
     environ := environ w; uuid_count := uuid_count w |}.

Definition with_closed_handles (f : gset nat -> gset nat) (w : World) : World :=
  {| chat_sessions := chat_sessions w; active_requests := active_requests w;
     active_connections := active_connections w; providers := providers w;
     closed_handles := f (closed_handles w); sockets := sockets w;
     environ := environ w; uuid_count := uuid_count w |}.

Definition with_sockets (f : gmap nat Socket -> gmap nat Socket) (w : World) : World :=
  {| chat_sessions := chat_sessions w; active_requests := active_requests w;
     active_connections := active_connections w; providers := providers w;
     closed_handles := closed_handles w; sockets := f (sockets w);
     environ := environ w; uuid_count := uuid_count w |}.

Definition with_uuid_count (f : nat -> nat) (w : World) : World :=
  {| chat_sessions := chat_sessions w; active_requests := active_requests w;
     active_connections := active_connections w; providers := providers w;
     closed_handles := closed_handles w; sockets := sockets w;
     environ := environ w; uuid_count := f (uuid_count w) |}.

(** *** The monad of the endpoints: state and exceptions *)

Definition M (A : Type) : Type := World -> result A * World.

#[global] Instance M_ret : MRet M := fun A a w => (Ok a, w).

#[global] Instance M_bind : MBind M := fun A B k m w =>
  match m w with
  | (Ok a, w') => k a w'
  | (Raise e, w') => (Raise e, w')
  end.

Definition raise {A} (e : exn) : M A := fun w => (Raise e, w).

Definition lift {A} (r : result A) : M A := fun w => (r, w).

(** Reading a module-level dictionary (or another part of the state). *)
Definition gets {A} (f : World -> A) : M A := fun w => (Ok (f w), w).

Definition modify (f : World -> World) : M unit := fun w => (Ok tt, f w).

(** [try: body / except Exception as e: handler(e)] *)
Definition try_except {A} (body : M A) (handler : exn -> M A) : M A := fun w =>
  match body w with
  | (Ok a, w') => (Ok a, w')
  | (Raise e, w') => handler e w'
  end.

(** [try: body / finally: final] *)
Definition try_finally {A} (body : M A) (final : M unit) : M A := fun w =>
  match body w with
  | (r, w') =>
      match final w' with
      | (Ok _, w'') => (r, w'')
      | (Raise e, w'') => (Raise e, w'')
      end
  end.

(** [str(uuid.uuid4())] *)
Definition new_uuid `{Runtime} : M string := fun w =>
  (Ok (uuid4 (uuid_count w)), with_uuid_count S w).

(** Object creation: the constructor's result, stored under a fresh
    identity. *)
Definition new_provider (made : result Llm.Provider) : M nat := fun w =>
  match made with
  | Ok p =>
      let l := fresh (dom (providers w)) in
      (Ok l, with_providers (insert l p) w)
  | Raise e => (Raise e, w)
  end.

(** [websocket.send_json(message)] *)
Definition send_json (ws : nat) (message : Event) : M unit := fun w =>
  match sockets w !! ws with
  | Some s =>
      if usable s then
        (Ok tt, with_sockets (insert ws {| sent := sent s ++ [message];
                                           closed := closed s;
                                           broken := broken s |}) w)
      else (Raise (RuntimeError "websocket is not connected"), w)
  | None => (Raise (RuntimeError "websocket is not connected"), w)
  end.

(** [websocket.close()] *)
Definition close (ws : nat) : M unit := fun w =>
  match sockets w !! ws with
  | Some s =>
      if usable s then
        (Ok tt, with_sockets (insert ws {| sent := sent s; closed := true;
                                           broken := broken s |}) w)
      else (Raise (RuntimeError "websocket is not connected"), w)
  | None => (Raise (RuntimeError "websocket is not connected"), w)
  end.

(** [active_requests[session_id] = value] *)
Definition set_active_request (session_id : string) (value : option nat) : M unit :=
  modify (with_active_requests (insert session_id value)).

(** The marker of a session is empty when the key is absent or holds
    [None]. *)
Definition marker (w : World) (session_id : string) : option nat :=
  mjoin (active_requests w !! session_id).

Definition broadcast_message (message : Event) (session_id : string) : M unit :=
  connections ← gets active_connections;
  match connections !! session_id with
  | Some c =>
      try_except (send_json (websocket c) message)
        (fun _ => modify (with_active_connections (delete session_id)))
  | None => mret tt
  end.

(** [websocket_endpoint] up to the storing of the new connection;
    [websocket.accept()] changes none of the state kept here. *)
Definition websocket_endpoint `{Runtime} (websocket : nat) (session_id : string) : M unit :=
  connections ← gets active_connections;
  match connections !! session_id with
  | Some c => try_except (close (App.websocket c)) (fun _ => mret tt)
  | None => mret tt
  end;;
  client_id ← new_uuid;
  modify (with_active_connections
            (insert session_id {| websocket := websocket; client_id := client_id |})).

(** [websocket_endpoint] when [receive_text] raises: both handlers. *)
Definition websocket_disconnect (session_id : string) : M unit :=
  connections ← gets active_connections;
  match connections !! session_id with
  | Some _ => modify (with_active_connections (delete session_id))
  | None => mret tt
  end.

(** [AgentManager(llm_provider=..., verbose=...)] with the default
    [llm_provider or OpenAIProvider()]. *)
Definition new_AgentManager (llm_provider : option nat) (max_steps : Z)
    (verbose : bool) : M AgentManager.t :=
  p ← match llm_provider with
      | Some p => mret p
      | None =>
          env ← gets environ;
          new_provider (Llm.OpenAIProvider.__init__ env "gpt-4-turbo-preview" None)
      end;
  mret (AgentManager.__init__ p max_steps verbose [] []).

Definition new_chat `{Runtime} : M string :=
  session_id ← new_uuid;
  am ← new_AgentManager None 10 true;
  modify (with_chat_sessions (insert session_id am));;
  mret session_id.

(** [agent.llm_provider.cancel_request()] on the object [p]. *)
Definition provider_cancel_request (p : nat) : M unit := fun w =>
  match providers w !! p with
  | Some self =>
      let '(self', closed') := Llm.cancel_request self (closed_handles w) in
      (Ok tt, with_closed_handles (fun _ => closed')
                (with_providers (insert p self') w))
  | None => (Ok tt, w)
  end.

Definition cancel_chat (session_id : string) : M Response :=
  request ← gets (fun w => marker w session_id);
  match request with
  | Some _ =>
      sessions ← gets chat_sessions;
      match sessions !! session_id with
      | Some agent => provider_cancel_request (AgentManager.llm_provider agent)
      | None => mret tt
      end;;
      set_active_request session_id None
  | None => mret tt
  end;;
  mret Success.

(** The loop [for chunk in response] of [chat], on the text accumulated
    so far; it returns [full_response]. *)
Fixpoint stream_chunks (session_id message_id full_response : string)
    (chunks : list Chunk) (failure : option exn) : M string :=
  match chunks with
  | [] =>
      match failure with
      | None => mret full_response
      | Some e => raise e
      end
  | ChunkStr chunk :: rest =>
      let full_response := full_response +:+ chunk in
      broadcast_message
        (ChatMessage ("assistant-" +:+ message_id) "assistant" full_response (Some true))
        session_id;;
      stream_chunks session_id message_id full_response rest failure
  | ChunkObj _ :: rest =>
      stream_chunks session_id message_id full_response rest failure
  end.

(** The inner [try] block of [chat]: the agent call and the relaying of
    its response. *)
Definition relay_response `{Runtime} (agent_manager : AgentManager.t)
    (message : gmap string string) (session_id message_id : string) : M unit :=
  request ← lift (Llm.getitem message "message");
  response ← lift (AgentManager.process_request agent_manager request true);
  let streaming chunks failure :=
    full_response ← stream_chunks session_id message_id EmptyString chunks failure;
    if truthy full_response then
      broadcast_message
        (ChatMessage ("assistant-" +:+ message_id) "assistant" full_response (Some false))
        session_id
    else mret tt in
  let single text :=
    broadcast_message
      (ChatMessage ("assistant-" +:+ message_id) "assistant" text (Some false))
      session_id in
  match response with
  | PyGenerator chunks failure => streaming chunks failure
  | PyErrorDict _ => streaming [ChunkStr "error"; ChunkStr "message"] None
  | PyStr s => single s
  | PyObject repr => single repr
  end.

(** The provider selection of [chat]: the constructor call of the chosen
    class, or the [ValueError] of the last branch. *)
Definition create_provider (env : gmap string string)
    (provider model : string) : result Llm.Provider :=
  if String.eqb provider "ollama" then Llm.OllamaProvider.__init__ model
  else if String.eqb provider "openai" then Llm.OpenAIProvider.__init__ env model None
  else if String.eqb provider "anthropic" then Llm.AnthropicProvider.__init__ env model None
  else if String.eqb provider "deepseek" then Llm.DeepSeekProvider.__init__ env model None
  else Raise (ValueError ("Unsupported provider: " +:+ provider)).

(** [chat] from the provider creation to the storing of the active
    request, for a request that passed the checks of the session, the
    connection and the selection. It returns the manager and the new
    provider. *)
Definition start_request (message : gmap string string) (agent_manager : AgentManager.t)
    (session_id message_id provider model : string) : M (AgentManager.t * nat) :=
  env ← gets environ;
  llm_provider ← new_provider (create_provider env provider model);
  let agent_manager := AgentManager.set_llm_provider agent_manager llm_provider in
  modify (with_chat_sessions (insert session_id agent_manager));;
  broadcast_message (Thinking true) session_id;;
  request ← lift (Llm.getitem message "message");
  broadcast_message (ChatMessage ("user-" +:+ message_id) "user" request None) session_id;;
  set_active_request session_id (Some llm_provider);;
  mret (agent_manager, llm_provider).

(** The [finally] block of [chat]. *)
Definition release (session_id : string) : M unit :=
  set_active_request session_id None;;
  broadcast_message (Thinking false) session_id.

(** [chat] from the provider creation on. *)
Definition serve `{Runtime} (message : gmap string string)
    (agent_manager : AgentManager.t)
    (session_id message_id provider model : string) : M Response :=
  '(agent_manager, llm_provider) ←
    start_request message agent_manager session_id message_id provider model;
  try_finally
    (relay_response agent_manager message session_id message_id)
    (release session_id);;
  mret Success.

(** The [try] block of [chat]. *)
Definition chat_body `{Runtime} (message : gmap string string) : M Response :=
  match message !! "session_id" with
  | Some session_id =>
      if negb (truthy session_id) then mret (Failure "Invalid session ID") else
      sessions ← gets chat_sessions;
      match sessions !! session_id with
      | None => mret (Failure "Invalid session ID")
      | Some agent_manager =>
          connections ← gets active_connections;
          if bool_decide (connections !! session_id = None) then
            mret (Failure "No active WebSocket connection")
          else
            message_id ← new_uuid;
            let provider := default EmptyString (message !! "provider") in
            let model := default EmptyString (message !! "model") in
            if negb (truthy provider) || negb (truthy model) then
              mret (Failure "Provider and model must be selected")
            else serve message agent_manager session_id message_id provider model
      end
  | None => mret (Failure "Invalid session ID")
  end.

(** The [except Exception as e] block of [chat]. *)
Definition chat_handler `{Runtime} (message : gmap string string) (e : exn) : M Response :=
  match message !! "session_id" with
  | Some session_id =>
      (if truthy session_id then set_active_request session_id None else mret tt);;
      connections ← gets active_connections;
      match connections !! session_id with
      | Some _ =>
          broadcast_message (Thinking false) session_id;;
          error_id ← new_uuid;
          broadcast_message
            (ChatMessage ("error-" +:+ error_id) "assistant"
               ("Error: " +:+ str_exn e) None) session_id
      | None => mret tt
      end
  | None => mret tt
  end;;
  mret (Failure (str_exn e)).

Definition chat `{Runtime} (message : gmap string string) : M Response :=
  try_except (chat_body message) (chat_handler message).

(** [chat] for a request whose "session_id" is any JSON value, the
    endpoint taking a [Dict[str, Any]]; [message] holds the other
    fields. The keys of the three dictionaries are strings: a value that
    is no string is a key of none of them, and the tests
    [session_id not in chat_sessions] and
    [session_id in active_connections] and the assignment
    [active_requests[session_id] = None] first hash it. An entry made
    under a key that is no string is read by no endpoint, the session id
    of the other endpoints being a string of the path. *)
Definition chat_any `{Runtime} (session_id : Json)
    (message : gmap string string) : M Response :=
  match session_id with
  | JString s => chat (<["session_id" := s]> message)
  | _ =>
      try_except
        (if negb (PyJson.truthy session_id) then
           mret (Failure "Invalid session ID")
         else
           lift (PyJson.hash session_id);;
           mret (Failure "Invalid session ID"))
        (fun e =>
           (if PyJson.truthy session_id then lift (PyJson.hash session_id)
            else mret tt);;
           lift (PyJson.hash session_id);;
           mret (Failure (str_exn e)))
  end.

(** A run of events sent one after the other to a session. *)
Fixpoint broadcast_all (messages : list Event) (session_id : string) : M unit :=
  match messages with
  | [] => mret tt
  | message :: rest =>
      broadcast_message message session_id;; broadcast_all rest session_id
  end.

(** [get_tools]: the tools of a temporary manager. *)
Definition get_tools : M (list Tool) :=
  temp_agent ← new_AgentManager None 10 false;
  mret (AgentManager.get_available_tools temp_agent).

(** [get_status]: the status of a temporary manager. The store holds the
    object of a reference that was just created; the other branch is
    never taken. *)
Definition get_status : M AgentManager.Status :=
  temp_agent ← new_AgentManager None 10 false;
  provider ← gets (fun w => providers w !! AgentManager.llm_provider temp_agent);
  match provider with
  | Some p => mret (AgentManager.get_agent_status temp_agent p)
  | None => raise (RuntimeError "no such object")
  end.

(** [update_provider]. It has no [try] block: what it raises leaves the
    endpoint. *)
Definition update_provider (data : gmap string string) : M Response :=
  provider ← lift (Llm.getitem data "provider");
  env ← gets environ;
  let configure llm_provider :=
    default_provider ←
      new_provider (Llm.OpenAIProvider.__init__ env "gpt-4-turbo-preview" None);
    temp_agent ← new_AgentManager (Some default_provider) 10 false;
    let temp_agent :=
      AgentManager.update_configuration temp_agent (Some llm_provider)
        None None [] in
    mret Success in
  if String.eqb provider "OpenAI" then
    llm_provider ←
      new_provider (Llm.OpenAIProvider.__init__ env "gpt-4-turbo-preview" None);
    configure llm_provider
  else if String.eqb provider "Anthropic" then
    llm_provider ←
      new_provider (Llm.AnthropicProvider.__init__ env "claude-3-opus-20240229" None);
    configure llm_provider
  else mret (Failure "Unsupported provider").

(** [clear_chat] *)
Definition clear_chat : M Response := mret Success.

(** The state when the module has been loaded: the three dictionaries
    are empty. *)
Definition initial (env : gmap string string) : World :=
  {| chat_sessions := ∅; active_requests := ∅; active_connections := ∅;
     providers := ∅; closed_handles := ∅; sockets := ∅;
     environ := env; uuid_count := 0 |}.

End App.

(** ** src/app.py: the endpoints that call other services *)

(** The services behind [get_models] and [generate_image]. Each call
    either returns or raises. *)
Record TagsResponse : Type := {
  tags_ok : bool;                        (* response.ok *)
  tags_names : result (list string)
    (* [model["name"] for model in response.json()["models"]] *)
}.

Class Services : Type := {
  (* requests.get("http://localhost:11434/api/tags") *)
  requests_get_tags : result TagsResponse;
  (* openai.OpenAI().models.list(): the ids of models.data *)
  openai_models_list : result (list string);
  (* anthropic.Anthropic(api_key=...).models.list(limit=100): the id and
     the display name of each model of response.data *)
  anthropic_models_list : string -> result (list (string * string));
  (* openai.OpenAI().images.generate(model="dall-e-3", prompt=..., size=...,
     quality="standard", n=1): the urls of response.data *)
  images_generate : string -> string -> result (list string)
}.

Module AppServices.
Import PyStr.

(** [sep.join(parts)] *)
Fixpoint join_with (sep : string) (parts : list string) : string :=
  match parts with
  | [] => EmptyString
  | [part] => part
  | part :: rest => part +:+ sep +:+ join_with sep rest
  end.

(** [s.startswith((a, b))] *)
Definition startswith_any (prefixes : list string) (s : string) : bool :=
  existsb (fun p => String.prefix p s) prefixes.

(** [f"{provider}"] of a value that may be [None]. *)
Definition format_opt (o : option string) : string := default "None" o.

(** What [get_models] answers: a list of {"id", "name"}, [null], or
    {"error": message}. *)
Inductive ModelsReply : Type :=
| ModelList (models : list (string * string))
| ModelsNull
| ModelsError (message : string).

Definition get_models `{Services} (env : gmap string string)
    (provider : string) : ModelsReply :=
  let body : result ModelsReply :=
    if String.eqb provider "ollama" then
      rbind requests_get_tags (fun response =>
      if tags_ok response then
        rbind (tags_names response) (fun names =>
        Ok (ModelList (map (fun n => (n, n)) names)))
      else Ok ModelsNull)
    else if String.eqb provider "openai" then
      rbind openai_models_list (fun ids =>
      Ok (ModelList
            (map (fun i => (i, i))
               (List.filter (startswith_any ["gpt-4"; "gpt-3.5"]) ids))))
    else if String.eqb provider "anthropic" then
      let api_key := env !! "ANTHROPIC_API_KEY" in
      if negb (truthy_opt api_key) then
        Raise (ValueError "ANTHROPIC_API_KEY not found in environment variables")
      else
        rbind (anthropic_models_list (default EmptyString api_key)) (fun models =>
        Ok (ModelList models))
    else if String.eqb provider "deepseek" then
      Ok (ModelList [("deepseek-coder", "DeepSeek Coder");
                     ("deepseek-chat", "DeepSeek Chat")])
    else Raise (ValueError ("Unsupported provider: " +:+ provider)) in
  match body with
  | Ok reply => reply
  | Raise e => ModelsError (str_exn e)
  end.

(** What [generate_image] answers: {"url": url} or {"error": message}. *)
Inductive ImageReply : Type :=
| ImageUrl (url : string)
| ImageError (message : string).

Definition valid_sizes : list string := ["256x256"; "512x512"; "1024x1024"].

Definition generate_image `{Services} (request : gmap string string) : ImageReply :=
  let provider := request !! "provider" in
  let prompt := request !! "prompt" in
  let size := default "1024x1024" (request !! "size") in
  let body : result ImageReply :=
    if negb (truthy_opt prompt) then Raise (ValueError "Prompt is required")
    else if negb (bool_decide (size ∈ valid_sizes)) then
      Raise (ValueError ("Invalid size. Supported sizes are: "
                         +:+ join_with ", " valid_sizes))
    else if bool_decide (provider = Some "openai") then
      rbind (images_generate (default EmptyString prompt) size) (fun data =>
      rbind (Llm.first data) (fun url => Ok (ImageUrl url)))
    else
      Raise (ValueError ("Unsupported provider for image generation: "
                         +:+ format_opt provider)) in
  match body with
  | Ok reply => reply
  | Raise e => ImageError (str_exn e)
  end.

(** What [web_search] answers: {"results": results} or
    {"error": message}. *)
Inductive SearchReply : Type :=
| SearchResults (results : list string)
| SearchError (message : string).

Definition web_search (request : gmap string string) : SearchReply :=
  let query := request !! "query" in
  let body : result SearchReply :=
    if negb (truthy_opt query) then Raise (ValueError "Search query is required")
    else Ok (SearchResults []) in
  match body with
  | Ok reply => reply
  | Raise e => SearchError (str_exn e)
  end.

End AppServices.

(** ** src/llm.py: [generate_response] and [get_tool_call] *)

(** A line of a streamed HTTP body, as [iter_lines] gives it. *)
Inductive Line : Type :=
| BlankLine                  (* an empty line *)
| JsonLine (value : Json)    (* a line that parses, with its value *)
| BadLine (msg : string).
    (* a line that cannot be decoded or parsed: the [ValueError] that
       [line.decode] or [json.loads] raises says [msg] *)

(** The part of a [requests.Response] that [generate_response] reads. *)
Record StreamResponse : Type := {
  stream_status : nat;
  stream_answer : option string;       (* the answer field of the JSON body *)
  stream_lines : list Line             (* iter_lines() *)
}.

(** What [generate_response] posts. *)
Inductive StreamBody : Type :=
| OllamaStream (model prompt : string) (stream : bool)
| DeepSeekStream (model : string) (messages : list Message) (stream : bool).

(** The remote services as [generate_response] and [get_tool_call] call
    them. A response object is named by its identity. *)
Class Completions : Type := {
  (* client.chat.completions.create(model=..., messages=..., stream=...):
     the response object and the contents of its choices *)
  completions_create :
    string -> list Message -> bool -> result (nat * list string);
  (* client.chat.completions.create(..., tools=..., tool_choice="auto",
     stop=...): for each choice, the names of the tool calls of its
     message *)
  completions_create_tools :
    string -> list Message -> list Smolagents.Tool -> list string ->
    result (list (list string));
  (* client.messages.create(model=..., messages=[...], stream=False): the
     texts of the content blocks *)
  messages_create_whole : string -> string -> result (list string);
  (* client.messages.create(model=..., messages=[...], stream=True): the
     texts of the content blocks of each chunk *)
  messages_create_chunks : string -> string -> result (list (list string));
  (* requests.post(url, json=..., stream=...) *)
  post_stream : string -> StreamBody -> result (nat * StreamResponse)
}.

Module Generate.
Import PyStr Llm.

(** What [generate_response] returns. *)
Inductive Generated : Type :=
| GenText (s : string)
| GenObject (h : nat)
    (* the stream object of the OpenAI client, returned as it is *)
| GenIter (items : list Json) (failure : option exn).
    (* a generator, run undisturbed to its end: the values it yields,
       then its end or the exception that stops it *)

(** [if system_prompt: messages = [{"role": "system", ...}] + messages] *)
Definition with_system_prompt (system_prompt : option string)
    (messages : list Message) : list Message :=
  if truthy_opt system_prompt then
    <["role" := "system"]>
      (<["content" := default EmptyString system_prompt]> ∅) :: messages
  else messages.

(** [if line], on a line of bytes. *)
Definition line_truthy (line : Line) : bool :=
  match line with
  | BlankLine => false
  | _ => true
  end.

(** [json.loads(line)] and [json.loads(line.decode())] *)
Definition loads (line : Line) : result Json :=
  match line with
  | JsonLine value => Ok value
  | BadLine msg => Raise (ValueError msg)
  | BlankLine => Raise (ValueError "Expecting value: line 1 column 1 (char 0)")
  end.

(** The loop [for line in response.iter_lines()] of a generator. [body]
    is the body of the loop: it gives the value the line makes the
    generator yield, if any, or raises. *)
Fixpoint for_lines (body : Line -> result (option Json)) (lines : list Line)
    : list Json * option exn :=
  match lines with
  | [] => ([], None)
  | line :: rest =>
      match body line with
      | Raise e => ([], Some e)
      | Ok yielded =>
          let '(items, failure) := for_lines body rest in
          (match yielded with
           | Some item => item :: items
           | None => items
           end, failure)
      end
  end.

(** The generator of [AnthropicProvider]: [chunk.content[0].text] of each
    chunk. *)
Fixpoint first_texts (chunks : list (list string)) : list string * option exn :=
  match chunks with
  | [] => ([], None)
  | [] :: _ => ([], Some IndexError)
  | (text :: _) :: rest =>
      let '(items, failure) := first_texts rest in (text :: items, failure)
  end.

Module OpenAIProvider.

Definition generate_response `{Completions} (self : Provider)
    (messages : list Message) (system_prompt : option string)
    (stream : bool) : result Generated :=
  let body :=
    let messages := with_system_prompt system_prompt messages in
    let mapped_messages := map Llm.OpenAIProvider._map_role_to_openai messages in
    rbind (completions_create (model_name self) mapped_messages stream)
      (fun '(h, contents) =>
    if stream then Ok (GenObject h)
    else rbind (first contents) (fun content => Ok (GenText content))) in
  match body with
  | Ok v => Ok v
  | Raise e =>
      Ok (GenText (Llm.OpenAIProvider._handle_api_error e "generate_response"))
  end.

(** [get_tool_call]: the name of the selected tool call, or [None]. *)
Definition get_tool_call `{Completions} (self : Provider)
    (messages : list Message) (available_tools : list Smolagents.Tool)
    (stop_sequences : list string) : result (option string) :=
  let body :=
    let mapped_messages := map Llm.OpenAIProvider._map_role_to_openai messages in
    rbind (completions_create_tools (model_name self) mapped_messages
             available_tools stop_sequences) (fun choices =>
    rbind (first choices) (fun tool_calls =>
    match tool_calls with
    | [] => Ok None
    | tool_call :: _ => Ok (Some tool_call)
    end)) in
  match body with
  | Ok v => Ok v
  | Raise e => Ok None
  end.

End OpenAIProvider.

Module AnthropicProvider.

Definition generate_response `{Completions} (self : Provider)
    (messages : list Message) (system_prompt : option string)
    (stream : bool) : result Generated :=
  let messages := with_system_prompt system_prompt messages in
  rbind (Llm.AnthropicProvider._convert_messages_to_prompt messages) (fun prompt =>
  if stream then
    rbind (messages_create_chunks (model_name self) prompt) (fun response =>
    let '(items, failure) := first_texts response in
    Ok (GenIter (map JString items) failure))
  else
    rbind (messages_create_whole (model_name self) prompt) (fun response =>
    rbind (first response) (fun text => Ok (GenText text)))).

Definition get_tool_call `{Backends} (self : Provider)
    (messages : list Message) (available_tools : list Smolagents.Tool)
    (stop_sequences : list string) : result string :=
  rbind (Llm.AnthropicProvider._convert_messages_to_prompt messages) (fun prompt =>
  rbind (messages_create (model_name self) prompt (Some stop_sequences))
    (fun response =>
  first response)).

End AnthropicProvider.

Module OllamaProvider.

(** The body of the loop of [generate]. *)
Definition generate_body (line : Line) : result (option Json) :=
  if line_truthy line then
    rbind (loads line) (fun chunk =>
    rbind (PyJson.get chunk "response" JNull) (fun response =>
    if PyJson.truthy response then Ok (Some response) (* chunk["response"] *)
    else Ok None))
  else Ok None.

Definition generate (lines : list Line) : list Json * option exn :=
  for_lines generate_body lines.

Definition generate_response `{Completions} (self : Provider)
    (messages : list Message) (system_prompt : option string)
    (stream : bool) : result Generated :=
  let messages := with_system_prompt system_prompt messages in
  rbind (Llm.OllamaProvider._convert_messages_to_prompt messages) (fun prompt =>
  rbind (post_stream (default EmptyString (base_url self) +:+ "/api/generate")
           (OllamaStream (model_name self) prompt stream))
    (fun '(_, response) =>
  rbind (raise_for_status {| status_code := stream_status response;
                             answer := stream_answer response |}) (fun _ =>
  if stream then
    let '(items, failure) := generate (stream_lines response) in
    Ok (GenIter items failure)
  else
    match stream_answer response with
    | Some text => Ok (GenText text)
    | None => Raise (KeyError "response")
    end))).

End OllamaProvider.

Module DeepSeekProvider.

(** The body of the loop of [generate]. What is yielded,
    [data["choices"][0]["delta"]["content"]], is the value the test has
    just found truthy. *)
Definition generate_body (line : Line) : result (option Json) :=
  if line_truthy line then
    rbind (loads line) (fun data =>
    rbind (PyJson.get data "choices" JNull) (fun choices =>
    if PyJson.truthy choices then
      rbind (PyJson.item0 choices) (fun choice =>
      rbind (PyJson.get choice "delta" (JObject ∅)) (fun delta =>
      rbind (PyJson.get delta "content" JNull) (fun content =>
      if PyJson.truthy content then Ok (Some content) else Ok None)))
    else Ok None))
  else Ok None.

Definition generate (lines : list Line) : list Json * option exn :=
  for_lines generate_body lines.

(** [generate_response] assigns [self._current_request]: it returns the
    object as it leaves it together with its result. *)
Definition generate_response `{Completions} (self : Provider)
    (messages : list Message) (system_prompt : option string)
    (stream : bool) : Provider * result Generated :=
  let messages := with_system_prompt system_prompt messages in
  match post_stream (default EmptyString (base_url self) +:+ "/chat/completions")
          (DeepSeekStream (model_name self) messages stream) with
  | Raise e => (self, Raise e)
  | Ok (h, response) =>
      let self :=
        {| cls := cls self; api_key := api_key self;
           model_name := model_name self; base_url := base_url self;
           _current_request :=
             Some {| handle := h; handle_status := stream_status response |} |} in
      (self,
       rbind (raise_for_status {| status_code := stream_status response;
                                  answer := stream_answer response |}) (fun _ =>
       if stream then
         let '(items, failure) := generate (stream_lines response) in
         Ok (GenIter items failure)
       else
         match stream_answer response with
         | Some text => Ok (GenText text)
         | None => Raise (KeyError "choices")
         end))
  end.

End DeepSeekProvider.

(** Method dispatch on the class of the object. *)
Definition generate_response `{Completions} (self : Provider)
    (messages : list Message) (system_prompt : option string)
    (stream : bool) : Provider * result Generated :=
  match cls self with
  | OpenAI =>
      (self, OpenAIProvider.generate_response self messages system_prompt stream)
  | Anthropic =>
      (self, AnthropicProvider.generate_response self messages system_prompt stream)
  | Ollama =>
      (self, OllamaProvider.generate_response self messages system_prompt stream)
  | DeepSeek => DeepSeekProvider.generate_response self messages system_prompt stream
  end.

End Generate.

(** ** src/tools/base_tools.py *)

(** What a call into a library or the operating system gives: a value,
    or an exception, known to the tools by its message [str(e)]. *)
Inductive outcome (A : Type) : Type :=
| Returned (a : A)
| Raised (message : string).
Arguments Returned {A} a.
Arguments Raised {A} message.

Definition obind {A B} (o : outcome A) (k : A -> outcome B) : outcome B :=
  match o with Returned a => k a | Raised m => Raised m end.

(** [try: body / except Exception as e: return prefix + str(e)] *)
Definition or_message {A} (body : outcome A) (handler : string -> A) : outcome A :=
  match body with
  | Returned a => Returned a
  | Raised m => Returned (handler m)
  end.

(** The standard streams of a [subprocess.CompletedProcess]. *)
Record CompletedProcess : Type := {
  stdout : string;
  stderr : string
}.

(** The libraries and the operating system, as the tools call them. *)
Class Host : Type := {
  (* with DDGS() as ddgs: str(list(ddgs.text(query, max_results=...))) *)
  ddgs_text : string -> Z -> outcome string;
  (* requests.get(url), raise_for_status(), BeautifulSoup(response.text,
     'html.parser'), the removal of the script and style elements and
     get_text() *)
  scrape_text : string -> outcome string;
  (* subprocess.run(command, shell=True, capture_output=True, text=True,
     timeout=...) *)
  subprocess_run : string -> nat -> outcome CompletedProcess;
  (* with open(path, 'r') as f: f.read() *)
  read_file : string -> outcome string;
  (* with open(path, 'w') as f: f.write(content) *)
  write_file : string -> option string -> outcome unit;
  (* str(os.listdir(path)) *)
  listdir : string -> outcome string;
  (* tweepy.OAuthHandler(api_key, api_secret), set_access_token(...) and
     tweepy.API(auth): the API object, named by its identity *)
  tweepy_API : string -> string -> string -> string -> outcome nat;
  (* api.search_tweets(q=query, count=max_results) and str of the list of
     the text, user and date of each tweet *)
  search_tweets : nat -> string -> Z -> outcome string;
  (* the psutil calls of a metric and str(info) *)
  psutil_info : string -> outcome string;
  (* str(e) of the UnboundLocalError of a local variable *)
  unbound_local_message : string -> string
}.

Module BaseTools.
Import PyStr.

Module WebSearchTool.

Definition forward `{Host} (query : string) (max_results : Z) : outcome string :=
  ddgs_text query max_results.

End WebSearchTool.

Module WebScrapeTool.

Definition forward `{Host} (url : string) : outcome string :=
  or_message (scrape_text url) (fun m => "Error scraping webpage: " +:+ m).

End WebScrapeTool.

Module SystemCommandTool.

Definition forward `{Host} (command : string) : outcome string :=
  or_message
    (obind (subprocess_run command 30) (fun result =>
     Returned (if truthy (stdout result) then stdout result else stderr result)))
    (fun m => "Error executing command: " +:+ m).

End SystemCommandTool.

Module FileSystemTool.

(** [forward] returns a string, or [None] when it falls off the end of
    its [if] chain. *)
Definition forward `{Host} (operation path : string) (content : option string) :
    outcome (option string) :=
  or_message
    (if String.eqb operation "read" then
       obind (read_file path) (fun text => Returned (Some text))
     else if String.eqb operation "write" then
       obind (write_file path content) (fun _ =>
       Returned (Some ("Successfully wrote to " +:+ path)))
     else if String.eqb operation "list" then
       obind (listdir path) (fun names => Returned (Some names))
     else Returned None)
    (fun m => Some ("Error performing file operation: " +:+ m)).

End FileSystemTool.

Module TwitterSearchTool.

Record t : Type := { api : option nat }.

Definition __init__ `{Host} (env : gmap string string) : t :=
  let api_key := env !! "TWITTER_API_KEY" in
  let api_secret := env !! "TWITTER_API_SECRET" in
  let access_token := env !! "TWITTER_ACCESS_TOKEN" in
  let access_token_secret := env !! "TWITTER_ACCESS_TOKEN_SECRET" in
  if forallb truthy_opt [api_key; api_secret; access_token; access_token_secret]
  then
    match tweepy_API (default EmptyString api_key) (default EmptyString api_secret)
            (default EmptyString access_token)
            (default EmptyString access_token_secret) with
    | Returned h => {| api := Some h |}
    | Raised _ => {| api := None |}
    end
  else {| api := None |}.

Definition is_initialized (self : t) : bool :=
  match api self with Some _ => true | None => false end.

Definition forward `{Host} (self : t) (query : string) (max_results : Z) :
    outcome string :=
  match api self with
  | None =>
      Returned ("Twitter API is not configured. Please set the required "
                +:+ "environment variables: TWITTER_API_KEY, TWITTER_API_SECRET, "
                +:+ "TWITTER_ACCESS_TOKEN, TWITTER_ACCESS_TOKEN_SECRET")
  | Some h =>
      or_message (search_tweets h query max_results)
        (fun m => "Error searching Twitter: " +:+ m)
  end.

End TwitterSearchTool.

Module SystemInfoTool.

(** The [if] chain assigns [info] for the three metrics it knows; for any
    other, [str(info)] finds the local variable unbound. *)
Definition forward `{Host} (metric : string) : outcome string :=
  or_message
    (if String.eqb metric "cpu" then psutil_info "cpu"
     else if String.eqb metric "memory" then psutil_info "memory"
     else if String.eqb metric "disk" then psutil_info "disk"
     else Raised (unbound_local_message "info"))
    (fun m => "Error getting system info: " +:+ m).

End SystemInfoTool.

End BaseTools.

(** ** src/tools/stock_tools.py *)

(** The market data and its indicators, and the interpreter's builtins. *)
Class Market (Row : Type) : Type := {
  (* yf.Ticker(ticker).history(start=..., end=...): the rows of the frame *)
  history : string -> outcome (list Row);
  (* the indicator columns, the two change columns and dropna() *)
  with_indicators : list Row -> outcome (list Row);
  (* whether a name is one of the interpreter's builtins *)
  is_builtin : string -> bool
}.

Module StockTools.
Import PyStr.

Definition upper_ascii (c : ascii) : ascii :=
  let n := nat_of_ascii c in
  if Nat.leb 97 n && Nat.leb n 122 then ascii_of_nat (n - 32) else c.

(** [s.upper()] on ASCII letters. *)
Fixpoint upper (s : string) : string :=
  match s with
  | EmptyString => EmptyString
  | String c s' => String (upper_ascii c) (upper s')
  end.

(** A bound of a slice, as Python clips it to the length [n]. *)
Definition clip (n : Z) (k : Z) : Z :=
  if (k <? 0)%Z then Z.max (k + n) 0 else Z.min k n.

(** [xs[lo:hi]] *)
Definition slice {A} (xs : list A) (lo hi : Z) : list A :=
  let n := Z.of_nat (length xs) in
  let lo := clip n lo in
  let hi := clip n hi in
  take (Z.to_nat (hi - lo)) (drop (Z.to_nat lo) xs).

(** [xs[k]]: a negative index counts from the end. *)
Definition index {A} (xs : list A) (k : Z) : result A :=
  let n := Z.of_nat (length xs) in
  let k := if (k <? 0)%Z then (k + n)%Z else k in
  if (k <? 0)%Z then Raise IndexError
  else match xs !! Z.to_nat k with
       | Some x => Ok x
       | None => Raise IndexError
       end.

(** The loop of [_create_sequences] over the values [i] of the range. *)
Fixpoint sequences_loop {A B} (X : list A) (y : list B) (lookback : Z)
    (range : list nat) : result (list (list A) * list B) :=
  match range with
  | [] => Ok ([], [])
  | i :: rest =>
      rbind (index y (Z.of_nat i + lookback)) (fun target =>
      rbind (sequences_loop X y lookback rest) (fun '(X_seq, y_seq) =>
      Ok (slice X (Z.of_nat i) (Z.of_nat i + lookback) :: X_seq,
          target :: y_seq)))
  end.

(** [_create_sequences(X, y, lookback)]; [range(n)] is empty for a
    negative [n]. *)
Definition _create_sequences {A B} (X : list A) (y : list B) (lookback : Z) :
    result (list (list A) * list B) :=
  sequences_loop X y lookback
    (seq 0 (Z.to_nat (Z.of_nat (length X) - lookback))).

(** [_get_stock_data(ticker)] *)
Definition _get_stock_data {Row} `{Market Row} (ticker : string) :
    outcome (list Row) :=
  obind (history ticker) (fun df =>
  match df with
  | [] => Raised ("No data found for ticker " +:+ ticker)
  | _ => with_indicators df
  end).

(** The globals of the module: the attributes the interpreter sets, the
    imports and the class. *)
Definition module_names : list string :=
  ["__name__"; "__doc__"; "__package__"; "__loader__"; "__spec__"; "__file__";
   "__cached__"; "__builtins__";
   "Tool"; "yf"; "pd"; "np"; "Dict"; "Any"; "List"; "datetime"; "timedelta";
   "MinMaxScaler"; "RandomForestRegressor"; "ta"; "StockPredictionTool"].

(** The evaluation of a name that no statement of the function assigns:
    the global or the builtin of that name, or [NameError]. *)
Definition load_global {Row} `{Market Row} (name : string) : outcome string :=
  if bool_decide (name ∈ module_names) || is_builtin name
  then Returned name
  else Raised ("name '" +:+ name +:+ "' is not defined").

(** What [forward] returns: the prediction, or
    {"error": message, "ticker": ticker}. *)
Inductive Reply (Prediction : Type) : Type :=
| Predicted (prediction : Prediction)
| Failed (error ticker : string).
Arguments Predicted {Prediction} prediction.
Arguments Failed {Prediction} error ticker.

(** [forward], called with keyword arguments. [continue_with] stands for the statements of the
    [try] block from the call of the object that the name
    [self_prepare_features] evaluates to. *)
Definition forward {Row Prediction} `{Market Row}
    (continue_with : string -> list Row -> outcome Prediction)
    (inputs : gmap string string) : result (Reply Prediction) :=
  rbind (Llm.getitem inputs "ticker") (fun ticker =>
  let ticker := upper ticker in
  let body :=
    obind (_get_stock_data ticker) (fun df =>
    obind (load_global "self_prepare_features") (fun callee =>
    continue_with callee df)) in
  match body with
  | Returned prediction => Ok (Predicted prediction)
  | Raised m => Ok (Failed ("Failed to predict stock prices: " +:+ m) ticker)
  end).

End StockTools.

(** * Vocabulary of the statements *)

Import PyStr Smolagents.

(** The role set of the specification's data model. *)
Definition fixed_roles : list string :=
  ["system"; "user"; "assistant"; "tool"; "tool-response"].

(** The label a known role is rendered with by the Anthropic and Ollama
    conversions; [None] for every other role. *)
Definition role_label (role : string) : option string :=
  if decide (role = "system") then Some "System: "
  else if decide (role = "user") then Some "Human: "
  else if decide (role = "assistant") then Some "Assistant: "
  else if decide (role = "function" \/ role = "tool-response") then Some "Tool Response: "
  else if decide (role = "tool") then Some "Tool Call: "
  else None.

(** The text a message contributes to the prompt. *)
Definition rendered (msg : Message) : string :=
  match role_label (default EmptyString (msg !! "role")) with
  | Some label => label +:+ default EmptyString (msg !! "content") +:+ nl +:+ nl
  | None => EmptyString
  end.

Definition join (parts : list string) : string :=
  foldr String.app EmptyString parts.

(** A message with both keys. *)
Definition well_keyed (msg : Message) : Prop :=
  is_Some (msg !! "role") /\ is_Some (msg !! "content").

(** A message with both keys whose role is in the fixed set or is
    function. *)
Definition known_message (msg : Message) : Prop :=
  (exists role, msg !! "role" = Some role /\ role ∈ "function" :: fixed_roles) /\
  is_Some (msg !! "content").

(** A computation that returns from every state. *)
Definition succeeds {A} (m : App.M A) : Prop :=
  forall w, exists a, fst (m w) = Ok a.

(** The state without the active request markers. *)
Definition forget (w : App.World) : App.World :=
  App.with_active_requests (fun _ => ∅) w.

(** A computation that neither reads nor depends on the active request
    markers: from two states that differ in them at most, it gives the
    same result and states that differ in them at most. *)
Definition oblivious {A} (m : App.M A) : Prop :=
  forall w1 w2, forget w1 = forget w2 ->
    fst (m w1) = fst (m w2) /\ forget (snd (m w1)) = forget (snd (m w2)).

(** A request that passes the checks at the head of [chat]: a known
    session with a bound connection, and a provider and a model. *)
Definition accepted (message : gmap string string) (w : App.World)
    (session_id : string) : Prop :=
  message !! "session_id" = Some session_id /\
  truthy session_id = true /\
  is_Some (App.chat_sessions w !! session_id) /\
  is_Some (App.active_connections w !! session_id) /\
  truthy (default EmptyString (message !! "provider")) = true /\
  truthy (default EmptyString (message !! "model")) = true.

(** The session is bound to the websocket [ws], or to none. *)
Definition bound_to_or_unbound (w : App.World) (session_id : string) (ws : nat) : Prop :=
  match App.active_connections w !! session_id with
  | Some c => App.websocket c = ws
  | None => True
  end.

(** The session is bound to the websocket [ws], which is usable and has
    been sent [log]. *)
Definition ready (w : App.World) (session_id : string) (ws : nat)
    (log : list App.Event) : Prop :=
  exists c s,
    App.active_connections w !! session_id = Some c /\
    App.websocket c = ws /\
    App.sockets w !! ws = Some s /\
    App.usable s = true /\
    App.sent s = log.

(** The events a run of chunks is relayed as, and the text it adds up to,
    from the text accumulated so far. *)
Fixpoint stream_events (message_id full_response : string)
    (chunks : list Chunk) : list App.Event :=
  match chunks with
  | [] => []
  | ChunkStr chunk :: rest =>
      App.ChatMessage ("assistant-" +:+ message_id) "assistant"
        (full_response +:+ chunk) (Some true)
      :: stream_events message_id (full_response +:+ chunk) rest
  | ChunkObj _ :: rest => stream_events message_id full_response rest
  end.

Fixpoint stream_text (full_response : string) (chunks : list Chunk) : string :=
  match chunks with
  | [] => full_response
  | ChunkStr chunk :: rest => stream_text (full_response +:+ chunk) rest
  | ChunkObj _ :: rest => stream_text full_response rest
  end.

(** A computation that leaves the marker of every session but
    [session_id] as it was. *)
Definition writes_only {A} (session_id : string) (m : App.M A) : Prop :=
  forall w sid, sid <> session_id ->
    App.active_requests (snd (m w)) !! sid = App.active_requests w !! sid.

(** No request is in flight. *)
Definition all_idle (w : App.World) : Prop :=
  forall session_id, App.marker w session_id = None.

(** A computation that leaves the part [f] of the state as it was. *)
Definition preserves {A B} (f : App.World -> B) (m : App.M A) : Prop :=
  forall w, f (snd (m w)) = f w.

(** A part of the state that is neither in the websockets nor in the
    connections. *)
Definition off_the_wire {B} (f : App.World -> B) : Prop :=
  (forall g w, f (App.with_sockets g w) = f w) /\
  (forall g w, f (App.with_active_connections g w) = f w).

(** No provider object has a transport handle attached. *)
Definition no_handles (w : App.World) : Prop :=
  forall l p, App.providers w !! l = Some p -> Llm._current_request p = None.

(** The last message of an answer, the message sent for an exception
    that left the [try] block of [chat], and the user's message. *)
Definition final_message (message_id text : string) : App.Event :=
  App.ChatMessage ("assistant-" +:+ message_id) "assistant" text (Some false).

Definition error_message (error_id : string) (e : exn) : App.Event :=
  App.ChatMessage ("error-" +:+ error_id) "assistant" ("Error: " +:+ str_exn e) None.

Definition user_message (message_id request : string) : App.Event :=
  App.ChatMessage ("user-" +:+ message_id) "user" request None.

Definition streaming_message (message_id text : string) : App.Event :=
  App.ChatMessage ("assistant-" +:+ message_id) "assistant" text (Some true).

(** The [str] items of a run of chunks, in order. *)
Fixpoint chunk_strings (chunks : list Chunk) : list string :=
  match chunks with
  | [] => []
  | ChunkStr s :: rest => s :: chunk_strings rest
  | ChunkObj _ :: rest => chunk_strings rest
  end.

(** Every provider object of the store satisfies [P]. *)
Definition stored (P : Llm.Provider -> Prop) (w : App.World) : Prop :=
  forall l p, App.providers w !! l = Some p -> P p.

(** A provider object as its constructor leaves it: no transport handle,
    the base URL of its class, and an API key that is not empty where the
    class takes one. *)
Definition as_constructed (p : Llm.Provider) : Prop :=
  Llm._current_request p = None /\
  match Llm.cls p with
  | Llm.OpenAI | Llm.Anthropic =>
      truthy_opt (Llm.api_key p) = true /\ Llm.base_url p = None
  | Llm.Ollama =>
      Llm.api_key p = None /\ Llm.base_url p = Some "http://localhost:11434"
  | Llm.DeepSeek =>
      truthy_opt (Llm.api_key p) = true /\
      Llm.base_url p = Some "https://api.deepseek.com/v1"
  end.

(** The session is bound to a websocket that cannot be sent to: it is
    closed, its peer is gone, or the transport does not know it. *)
Definition dead (w : App.World) (session_id : string) : Prop :=
  exists c, App.active_connections w !! session_id = Some c /\
    forall s, App.sockets w !! App.websocket c = Some s -> App.usable s = false.

(** How the agent call of [chat] and the relaying of its response end:
    with the [KeyError] of a request without "message", with the
    exception that broke the stream, or normally. *)
Definition relay_outcome `{Runtime} (agent_manager : AgentManager.t)
    (message : gmap string string) : result unit :=
  rbind (Llm.getitem message "message") (fun request =>
  rbind (AgentManager.process_request agent_manager request true) (fun response =>
  match response with
  | PyGenerator _ (Some e) => Raise e
  | _ => Ok tt
  end)).

(** The answer of [chat] to an accepted request of a session whose
    manager is [agent_manager]. *)
Definition chat_answer `{Runtime} (message : gmap string string) (w : App.World)
    (agent_manager : AgentManager.t) : App.Response :=
  let provider := default EmptyString (message !! "provider") in
  let model := default EmptyString (message !! "model") in
  let llm_provider := fresh (dom (App.providers w)) in
  match rbind (App.create_provider (App.environ w) provider model) (fun _ =>
          relay_outcome (AgentManager.set_llm_provider agent_manager llm_provider)
            message) with
  | Ok _ => App.Success
  | Raise e => App.Failure (str_exn e)
  end.

(** A computation that keeps the invariant [I] and, from a state that
    satisfies it, leaves the part [f] of the state as it was. *)
Definition keeps {A B} (I : App.World -> Prop) (f : App.World -> B)
    (m : App.M A) : Prop :=
  forall w, I w -> I (snd (m w)) /\ f (snd (m w)) = f w.

(** The states the endpoints lead to from the initial one; the transport
    may create, break or feed websockets at any time. *)
Inductive reachable `{Runtime} : App.World -> Prop :=
| reach_initial env : reachable (App.initial env)
| reach_transport w g : reachable w -> reachable (App.with_sockets g w)
| reach_new_chat w : reachable w -> reachable (snd (App.new_chat w))
| reach_websocket_endpoint w ws session_id :
    reachable w -> reachable (snd (App.websocket_endpoint ws session_id w))
| reach_websocket_disconnect w session_id :
    reachable w -> reachable (snd (App.websocket_disconnect session_id w))
| reach_chat w message : reachable w -> reachable (snd (App.chat message w))
| reach_cancel_chat w session_id :
    reachable w -> reachable (snd (App.cancel_chat session_id w))
| reach_update_provider w data :
    reachable w -> reachable (snd (App.update_provider data w))
| reach_get_tools w : reachable w -> reachable (snd (App.get_tools w))
| reach_get_status w : reachable w -> reachable (snd (App.get_status w)).

(** * Concrete inputs *)

Module Examples.
Import Llm.

(** Backends that refuse every call. *)
Definition backend_down : Backends :=
  {| chat_completions_create := fun _ _ _ => Raise (TransportError "connection refused");
     messages_create := fun _ _ _ => Raise (TransportError "connection refused");
     requests_post := fun _ _ => Raise (TransportError "connection refused") |}.

Definition adapter (c : ProviderClass) : Provider :=
  {| cls := c; api_key := Some "key"; model_name := "model";
     base_url := Some "http://localhost"; _current_request := None |}.

Definition message_of (role content : string) : Message :=
  <["role" := role]> (<["content" := content]> ∅).

Definition hello : Message := message_of "user" "Hello, how are you?".

(** Identifiers "0", "1", ... in the order they are drawn. *)
Definition digit (n : nat) : string := String (ascii_of_nat (48 + n)) EmptyString.

(** An agent loop that streams the chunks "Hel" and "lo". *)
Definition runtime_hello : Runtime :=
  {| agent_run := fun _ _ _ => Ok (PyGenerator [ChunkStr "Hel"; ChunkStr "lo"] None);
     uuid4 := digit |}.

(** An agent loop whose stream breaks after the chunk "Hel". *)
Definition runtime_lost : Runtime :=
  {| agent_run := fun _ _ _ =>
       Ok (PyGenerator [ChunkStr "Hel"] (Some (TransportError "connection lost")));
     uuid4 := digit |}.

(** An agent loop that raises at once. *)
Definition runtime_refusing : Runtime :=
  {| agent_run := fun _ _ _ => Raise (TransportError "connection refused");
     uuid4 := digit |}.

Definition ollama0 : Provider :=
  {| cls := Ollama; api_key := None; model_name := "llama3";
     base_url := Some "http://localhost:11434"; _current_request := None |}.

(** An adapter to which the response 3, of status 200, is attached. *)
Definition deepseek_streaming : Provider :=
  {| cls := DeepSeek; api_key := Some "key"; model_name := "deepseek-chat";
     base_url := Some "https://api.deepseek.com/v1";
     _current_request := Some {| handle := 3; handle_status := 200 |} |}.

(** An adapter to which the response 9, of status 500, is attached. *)
Definition deepseek_failed : Provider :=
  {| cls := DeepSeek; api_key := Some "key"; model_name := "deepseek-chat";
     base_url := Some "https://api.deepseek.com/v1";
     _current_request := Some {| handle := 9; handle_status := 500 |} |}.

Definition manager0 : AgentManager.t := AgentManager.__init__ 0 10 true [] [].

Definition socket0 : App.Socket :=
  {| App.sent := []; App.closed := false; App.broken := false |}.

Definition connection0 : App.Connection :=
  {| App.websocket := 7; App.client_id := "c1" |}.

(** One session, "s1", bound to the websocket 7, with no request in
    flight; the websocket 8 has been accepted but is bound to nothing. *)
Definition world_idle : App.World :=
  {| App.chat_sessions := {[ "s1" := manager0 ]};
     App.active_requests := ∅;
     App.active_connections := {[ "s1" := connection0 ]};
     App.providers := {[ 0 := ollama0 ]};
     App.closed_handles := ∅;
     App.sockets := <[7 := socket0]> {[ 8 := socket0 ]};
     App.environ := ∅;
     App.uuid_count := 0 |}.

(** The same, with the marker of "s1" holding the provider 0. *)
Definition world_busy : App.World :=
  App.with_active_requests (insert "s1" (Some 0)) world_idle.

Definition request0 : gmap string string :=
  <["session_id" := "s1"]> (<["provider" := "ollama"]>
  (<["model" := "llama3"]> (<["message" := "hi"]> ∅))).

(** A request that names no provider. *)
Definition request_unselected : gmap string string :=
  <["session_id" := "s1"]> (<["message" := "hi"]> ∅).

Definition events0 : list App.Event :=
  [App.Thinking true;
   App.ChatMessage "user-0" "user" "hi" None;
   App.ChatMessage "assistant-0" "assistant" "Hel" (Some true);
   App.ChatMessage "assistant-0" "assistant" "Hello" (Some true);
   App.ChatMessage "assistant-0" "assistant" "Hello" (Some false);
   App.Thinking false].

(** The tool of the repository's tests. *)
Definition mock_tool : Tool :=
  {| name := "mock_tool"; description := "A mock tool for testing";
     inputs := [("input", "string")]; output_type := "string" |}.

(** [world_idle] with a second session, "s2", that has no connection. *)
Definition world_two_sessions : App.World :=
  App.with_chat_sessions (insert "s2" manager0) world_idle.

(** An agent loop that returns a plain string. *)
Definition runtime_plain : Runtime :=
  {| agent_run := fun _ _ _ => Ok (PyStr "Hi there"); uuid4 := digit |}.

(** An agent loop that yields a step object, "Hel", an empty string and
    "lo". *)
Definition runtime_mixed : Runtime :=
  {| agent_run := fun _ _ _ =>
       Ok (PyGenerator [ChunkObj "ActionStep"; ChunkStr "Hel";
                        ChunkStr EmptyString; ChunkStr "lo"] None);
     uuid4 := digit |}.

(** A request that names a provider in capitals, and one without the
    "message" key. *)
Definition request_capitals : gmap string string :=
  <["provider" := "OpenAI"]> request0.

Definition request_no_message : gmap string string :=
  <["session_id" := "s1"]> (<["provider" := "ollama"]>
  (<["model" := "llama3"]> ∅)).

(** An environment with an OpenAI key only, and the state after a
    session has been opened in it, a websocket accepted and bound to the
    session, and a request served. The session is "0", the first
    identifier drawn. *)
Definition env_openai : gmap string string := {[ "OPENAI_API_KEY" := "sk-test" ]}.

Definition request_openai : gmap string string :=
  <["session_id" := "0"]> (<["provider" := "openai"]>
  (<["model" := "gpt-4"]> (<["message" := "hi"]> ∅))).

Definition world_opened : App.World :=
  snd (App.new_chat (H := runtime_hello) (App.initial env_openai)).

Definition world_served : App.World :=
  snd (App.chat (H := runtime_hello) request_openai
         (snd (App.websocket_endpoint (H := runtime_hello) 7 "0"
                 (App.with_sockets (insert 7 socket0) world_opened)))).

(** [world_idle] after the peer of the websocket 7 has gone. *)
Definition world_dead : App.World :=
  App.with_sockets
    (insert 7 {| App.sent := []; App.closed := false; App.broken := true |})
    world_idle.

(** Services that refuse every call, and services that answer. *)
Definition services_down : Services :=
  {| requests_get_tags := Raise (TransportError "connection refused");
     openai_models_list := Raise (TransportError "connection refused");
     anthropic_models_list := fun _ => Raise (TransportError "connection refused");
     images_generate := fun _ _ => Raise (TransportError "connection refused") |}.

Definition services_up : Services :=
  {| requests_get_tags :=
       Ok {| tags_ok := false; tags_names := Raise (KeyError "models") |};
     openai_models_list :=
       Ok ["gpt-4o"; "whisper-1"; "gpt-3.5-turbo"; "gpt-3"];
     anthropic_models_list := fun _ => Ok [("claude-3-opus-20240229", "Claude 3 Opus")];
     images_generate := fun _ _ => Ok ["https://images.example/1.png"] |}.

(** Completion services: the OpenAI client answers, the DeepSeek
    endpoint answers with the response object 9 and status 500; and
    services whose endpoints answer with the response object 4, status
    200 and three lines. *)
Definition completions0 : Completions :=
  {| completions_create := fun _ _ _ => Ok (5, ["Hello"]);
     completions_create_tools := fun _ _ _ _ => Ok [["web_search"; "web_scrape"]];
     messages_create_whole := fun _ _ => Raise (TransportError "connection refused");
     messages_create_chunks := fun _ _ => Ok [["Hel"]; ["lo"; "!"]; []; ["late"]];
     post_stream := fun _ _ =>
       Ok (9, {| stream_status := 500; stream_answer := None;
                 stream_lines := [] |}) |}.

Definition delta_line (content : Json) : Line :=
  JsonLine (JObject {[ "choices" :=
    JArray [JObject {[ "delta" := JObject {[ "content" := content ]} ]}] ]}).

Definition completions_up : Completions :=
  {| completions_create := fun _ _ _ => Ok (5, ["Hello"]);
     completions_create_tools := fun _ _ _ _ => Ok [[]];
     messages_create_whole := fun _ _ => Ok ["Hello"];
     messages_create_chunks := fun _ _ => Ok [["Hel"]; ["lo"]];
     post_stream := fun _ _ =>
       Ok (4, {| stream_status := 200; stream_answer := Some "Hello";
                 stream_lines := [delta_line (JString "Hel"); BlankLine;
                                  delta_line (JString "lo")] |}) |}.

(** Lines of an Ollama stream: two texts, an empty line, an object
    without text, one with an empty text and one whose text is null. *)
Definition lines0 : list Line :=
  [JsonLine (JObject {[ "response" := JString "Hel" ]}); BlankLine;
   JsonLine (JObject {[ "done" := JBool false ]});
   JsonLine (JObject {[ "response" := JString EmptyString ]});
   JsonLine (JObject {[ "response" := JNull ]});
   JsonLine (JObject {[ "response" := JString "lo" ]})].

(** Lines of a DeepSeek stream: a text, a chunk without choices, one
    whose choice has no delta, and a text. *)
Definition lines_deepseek : list Line :=
  [delta_line (JString "Hel");
   JsonLine (JObject {[ "choices" := JArray [] ]});
   JsonLine (JObject {[ "choices" := JArray [JObject {[ "index" := JInt 0 ]}] ]});
   delta_line (JString "lo")].

(** A host on which every call fails, and one on which the shell runs. *)
Definition host_down : Host :=
  {| ddgs_text := fun _ _ => Raised "connection refused";
     scrape_text := fun _ => Raised "connection refused";
     subprocess_run := fun _ _ => Raised "Command timed out after 30 seconds";
     read_file := fun _ => Raised "No such file or directory";
     write_file := fun _ _ => Raised "Permission denied";
     listdir := fun _ => Raised "No such file or directory";
     tweepy_API := fun _ _ _ _ => Raised "Unauthorized";
     search_tweets := fun _ _ _ => Raised "Unauthorized";
     psutil_info := fun _ => Raised "access denied";
     unbound_local_message := fun name =>
       "local variable '" +:+ name +:+ "' referenced before assignment" |}.

Definition host_shell : Host :=
  {| ddgs_text := fun _ _ => Returned "[]";
     scrape_text := fun _ => Returned "Example Domain";
     subprocess_run := fun _ _ =>
       Returned {| stdout := EmptyString; stderr := "ls: no such file" |};
     read_file := fun _ => Returned "test content";
     write_file := fun _ _ => Returned tt;
     listdir := fun _ => Returned "[]";
     tweepy_API := fun _ _ _ _ => Returned 1;
     search_tweets := fun _ _ _ => Returned "[]";
     psutil_info := fun _ => Returned "{}";
     unbound_local_message := fun name =>
       "local variable '" +:+ name +:+ "' referenced before assignment" |}.

Definition env_twitter : gmap string string :=
  <["TWITTER_API_KEY" := "k"]> (<["TWITTER_API_SECRET" := "s"]>
  (<["TWITTER_ACCESS_TOKEN" := "t"]> (<["TWITTER_ACCESS_TOKEN_SECRET" := "ts"]> ∅))).


End Examples.

(** * Properties *)

(** ** Strings *)

Lemma app_cons (c : ascii) (s t : string) :
  String c s +:+ t = String c (s +:+ t).
Proof. reflexivity. Qed.

Lemma app_empty_l (s : string) : EmptyString +:+ s = s.
Proof. reflexivity. Qed.

Lemma app_empty_r (s : string) : s +:+ EmptyString = s.
Proof.
  induction s as [|c s IH]; [reflexivity|].
  rewrite app_cons. now rewrite IH.
Qed.

Lemma app_assoc_str (a b c : string) : (a +:+ b) +:+ c = a +:+ (b +:+ c).
Proof.
  induction a as [|x a IH]; [reflexivity|].
  rewrite !app_cons. now rewrite IH.
Qed.

Lemma drop_prefix_app (p s rest : string) :
  drop_prefix p s = Some rest -> s = p +:+ rest.
Proof.
  revert s. induction p as [|a p IH]; intros s; simpl.
  - now intros [= ->].
  - destruct s as [|b s]; [discriminate|].
    destruct (Ascii.eqb_spec a b) as [->|_]; [|discriminate].
    intros Hrest. rewrite app_cons. now rewrite <- (IH _ Hrest).
Qed.

Lemma after_space_app (s rest : string) :
  after_space s = Some rest -> exists w, w ∈ whitespace /\ s = w +:+ rest.
Proof.
  unfold after_space. generalize whitespace as ws.
  induction ws as [|w ws IH]; simpl; [discriminate|].
  destruct (drop_prefix w s) as [r|] eqn:Hdrop.
  - intros [= ->]. exists w. split; [repeat constructor|].
    now apply drop_prefix_app.
  - intros Hfound. destruct (IH Hfound) as (w' & Hin & Heq).
    exists w'. split; [now constructor | exact Heq].
Qed.

Lemma lstrip_fuel_prefix (fuel : nat) (s : string) :
  exists l, s = l +:+ lstrip_fuel fuel s /\ all_space l.
Proof.
  revert s. induction fuel as [|fuel IH]; intros s; simpl.
  - exists EmptyString. split; [reflexivity | constructor].
  - destruct (after_space s) as [rest|] eqn:Hspace.
    + destruct (after_space_app _ _ Hspace) as (w & Hw & ->).
      destruct (IH rest) as (l & Hl & Hsp).
      exists (w +:+ l). split; [|now constructor].
      rewrite app_assoc_str. now rewrite <- Hl.
    + exists EmptyString. split; [reflexivity | constructor].
Qed.

Lemma lstrip_prefix (s : string) :
  exists l, s = l +:+ lstrip s /\ all_space l.
Proof. apply lstrip_fuel_prefix. Qed.

Lemma length_app_str (a b : string) :
  String.length (a +:+ b) = String.length a + String.length b.
Proof. induction a as [|c a IH]; simpl; [reflexivity | now rewrite IH]. Qed.

Lemma whitespace_nonempty (w : string) : w ∈ whitespace -> 1 <= String.length w.
Proof.
  assert (Hall : Forall (fun w => 1 <= String.length w) whitespace)
    by (vm_compute; repeat constructor).
  intros Hw. exact (proj1 (Forall_forall _ _) Hall w Hw).
Qed.

(** What [lstrip] leaves begins with no whitespace character: the bound
    on the number of removals is never what stops it. *)
Remark lstrip_complete (s : string) : after_space (lstrip s) = None.
Proof.
  unfold lstrip.
  assert (Hfuel : forall fuel s, String.length s <= fuel ->
                    after_space (lstrip_fuel fuel s) = None).
  { clear s. induction fuel as [|fuel IH]; intros s Hlen.
    - destruct s; [reflexivity | simpl in Hlen; lia].
    - cbn [lstrip_fuel]. destruct (after_space s) as [rest|] eqn:Hspace;
        [|exact Hspace].
      apply IH. destruct (after_space_app _ _ Hspace) as (w & Hw & ->).
      rewrite length_app_str in Hlen.
      pose proof (whitespace_nonempty _ Hw). lia. }
  now apply Hfuel.
Qed.

Lemma rstrip_suffix (s : string) :
  exists r, s = rstrip s +:+ r /\ all_space r.
Proof.
  induction s as [|c s [r [Hr Hsp]]].
  - exists EmptyString. split; [reflexivity | constructor].
  - cbn [rstrip].
    destruct (lstrip_prefix (String c s)) as (l & Hl & Hls).
    destruct (lstrip (String c s)) as [|c' s'].
    + exists (String c s). split; [reflexivity|].
      rewrite Hl, app_empty_r. exact Hls.
    + exists r. split; [|assumption]. rewrite app_cons. now rewrite <- Hr.
Qed.

(** [strip] removes nothing but whitespace, and only at the two ends. *)
Lemma strip_trims (s : string) :
  exists l r, s = l +:+ strip s +:+ r /\ all_space l /\ all_space r.
Proof.
  destruct (lstrip_prefix s) as [l [Hl Hls]].
  destruct (rstrip_suffix (lstrip s)) as [r [Hr Hrs]].
  exists l, r. unfold strip. split; [|split; assumption].
  now rewrite <- Hr.
Qed.

(** ** Provider adapters *)

Section Adapters.
Context `{Backends}.
Import Llm.

Lemma cancel_request_unfold (self : Provider) (closed : Handles) :
  cancel_request self closed =
  match _current_request self with
  | Some r =>
      if handle_ok r then (clear_current_request self, {[handle r]} ∪ closed)
      else (self, closed)
  | None => (self, closed)
  end.
Proof. unfold cancel_request. destruct (cls self); reflexivity. Qed.

(** A response is truthy when its status is no error status. *)
Lemma handle_ok_status (r : Attached) :
  handle_ok r = true <-> ~ 400 <= handle_status r < 600.
Proof.
  unfold handle_ok.
  destruct (Nat.leb_spec 400 (handle_status r));
    destruct (Nat.ltb_spec (handle_status r) 600); simpl;
    split; intros Hx; try discriminate; try reflexivity;
    try lia; exfalso; lia.
Qed.

(** The OpenAI adapter answers whatever the backend does. *)
Lemma openai_call_returns (self : Provider) messages stop :
  exists text, OpenAIProvider.__call__ self messages stop = Ok text.
Proof.
  unfold OpenAIProvider.__call__.
  destruct (rbind _ _); eauto.
Qed.

Lemma openai_call_caught (self : Provider) messages stop e :
  chat_completions_create (model_name self)
    (map OpenAIProvider._map_role_to_openai messages) stop = Raise e ->
  OpenAIProvider.__call__ self messages stop
  = Ok (OpenAIProvider._handle_api_error e "call").
Proof.
  intros He. unfold OpenAIProvider.__call__, OpenAIProvider._make_api_call.
  now rewrite He.
Qed.

Lemma append_message_rendered (prompt : string) (msg : Message) :
  well_keyed msg ->
  append_message prompt msg = Ok (prompt +:+ rendered msg).
Proof.
  intros [[role Hr] [content Hc]].
  unfold append_message, getitem, rendered, role_label.
  rewrite Hr, Hc. simpl.
  repeat match goal with
  | |- context [String.eqb ?a ?b] =>
      destruct (String.eqb_spec a b); simpl
  | |- context [decide ?P] => destruct (decide P); simpl
  end;
  try reflexivity; try (rewrite app_empty_r; reflexivity);
  try congruence; try tauto.
Qed.

Lemma convert_loop_join (messages : list Message) (prompt : string) :
  Forall well_keyed messages ->
  convert_loop prompt messages = Ok (prompt +:+ join (map rendered messages)).
Proof.
  intros Hall. revert prompt.
  induction Hall as [|msg rest Hmsg _ IH]; intros prompt; simpl.
  - now rewrite app_empty_r.
  - rewrite (append_message_rendered _ _ Hmsg). simpl.
    rewrite IH. now rewrite app_assoc_str.
Qed.

(** C3, as the code has it. Of the four adapters only OpenAI's
    [__call__] catches: whatever its backend call does it returns a
    string, and an error [e] raised by the backend comes back as the
    explanatory string [_handle_api_error e "call"]. The [__call__] of
    the Anthropic, Ollama and DeepSeek adapters has no handler: an error
    raised by their backend call leaves the adapter as that same
    exception. *)
Theorem call_error_handling (self : Provider) (messages : list Message)
    (stop : option (list string)) (e : exn) :
  (cls self = OpenAI ->
     (exists text, __call__ self messages stop = Ok text) /\
     (chat_completions_create (model_name self)
        (map OpenAIProvider._map_role_to_openai messages) stop = Raise e ->
      __call__ self messages stop = Ok (OpenAIProvider._handle_api_error e "call"))) /\
  (cls self = Anthropic ->
     forall prompt,
       AnthropicProvider._convert_messages_to_prompt messages = Ok prompt ->
       messages_create (model_name self) prompt stop = Raise e ->
       __call__ self messages stop = Raise e) /\
  (cls self = Ollama ->
     forall prompt,
       OllamaProvider._convert_messages_to_prompt messages = Ok prompt ->
       requests_post (default EmptyString (base_url self) +:+ "/api/generate")
         (OllamaGenerate (model_name self) prompt false (Some (default [] stop)))
       = Raise e ->
       __call__ self messages stop = Raise e) /\
  (cls self = DeepSeek ->
     requests_post (default EmptyString (base_url self) +:+ "/chat/completions")
       (DeepSeekChat (model_name self) messages (default [] stop)) = Raise e ->
     __call__ self messages stop = Raise e).
Proof.
  unfold __call__.
  split; [|split; [|split]]; intros Hcls; rewrite Hcls.
  - split; [apply openai_call_returns | apply openai_call_caught].
  - intros prompt Hp He. unfold AnthropicProvider.__call__.
    rewrite Hp. simpl. now rewrite He.
  - intros prompt Hp He. unfold OllamaProvider.__call__.
    rewrite Hp. simpl. now rewrite He.
  - intros He. unfold DeepSeekProvider.__call__. now rewrite He.
Qed.

(** C4 (amended). The role mappings are functions of the message. OpenAI's
    keeps the content of every message, maps the roles of the fixed set to
    system, user or assistant, lets a role it has no entry for through
    unchanged, and its output role depends on the input role alone. The
    Anthropic and Ollama conversions succeed on every list of messages
    whose roles are in the fixed set (or are function): the prompt is the
    contributions of the messages in order, stripped; each message
    contributes the label of its role, its content and a blank line;
    stripping removes whitespace only, at the two ends of the prompt. *)
Theorem role_mapping_content (msg msg' : Message) (messages : list Message)
    (role : string) :
  OpenAIProvider._map_role_to_openai msg !! "content"
    = Some (default EmptyString (msg !! "content")) /\
  (msg !! "role" = Some role -> OpenAIProvider.role_mapping !! role = None ->
     OpenAIProvider._map_role_to_openai msg !! "role" = Some role) /\
  (msg !! "role" = Some role -> role ∈ fixed_roles ->
     OpenAIProvider._map_role_to_openai msg !! "role"
       ∈ [Some "system"; Some "user"; Some "assistant"]) /\
  (msg !! "role" = msg' !! "role" ->
     OpenAIProvider._map_role_to_openai msg !! "role"
     = OpenAIProvider._map_role_to_openai msg' !! "role") /\
  (Forall known_message messages ->
     AnthropicProvider._convert_messages_to_prompt messages
       = Ok (strip (join (map rendered messages))) /\
     OllamaProvider._convert_messages_to_prompt messages
       = Ok (strip (join (map rendered messages)))) /\
  (msg !! "role" = Some role -> role ∈ "function" :: fixed_roles ->
     exists label, role_label role = Some label /\
       rendered msg = label +:+ default EmptyString (msg !! "content") +:+ nl +:+ nl) /\
  (forall prompt, exists l r,
     prompt = l +:+ strip prompt +:+ r /\ all_space l /\ all_space r).
Proof.
  split; [|split; [|split; [|split; [|split; [|split]]]]].
  - unfold OpenAIProvider._map_role_to_openai.
    rewrite lookup_insert_ne by discriminate. now rewrite lookup_insert_eq.
  - intros Hr Hnone. unfold OpenAIProvider._map_role_to_openai.
    rewrite lookup_insert_eq, Hr. simpl. now rewrite Hnone.
  - intros Hr Hin. unfold OpenAIProvider._map_role_to_openai.
    rewrite lookup_insert_eq, Hr. simpl.
    unfold fixed_roles in Hin.
    repeat (apply elem_of_cons in Hin as [-> | Hin]);
      [| | | | | now apply elem_of_nil in Hin];
      vm_compute; repeat constructor.
  - intros Heq. unfold OpenAIProvider._map_role_to_openai.
    now rewrite !lookup_insert_eq, Heq.
  - intros Hknown.
    assert (Hall : Forall well_keyed messages).
    { eapply Forall_impl; [exact Hknown|].
      intros m [(r & Hr & _) Hc]. split; [eauto | exact Hc]. }
    split.
    + unfold AnthropicProvider._convert_messages_to_prompt.
      rewrite (convert_loop_join _ _ Hall). reflexivity.
    + unfold OllamaProvider._convert_messages_to_prompt.
      rewrite (convert_loop_join _ _ Hall). reflexivity.
  - intros Hr Hin. unfold rendered. rewrite Hr. simpl.
    unfold fixed_roles in Hin.
    repeat (apply elem_of_cons in Hin as [-> | Hin]);
      [| | | | | | now apply elem_of_nil in Hin];
      eexists; split; reflexivity.
  - apply strip_trims.
Qed.

(** A message whose role has no label contributes nothing to the prompt
    of the Anthropic and Ollama conversions. *)
Remark unlabelled_role_left_out (msg : Message) (role : string) :
  msg !! "role" = Some role -> role ∉ "function" :: fixed_roles ->
  rendered msg = EmptyString.
Proof.
  intros Hr Hnotin. unfold rendered. rewrite Hr. simpl.
  unfold role_label.
  repeat match goal with
  | |- context [decide ?P] => destruct (decide P); simpl
  end; try reflexivity; exfalso; apply Hnotin; unfold fixed_roles;
  repeat match goal with
  | Hd : _ \/ _ |- _ => destruct Hd
  end; subst; repeat constructor.
Qed.

End Adapters.

(** C3, counterexample: with a backend that refuses the connection, the
    Anthropic, Ollama and DeepSeek adapters raise out of [__call__]. *)
Lemma call_error_propagates :
  Llm.__call__ (H := Examples.backend_down)
    (Examples.adapter Llm.Anthropic) [Examples.hello] None
    = Raise (TransportError "connection refused") /\
  Llm.__call__ (H := Examples.backend_down)
    (Examples.adapter Llm.Ollama) [Examples.hello] None
    = Raise (TransportError "connection refused") /\
  Llm.__call__ (H := Examples.backend_down)
    (Examples.adapter Llm.DeepSeek) [Examples.hello] None
    = Raise (TransportError "connection refused").
Proof. repeat split; vm_compute; reflexivity. Qed.

Lemma call_error_handling_witness :
  Llm.__call__ (H := Examples.backend_down)
    (Examples.adapter Llm.OpenAI) [Examples.hello] None
    = Ok "I encountered an error: connection refused. Let me try a different approach." /\
  Llm.__call__ (H := Examples.backend_down)
    (Examples.adapter Llm.Anthropic) [Examples.hello] None
    = Raise (TransportError "connection refused") /\
  Llm.__call__ (H := Examples.backend_down)
    (Examples.adapter Llm.Ollama) [Examples.hello] None
    = Raise (TransportError "connection refused") /\
  Llm.__call__ (H := Examples.backend_down)
    (Examples.adapter Llm.DeepSeek) [Examples.hello] None
    = Raise (TransportError "connection refused").
Proof.
  pose proof (fun self => call_error_handling (H := Examples.backend_down)
                self [Examples.hello] None
                (TransportError "connection refused")) as Hall.
  split; [|split; [|split]].
  - destruct (Hall (Examples.adapter Llm.OpenAI)) as (Hopenai & _).
    apply Hopenai; reflexivity.
  - destruct (Hall (Examples.adapter Llm.Anthropic)) as (_ & Hanthropic & _).
    apply Hanthropic with (prompt := "Human: Hello, how are you?");
      [reflexivity | vm_compute; reflexivity | reflexivity].
  - destruct (Hall (Examples.adapter Llm.Ollama)) as (_ & _ & Hollama & _).
    apply Hollama with (prompt := "Human: Hello, how are you?");
      [reflexivity | vm_compute; reflexivity | reflexivity].
  - destruct (Hall (Examples.adapter Llm.DeepSeek)) as (_ & _ & _ & Hdeepseek).
    apply Hdeepseek; reflexivity.
Defined.

(** C4, counterexample: the Anthropic and Ollama conversions strip the
    prompt, which takes the whitespace that ends the content of the last
    message with it, a space or, in the second case, a no-break space
    (U+00A0, the bytes 194 and 160); and they leave out a message whose
    role they have no label for. In none of the cases is the content in
    the prompt. *)
Lemma content_not_preserved :
  (Llm.AnthropicProvider._convert_messages_to_prompt
     [Examples.message_of "user" "hi "] = Ok "Human: hi" /\
   contains "hi " "Human: hi" = false) /\
  Llm.AnthropicProvider._convert_messages_to_prompt
    [Examples.message_of "user" ("hi" +:+ of_bytes [194; 160])]
    = Ok "Human: hi" /\
  Llm.OllamaProvider._convert_messages_to_prompt
    [Examples.message_of "user" "hi "] = Ok "Human: hi" /\
  Llm.AnthropicProvider._convert_messages_to_prompt
    [Examples.message_of "human" "hello"] = Ok EmptyString /\
  Llm.OllamaProvider._convert_messages_to_prompt
    [Examples.message_of "human" "hello"] = Ok EmptyString.
Proof. repeat split; vm_compute; reflexivity. Qed.

Lemma role_mapping_content_witness :
  Llm.OpenAIProvider._map_role_to_openai (Examples.message_of "developer" "hi") !! "role"
    = Some "developer" /\
  Llm.OpenAIProvider._map_role_to_openai (Examples.message_of "tool" "hi") !! "role"
    ∈ [Some "system"; Some "user"; Some "assistant"] /\
  Llm.AnthropicProvider._convert_messages_to_prompt
    [Examples.message_of "system" "be brief"; Examples.message_of "tool" "ls"]
    = Ok (strip (join (map rendered
        [Examples.message_of "system" "be brief"; Examples.message_of "tool" "ls"]))) /\
  (exists label, role_label "tool" = Some label /\
     rendered (Examples.message_of "tool" "ls")
     = label +:+ default EmptyString (Examples.message_of "tool" "ls" !! "content")
         +:+ nl +:+ nl).
Proof.
  pose proof (role_mapping_content (Examples.message_of "developer" "hi")
                (Examples.message_of "developer" "hi") [] "developer") as Ha.
  pose proof (role_mapping_content (Examples.message_of "tool" "ls")
                (Examples.message_of "tool" "ls")
                [Examples.message_of "system" "be brief"; Examples.message_of "tool" "ls"]
                "tool") as Hb.
  destruct Ha as (_ & Ha & _).
  destruct Hb as (_ & _ & Hb1 & _ & Hb2 & Hb3 & _).
  split; [|split; [|split]].
  - apply Ha; vm_compute; reflexivity.
  - apply (Hb1 eq_refl). unfold fixed_roles. repeat constructor.
  - apply Hb2.
    repeat constructor; try (eexists; vm_compute; reflexivity);
      (eexists; split; [vm_compute; reflexivity|]);
      unfold fixed_roles; repeat constructor.
  - apply (Hb3 eq_refl). unfold fixed_roles. repeat constructor.
Defined.

(** ** The tool registry of an [AgentManager] *)

(** C2 (amended). [add_tool] appends the tool at the end of the tool list
    and keeps every earlier entry, so the number of entries carrying its
    name grows by one whether or not the name was present. [remove_tool]
    keeps exactly the entries with another name, in order: none with the
    given name remains, and when no entry had that name the tool list is
    what it was. *)
Theorem registry_add_remove (self : AgentManager.t) (tool : Tool)
    (tool_name : string) :
  AgentManager.tools (AgentManager.add_tool self tool)
    = (AgentManager.tools self ++ [tool])%list /\
  length (filter (fun t => name t = name tool)
            (AgentManager.tools (AgentManager.add_tool self tool)))
    = S (length (filter (fun t => name t = name tool) (AgentManager.tools self))) /\
  AgentManager.tools (AgentManager.remove_tool self tool_name)
    = filter (fun t => name t <> tool_name) (AgentManager.tools self) /\
  Forall (fun t => name t <> tool_name)
    (AgentManager.tools (AgentManager.remove_tool self tool_name)) /\
  (Forall (fun t => name t <> tool_name) (AgentManager.tools self) ->
     AgentManager.tools (AgentManager.remove_tool self tool_name)
       = AgentManager.tools self).
Proof.
  split; [reflexivity|]. split; [|split; [reflexivity|split]].
  - unfold AgentManager.add_tool.
    cbn [AgentManager.tools AgentManager.set_agent AgentManager.set_tools].
    rewrite filter_app, length_app, filter_cons.
    rewrite decide_True by reflexivity. simpl. lia.
  - simpl. apply Forall_forall. intros t Ht.
    now apply list_elem_of_filter in Ht as [Hne _].
  - intros Habsent. simpl.
    induction Habsent as [|t ts Ht _ IH]; [reflexivity|].
    rewrite filter_cons, decide_True by exact Ht. now rewrite IH.
Qed.

(** C2, counterexample: adding a tool whose name is already present
    leaves two entries with that name. *)
Lemma add_tool_twice :
  let registry :=
    AgentManager.tools
      (AgentManager.add_tool (AgentManager.__init__ 0 10 false [] [])
         AgentManager.WebSearchTool) in
  length (filter (fun t => name t = "web_search") registry) = 2 /\
  ~ NoDup (map name registry).
Proof.
  split; [vm_compute; reflexivity|].
  simpl. intros Hnd. apply NoDup_cons in Hnd as [Hnotin _].
  apply Hnotin. repeat constructor.
Qed.

Lemma registry_add_remove_witness :
  AgentManager.tools
    (AgentManager.remove_tool (AgentManager.__init__ 0 10 false [] []) "absent")
  = AgentManager.tools (AgentManager.__init__ 0 10 false [] []).
Proof.
  apply (registry_add_remove (AgentManager.__init__ 0 10 false [] [])
           AgentManager.WebSearchTool "absent").
  repeat constructor; discriminate.
Defined.

(** ** The endpoints *)

Section Endpoints.
Context `{Runtime}.
Import App.

Ltac unfold_M :=
  unfold mbind, M_bind, mret, M_ret, gets, modify, lift, raise,
    try_except, try_finally, set_active_request.

Lemma bind_ok {A B} (m : M A) (k : A -> M B) (w : World) (a : A) :
  fst (m w) = Ok a -> (m ≫= k) w = k a (snd (m w)).
Proof.
  unfold mbind, M_bind. destruct (m w) as [[a'|e] w']; simpl; congruence.
Qed.

Lemma bind_inv_ok {A B} (m : M A) (k : A -> M B) (w w2 : World) (b : B) :
  (m ≫= k) w = (Ok b, w2) ->
  exists a w1, m w = (Ok a, w1) /\ k a w1 = (Ok b, w2).
Proof.
  unfold mbind, M_bind. destruct (m w) as [[a|e] w1]; [eauto | discriminate].
Qed.

(** What [broadcast_message] does, case by case. *)
Lemma broadcast_message_cases (message : Event) (session_id : string) (w : World) :
  broadcast_message message session_id w =
  match active_connections w !! session_id with
  | None => (Ok tt, w)
  | Some c =>
      match sockets w !! websocket c with
      | Some s =>
          if usable s then
            (Ok tt, with_sockets (insert (websocket c)
                      {| sent := sent s ++ [message]; closed := closed s;
                         broken := broken s |}) w)
          else (Ok tt, with_active_connections (delete session_id) w)
      | None => (Ok tt, with_active_connections (delete session_id) w)
      end
  end.
Proof.
  unfold broadcast_message. unfold_M. simpl.
  destruct (active_connections w !! session_id) as [c|]; [|reflexivity].
  unfold send_json.
  destruct (sockets w !! websocket c) as [s|]; [|reflexivity].
  destruct (usable s); reflexivity.
Qed.

Lemma broadcast_message_ok message session_id w :
  fst (broadcast_message message session_id w) = Ok tt.
Proof.
  rewrite broadcast_message_cases.
  repeat match goal with
  | |- context [match ?x with _ => _ end] => destruct x
  end; reflexivity.
Qed.

Lemma broadcast_message_requests message session_id w :
  active_requests (snd (broadcast_message message session_id w)) = active_requests w.
Proof.
  rewrite broadcast_message_cases.
  repeat match goal with
  | |- context [match ?x with _ => _ end] => destruct x
  end; reflexivity.
Qed.

Lemma broadcast_message_sessions message session_id w :
  chat_sessions (snd (broadcast_message message session_id w)) = chat_sessions w.
Proof.
  rewrite broadcast_message_cases.
  repeat match goal with
  | |- context [match ?x with _ => _ end] => destruct x
  end; reflexivity.
Qed.

Lemma succeeds_bind {A B} (m : M A) (k : A -> M B) :
  succeeds m -> (forall a, succeeds (k a)) -> succeeds (m ≫= k).
Proof.
  intros Hm Hk w. destruct (Hm w) as [a Ha].
  rewrite (bind_ok _ _ _ _ Ha). apply Hk.
Qed.

Lemma succeeds_ret {A} (a : A) : succeeds (mret a).
Proof. intros w. now exists a. Qed.

Lemma succeeds_broadcast message session_id :
  succeeds (broadcast_message message session_id).
Proof. intros w. exists tt. apply broadcast_message_ok. Qed.

Lemma succeeds_set_active_request session_id value :
  succeeds (set_active_request session_id value).
Proof. intros w. now exists tt. Qed.

Lemma chat_handler_ok (message : gmap string string) (e : exn) (w : World) :
  fst (chat_handler message e w) = Ok (Failure (str_exn e)).
Proof.
  unfold chat_handler.
  assert (Hfirst : succeeds
    (match message !! "session_id" with
     | Some session_id =>
         (if truthy session_id then set_active_request session_id None else mret tt);;
         connections ← gets active_connections;
         match connections !! session_id with
         | Some _ =>
             broadcast_message (Thinking false) session_id;;
             error_id ← new_uuid;
             broadcast_message
               (ChatMessage ("error-" +:+ error_id) "assistant"
                  ("Error: " +:+ str_exn e) None) session_id
         | None => mret tt
         end
     | None => mret tt
     end)).
  { destruct (message !! "session_id") as [sid|]; [|apply succeeds_ret].
    apply succeeds_bind.
    - destruct (truthy sid);
        [apply succeeds_set_active_request | apply succeeds_ret].
    - intros _. apply succeeds_bind; [intros w0; eexists; reflexivity|].
      intros connections. destruct (connections !! sid); [|apply succeeds_ret].
      apply succeeds_bind; [apply succeeds_broadcast|]. intros _.
      apply succeeds_bind; [intros w0; eexists; reflexivity|]. intros u.
      apply succeeds_broadcast. }
  destruct (Hfirst w) as [[] Ha].
  rewrite (bind_ok _ _ _ _ Ha). reflexivity.
Qed.

Lemma provider_cancel_request_requests p w :
  active_requests (snd (provider_cancel_request p w)) = active_requests w.
Proof.
  unfold provider_cancel_request.
  destruct (providers w !! p) as [self|]; [|reflexivity].
  destruct (Llm.cancel_request self (closed_handles w)). reflexivity.
Qed.

Lemma provider_cancel_request_ok p w :
  fst (provider_cancel_request p w) = Ok tt.
Proof.
  unfold provider_cancel_request.
  destruct (providers w !! p) as [self|]; [|reflexivity].
  destruct (Llm.cancel_request self (closed_handles w)). reflexivity.
Qed.

(** C6, as the code has it. Cancelling a session whose marker is empty
    answers success and leaves the whole state as it was.
    [cancel_request] tests the attached response for truth, and a
    response is true when its status is no error status. On an adapter
    whose attached response is true it closes that response and empties
    the slot, changing nothing else of the adapter. On an adapter whose
    attached response has an error status, from 400 to 599, it changes
    nothing: the response is not closed and stays attached. With no
    attached response it changes neither the adapter nor the set of
    closed handles (nor, called on a stored adapter, the state). So
    after [cancel_request] the slot is empty, or it holds the response
    of an error status that it held before; after any [cancel_chat] the
    marker is empty. *)
Theorem cancel_is_noop_when_idle (w : World) (session_id : string)
    (self : Llm.Provider) (closed : gset nat) (r : Llm.Attached) (p : nat) :
  (marker w session_id = None -> cancel_chat session_id w = (Ok Success, w)) /\
  (Llm.handle_ok r = true <-> ~ 400 <= Llm.handle_status r < 600) /\
  (Llm._current_request self = Some r -> ~ 400 <= Llm.handle_status r < 600 ->
     Llm.cancel_request self closed
       = (Llm.clear_current_request self, {[Llm.handle r]} ∪ closed) /\
     Llm.handle r ∈ snd (Llm.cancel_request self closed)) /\
  (Llm._current_request self = Some r -> 400 <= Llm.handle_status r < 600 ->
     Llm.cancel_request self closed = (self, closed)) /\
  (Llm._current_request self = None ->
     Llm.cancel_request self closed = (self, closed)) /\
  (providers w !! p = Some self -> Llm._current_request self = None ->
     provider_cancel_request p w = (Ok tt, w)) /\
  (Llm._current_request (fst (Llm.cancel_request self closed)) = None \/
   exists r', Llm._current_request self = Some r' /\
     400 <= Llm.handle_status r' < 600 /\
     Llm.cancel_request self closed = (self, closed)) /\
  marker (snd (cancel_chat session_id w)) session_id = None.
Proof.
  split; [|split; [|split; [|split; [|split; [|split; [|split]]]]]].
  - intros Hidle. unfold cancel_chat. unfold_M. simpl. now rewrite Hidle.
  - apply handle_ok_status.
  - intros Hr Hstatus. apply (proj2 (handle_ok_status r)) in Hstatus.
    rewrite cancel_request_unfold, Hr, Hstatus. split; [reflexivity|].
    simpl. set_solver.
  - intros Hr Hstatus. rewrite cancel_request_unfold, Hr.
    destruct (Llm.handle_ok r) eqn:Htrue; [|reflexivity].
    now apply (proj1 (handle_ok_status r)) in Htrue.
  - intros Hnone. now rewrite cancel_request_unfold, Hnone.
  - intros Hp Hnone. unfold provider_cancel_request.
    rewrite Hp, cancel_request_unfold, Hnone.
    destruct w; simpl in *. unfold with_closed_handles, with_providers; simpl.
    now rewrite (insert_id _ _ _ Hp).
  - rewrite cancel_request_unfold.
    destruct (Llm._current_request self) as [r'|] eqn:Hslot; [|now left].
    destruct (Llm.handle_ok r') eqn:Htrue; [now left|].
    right. exists r'. split; [reflexivity|]. split; [|reflexivity].
    destruct (decide (400 <= Llm.handle_status r' < 600)) as [Hin|Hout];
      [exact Hin|].
    apply (proj2 (handle_ok_status r')) in Hout. congruence.
  - unfold cancel_chat. unfold_M. simpl.
    destruct (marker w session_id) eqn:Hm; simpl; [|exact Hm].
    destruct (chat_sessions w !! session_id) as [agent|]; simpl.
    + pose proof (provider_cancel_request_ok (AgentManager.llm_provider agent) w) as Hok.
      destruct (provider_cancel_request (AgentManager.llm_provider agent) w)
        as [[[]|e] w1]; simpl in *; [|discriminate].
      unfold marker. simpl. now rewrite lookup_insert_eq.
    + unfold marker. simpl. now rewrite lookup_insert_eq.
Qed.


Lemma accepted_decidable message w session_id :
  accepted message w session_id \/ ~ accepted message w session_id.
Proof.
  unfold accepted.
  destruct (decide (message !! "session_id" = Some session_id));
    [|right; tauto].
  destruct (truthy session_id); [|right; intros (_ & ? & _); discriminate].
  destruct (chat_sessions w !! session_id);
    [|right; intros (_ & _ & [? ?] & _); discriminate].
  destruct (active_connections w !! session_id);
    [|right; intros (_ & _ & _ & [? ?] & _); discriminate].
  destruct (truthy (default EmptyString (message !! "provider")));
    [|right; intros (_ & _ & _ & _ & ? & _); discriminate].
  destruct (truthy (default EmptyString (message !! "model")));
    [|right; intros (_ & _ & _ & _ & _ & ?); discriminate].
  left. repeat split; eauto.
Qed.

Lemma chat_body_accepted message w session_id agent_manager :
  accepted message w session_id ->
  chat_sessions w !! session_id = Some agent_manager ->
  chat_body message w =
  serve message agent_manager session_id (uuid4 (uuid_count w))
    (default EmptyString (message !! "provider"))
    (default EmptyString (message !! "model")) (with_uuid_count S w).
Proof.
  intros (Hsid & Htruthy & _ & [c Hc] & Hp & Hm) Ham.
  unfold chat_body. rewrite Hsid, Htruthy. unfold_M. simpl.
  rewrite Ham, Hc. rewrite bool_decide_eq_false_2 by discriminate.
  unfold new_uuid. now rewrite Hp, Hm.
Qed.

Lemma chat_body_refused message w :
  (forall session_id, ~ accepted message w session_id) ->
  exists reason,
    chat_body message w = (Ok (Failure reason), w) \/
    chat_body message w = (Ok (Failure reason), with_uuid_count S w).
Proof.
  intros Hrefused. unfold chat_body.
  destruct (message !! "session_id") as [sid|] eqn:Hsid; [|eauto].
  destruct (truthy sid) eqn:Htruthy; simpl; [|eauto].
  unfold_M. simpl.
  destruct (chat_sessions w !! sid) as [am|] eqn:Ham; [|eauto].
  destruct (active_connections w !! sid) as [c|] eqn:Hc.
  2:{ rewrite bool_decide_eq_true_2 by reflexivity. eauto. }
  rewrite bool_decide_eq_false_2 by discriminate.
  unfold new_uuid.
  destruct (truthy (default EmptyString (message !! "provider"))) eqn:Hp;
    simpl; [|eauto].
  destruct (truthy (default EmptyString (message !! "model"))) eqn:Hm;
    simpl; [|eauto].
  exfalso. apply (Hrefused sid). repeat split; eauto.
Qed.

Lemma start_request_result message agent_manager session_id message_id provider model
    w agent_manager' llm_provider w1 :
  start_request message agent_manager session_id message_id provider model w
    = (Ok (agent_manager', llm_provider), w1) ->
  marker w1 session_id = Some llm_provider /\
  agent_manager' = AgentManager.set_llm_provider agent_manager llm_provider /\
  chat_sessions w1 !! session_id = Some agent_manager'.
Proof.
  unfold start_request. intros Hstart.
  apply bind_inv_ok in Hstart as (env & wa & _ & Hstart).
  apply bind_inv_ok in Hstart as (p & wb & _ & Hstart).
  apply bind_inv_ok in Hstart as ([] & wc & Hc & Hstart).
  apply bind_inv_ok in Hstart as ([] & wd & Hd & Hstart).
  apply bind_inv_ok in Hstart as (request & we & He & Hstart).
  apply bind_inv_ok in Hstart as ([] & wf & Hf & Hstart).
  apply bind_inv_ok in Hstart as ([] & wg & Hg & Hstart).
  unfold_M. unfold_M. simpl in *.
  injection Hstart as <- <- <-. injection Hg as <-. injection He as _ <-.
  injection Hc as <-.
  assert (Hsessions : chat_sessions wf !! session_id
            = Some (AgentManager.set_llm_provider agent_manager p)).
  { replace wf with (snd (broadcast_message
        (ChatMessage ("user-" +:+ message_id) "user" request None) session_id wd))
      by now rewrite Hf.
    rewrite broadcast_message_sessions.
    replace wd with (snd (broadcast_message (Thinking true) session_id
        (with_chat_sessions
           (insert session_id (AgentManager.set_llm_provider agent_manager p)) wb)))
      by now rewrite Hd.
    rewrite broadcast_message_sessions. simpl. apply lookup_insert_eq. }
  split; [|split; [reflexivity|exact Hsessions]].
  unfold marker. simpl. now rewrite lookup_insert_eq.
Qed.

Lemma release_ok session_id w : fst (release session_id w) = Ok tt.
Proof.
  unfold release. unfold_M. simpl. apply broadcast_message_ok.
Qed.

Lemma release_requests session_id w :
  active_requests (snd (release session_id w))
  = <[session_id := None]> (active_requests w).
Proof.
  unfold release. unfold_M. simpl. now rewrite broadcast_message_requests.
Qed.

Lemma try_finally_release {A} (body : M A) session_id w :
  fst (try_finally body (release session_id) w) = fst (body w) /\
  active_requests (snd (try_finally body (release session_id) w))
  = <[session_id := None]> (active_requests (snd (body w))).
Proof.
  unfold try_finally. destruct (body w) as [r w1]. simpl.
  pose proof (release_ok session_id w1) as Hok.
  pose proof (release_requests session_id w1) as Hreq.
  destruct (release session_id w1) as [[[]|e] w2]; simpl in *;
    [|discriminate]. now split.
Qed.

Lemma chat_handler_requests message e w session_id :
  message !! "session_id" = Some session_id ->
  truthy session_id = true ->
  active_requests (snd (chat_handler message e w))
  = <[session_id := None]> (active_requests w).
Proof.
  intros Hsid Htruthy. unfold chat_handler. rewrite Hsid, Htruthy.
  unfold_M. simpl.
  destruct (active_connections w !! session_id) as [c|]; [|reflexivity].
  set (w1 := with_active_requests (insert session_id None) w).
  pose proof (broadcast_message_ok (Thinking false) session_id w1) as Hok.
  pose proof (broadcast_message_requests (Thinking false) session_id w1) as Hreq.
  destruct (broadcast_message (Thinking false) session_id w1) as [[[]|e1] w2];
    simpl in *; [|discriminate].
  unfold new_uuid.
  set (ev := ChatMessage _ _ _ _).
  set (w3 := with_uuid_count S w2).
  pose proof (broadcast_message_ok ev session_id w3) as Hok'.
  pose proof (broadcast_message_requests ev session_id w3) as Hreq'.
  destruct (broadcast_message ev session_id w3) as [[[]|e2] w4];
    simpl in *; [|discriminate].
  now rewrite Hreq', Hreq.
Qed.

Lemma marker_insert_None (requests : gmap string (option nat)) session_id :
  mjoin (<[session_id := None]> requests !! session_id) = None.
Proof. now rewrite lookup_insert_eq. Qed.

(** *** The markers a computation writes *)

Lemma writes_only_frame {A} (m : M A) session_id :
  (forall w, active_requests (snd (m w)) = active_requests w) ->
  writes_only session_id m.
Proof. intros Hm w sid _. now rewrite Hm. Qed.

Lemma writes_only_bind {A B} (m : M A) (k : A -> M B) session_id :
  writes_only session_id m -> (forall a, writes_only session_id (k a)) ->
  writes_only session_id (m ≫= k).
Proof.
  intros Hm Hk w sid Hne. specialize (Hm w sid Hne).
  unfold mbind, M_bind. destruct (m w) as [[a|e] w1]; simpl in *; [|exact Hm].
  now rewrite (Hk a w1 sid Hne).
Qed.

Lemma writes_only_try_except {A} (body : M A) (handler : exn -> M A) session_id :
  writes_only session_id body -> (forall e, writes_only session_id (handler e)) ->
  writes_only session_id (try_except body handler).
Proof.
  intros Hm Hk w sid Hne. specialize (Hm w sid Hne).
  unfold try_except. destruct (body w) as [[a|e] w1]; simpl in *; [exact Hm|].
  now rewrite (Hk e w1 sid Hne).
Qed.

Lemma writes_only_try_finally {A} (body : M A) (final : M unit) session_id :
  writes_only session_id body -> writes_only session_id final ->
  writes_only session_id (try_finally body final).
Proof.
  intros Hm Hf w sid Hne. specialize (Hm w sid Hne).
  unfold try_finally. destruct (body w) as [r w1]; simpl in *.
  specialize (Hf w1 sid Hne).
  destruct (final w1) as [[[]|e] w2]; simpl in *; now rewrite Hf.
Qed.

Lemma writes_only_set_active_request session_id value :
  writes_only session_id (set_active_request session_id value).
Proof.
  intros w sid Hne. unfold set_active_request, modify. simpl.
  now rewrite lookup_insert_ne by congruence.
Qed.

Lemma writes_only_broadcast_message message session_id sid :
  writes_only sid (broadcast_message message session_id).
Proof. apply writes_only_frame. apply broadcast_message_requests. Qed.

Lemma writes_only_stream_chunks session_id message_id chunks failure :
  forall full_response,
  writes_only session_id
    (stream_chunks session_id message_id full_response chunks failure).
Proof.
  induction chunks as [|[chunk|repr] rest IH]; intros full; simpl.
  - destruct failure; now apply writes_only_frame.
  - apply writes_only_bind; [apply writes_only_broadcast_message|].
    intros _. apply IH.
  - apply IH.
Qed.

Lemma writes_only_relay_response agent_manager message session_id message_id :
  writes_only session_id
    (relay_response agent_manager message session_id message_id).
Proof.
  unfold relay_response.
  apply writes_only_bind; [now apply writes_only_frame|]. intros request.
  apply writes_only_bind; [now apply writes_only_frame|]. intros response.
  assert (Hstream : forall chunks failure, writes_only session_id
    (full_response ←
       stream_chunks session_id message_id EmptyString chunks failure;
     if truthy full_response then
       broadcast_message
         (ChatMessage ("assistant-" +:+ message_id) "assistant" full_response
            (Some false)) session_id
     else mret tt)).
  { intros chunks failure.
    apply writes_only_bind; [apply writes_only_stream_chunks|]. intros full.
    destruct (truthy full);
      [apply writes_only_broadcast_message | now apply writes_only_frame]. }
  destruct response; first
    [ apply writes_only_broadcast_message | apply Hstream ].
Qed.

Lemma writes_only_start_request message agent_manager session_id message_id
    provider model :
  writes_only session_id
    (start_request message agent_manager session_id message_id provider model).
Proof.
  unfold start_request.
  apply writes_only_bind; [now apply writes_only_frame|]. intros env.
  apply writes_only_bind.
  { apply writes_only_frame. intros w0. unfold new_provider.
    destruct (create_provider env provider model); reflexivity. }
  intros p.
  apply writes_only_bind; [now apply writes_only_frame|]. intros _.
  apply writes_only_bind; [apply writes_only_broadcast_message|]. intros _.
  apply writes_only_bind; [now apply writes_only_frame|]. intros request.
  apply writes_only_bind; [apply writes_only_broadcast_message|]. intros _.
  apply writes_only_bind; [apply writes_only_set_active_request|]. intros _.
  now apply writes_only_frame.
Qed.

Lemma writes_only_serve message agent_manager session_id message_id provider model :
  writes_only session_id
    (serve message agent_manager session_id message_id provider model).
Proof.
  unfold serve.
  apply writes_only_bind; [apply writes_only_start_request|]. intros [am p].
  apply writes_only_bind; [|intros _; now apply writes_only_frame].
  apply writes_only_try_finally; [apply writes_only_relay_response|].
  unfold release.
  apply writes_only_bind; [apply writes_only_set_active_request|].
  intros _. apply writes_only_broadcast_message.
Qed.

Lemma writes_only_chat message session_id :
  message !! "session_id" = Some session_id ->
  writes_only session_id (chat message).
Proof.
  intros Hsid. unfold chat, chat_body, chat_handler. rewrite Hsid.
  apply writes_only_try_except.
  - destruct (negb (truthy session_id)); [now apply writes_only_frame|].
    apply writes_only_bind; [now apply writes_only_frame|]. intros sessions.
    destruct (sessions !! session_id); [|now apply writes_only_frame].
    apply writes_only_bind; [now apply writes_only_frame|]. intros connections.
    destruct (bool_decide _); [now apply writes_only_frame|].
    apply writes_only_bind; [now apply writes_only_frame|]. intros mid.
    destruct (negb _ || negb _);
      [now apply writes_only_frame | apply writes_only_serve].
  - intros e.
    apply writes_only_bind; [|intros _; now apply writes_only_frame].
    apply writes_only_bind.
    + destruct (truthy session_id);
        [apply writes_only_set_active_request | now apply writes_only_frame].
    + intros _. apply writes_only_bind; [now apply writes_only_frame|].
      intros connections.
      destruct (connections !! session_id); [|now apply writes_only_frame].
      apply writes_only_bind; [apply writes_only_broadcast_message|]. intros _.
      apply writes_only_bind; [now apply writes_only_frame|]. intros u.
      apply writes_only_broadcast_message.
Qed.

(** C5 (amended). A request that gets as far as the agent call finds
    the marker of its session holding the provider created for it,
    stored by the statement before the call; when the block around the
    call is left, with a result or with an exception, the marker is
    empty. Hence after [chat] has returned for an accepted request the
    marker is empty, whatever happened; a request refused by the checks
    at the head of [chat] leaves every marker as it found it, set if it
    was set. In particular a marker that was empty before [chat] is
    empty after it, and when no request was in flight before [chat],
    none is after it. *)
Theorem marker_set_then_cleared (message : gmap string string) (w : World)
    (session_id message_id provider model : string)
    (agent_manager : AgentManager.t) :
  (forall agent_manager' llm_provider w1,
     start_request message agent_manager session_id message_id provider model w
       = (Ok (agent_manager', llm_provider), w1) ->
     marker w1 session_id = Some llm_provider) /\
  marker (snd (try_finally
                 (relay_response agent_manager message session_id message_id)
                 (release session_id) w)) session_id = None /\
  (accepted message w session_id ->
     marker (snd (chat message w)) session_id = None) /\
  ((forall sid, ~ accepted message w sid) ->
     active_requests (snd (chat message w)) = active_requests w) /\
  (message !! "session_id" = Some session_id ->
     marker w session_id = None ->
     marker (snd (chat message w)) session_id = None) /\
  (all_idle w -> all_idle (snd (chat message w))).
Proof.
  assert (Haccepted : forall sid, accepted message w sid ->
            marker (snd (chat message w)) sid = None).
  { intros sid Hacc.
    pose proof Hacc as (Hsid & Htruthy & [am Ham] & _).
    unfold chat, try_except.
    rewrite (chat_body_accepted _ _ _ _ Hacc Ham).
    unfold serve.
    set (mid := uuid4 (uuid_count w)).
    set (pr := default EmptyString (message !! "provider")).
    set (mo := default EmptyString (message !! "model")).
    set (w0 := with_uuid_count S w).
    unfold mbind at 1. unfold M_bind at 1.
    destruct (start_request message am sid mid pr mo w0) as [[[am' p]|e] w1].
    - destruct (try_finally_release (relay_response am' message sid mid) sid w1)
        as [Hfst Hreq].
      unfold mbind, M_bind at 1.
      destruct (try_finally (relay_response am' message sid mid) (release sid) w1)
        as [[[]|e] w2]; simpl in *.
      + unfold marker. rewrite Hreq. apply marker_insert_None.
      + unfold marker. rewrite (chat_handler_requests _ _ _ _ Hsid Htruthy).
        apply marker_insert_None.
    - unfold marker. rewrite (chat_handler_requests _ _ _ _ Hsid Htruthy).
      apply marker_insert_None. }
  assert (Hrefused : (forall sid, ~ accepted message w sid) ->
            active_requests (snd (chat message w)) = active_requests w).
  { intros Hno. unfold chat, try_except.
    destruct (chat_body_refused _ _ Hno) as [reason [-> | ->]]; reflexivity. }
  assert (Hkeep : forall sid, message !! "session_id" = Some sid ->
            marker w sid = None -> marker (snd (chat message w)) sid = None).
  { intros sid Hsid Hempty.
    destruct (accepted_decidable message w sid) as [Hacc | Hno];
      [now apply Haccepted|].
    unfold marker. rewrite Hrefused; [exact Hempty|].
    intros sid' Hacc. apply Hno.
    destruct Hacc as (Hsid' & Hrest). rewrite Hsid in Hsid'.
    injection Hsid' as <-. now split. }
  split; [|split; [|split; [|split; [|split]]]].
  - intros am' p w1 Hstart. now apply start_request_result in Hstart as [Hm _].
  - unfold marker.
    destruct (try_finally_release
                (relay_response agent_manager message session_id message_id)
                session_id w) as [_ ->].
    apply marker_insert_None.
  - apply Haccepted.
  - exact Hrefused.
  - apply Hkeep.
  - intros Hidle sid.
    destruct (message !! "session_id") as [sid0|] eqn:Hsid.
    + destruct (decide (sid = sid0)) as [->|Hne].
      * now apply Hkeep.
      * unfold marker. rewrite (writes_only_chat _ _ Hsid w sid Hne).
        apply Hidle.
    + unfold marker. rewrite Hrefused; [apply Hidle|].
      intros sid' (Hsid' & _). congruence.
Qed.


(** C10. The assignment [agent_manager.llm_provider = p] changes that
    attribute and nothing else: the agent, hence the provider it was
    constructed with, and every other attribute are what they were, and
    [process_request] gives what it gave before the assignment. This is
    the manager [chat] stores and calls for an accepted request. An agent
    constructed from the current attributes, with the assigned provider,
    is installed by [__init__], [add_tool], [remove_tool] and
    [update_configuration]. *)
Theorem provider_swap_keeps_agent (self : AgentManager.t) (p : nat)
    (request : string) (stream : bool) (tool : Tool) (tool_name : string)
    (message : gmap string string) (w : World)
    (session_id message_id provider model : string)
    (steps : option Z) (verbosity : option bool) (imports : list string) :
  let self' := AgentManager.set_llm_provider self p in
  (AgentManager.llm_provider self' = p /\
   AgentManager.agent self' = AgentManager.agent self /\
   Smolagents.model (AgentManager.agent self')
     = Smolagents.model (AgentManager.agent self) /\
   AgentManager.max_steps self' = AgentManager.max_steps self /\
   AgentManager.verbose self' = AgentManager.verbose self /\
   AgentManager.tools self' = AgentManager.tools self /\
   AgentManager.authorized_imports self' = AgentManager.authorized_imports self) /\
  AgentManager.process_request self' request stream
    = AgentManager.process_request self request stream /\
  (forall agent_manager' llm_provider w1,
     start_request message self session_id message_id provider model w
       = (Ok (agent_manager', llm_provider), w1) ->
     agent_manager' = AgentManager.set_llm_provider self llm_provider /\
     AgentManager.agent agent_manager' = AgentManager.agent self /\
     chat_sessions w1 !! session_id = Some agent_manager') /\
  (Smolagents.model (AgentManager.agent (AgentManager.add_tool self' tool)) = p /\
   Smolagents.model (AgentManager.agent (AgentManager.remove_tool self' tool_name)) = p /\
   Smolagents.model (AgentManager.agent
     (AgentManager.update_configuration self' None steps verbosity imports)) = p /\
   Smolagents.model (AgentManager.agent
     (AgentManager.update_configuration self (Some p) steps verbosity imports)) = p /\
   Smolagents.model (AgentManager.agent
     (AgentManager.__init__ p (AgentManager.max_steps self)
        (AgentManager.verbose self) [] imports)) = p) /\
  (AgentManager.agent (AgentManager.add_tool self' tool)
     = AgentManager._initialize_agent (AgentManager.add_tool self' tool) /\
   AgentManager.agent (AgentManager.remove_tool self' tool_name)
     = AgentManager._initialize_agent (AgentManager.remove_tool self' tool_name) /\
   AgentManager.agent
     (AgentManager.update_configuration self' None steps verbosity imports)
     = AgentManager._initialize_agent
         (AgentManager.update_configuration self' None steps verbosity imports)).
Proof.
  intros self'. split; [repeat split|]. split; [reflexivity|].
  split; [|split].
  - intros am' l w1 Hstart.
    apply start_request_result in Hstart as (_ & -> & Hsessions). now repeat split.
  - repeat split;
      unfold AgentManager.update_configuration;
      destruct steps, verbosity, imports; reflexivity.
  - repeat split;
      unfold AgentManager.update_configuration;
      destruct steps, verbosity, imports; reflexivity.
Qed.

(** The part of [websocket_endpoint] before the receive loop, case by
    case. *)
Lemma websocket_endpoint_cases (ws : nat) (session_id : string) (w : World) :
  websocket_endpoint ws session_id w =
  (Ok tt,
   with_active_connections
     (insert session_id {| websocket := ws; client_id := uuid4 (uuid_count w) |})
     (with_uuid_count S
        match active_connections w !! session_id with
        | Some c =>
            match sockets w !! websocket c with
            | Some s =>
                if usable s then
                  with_sockets (insert (websocket c)
                    {| sent := sent s; closed := true; broken := broken s |}) w
                else w
            | None => w
            end
        | None => w
        end)).
Proof.
  unfold websocket_endpoint. unfold_M. simpl.
  destruct (active_connections w !! session_id) as [c|]; [|reflexivity].
  unfold close.
  destruct (sockets w !! websocket c) as [s|]; [|reflexivity].
  destruct (usable s); reflexivity.
Qed.

Lemma broadcast_message_bound message session_id ws w :
  bound_to_or_unbound w session_id ws ->
  bound_to_or_unbound (snd (broadcast_message message session_id w)) session_id ws.
Proof.
  unfold bound_to_or_unbound. rewrite broadcast_message_cases.
  destruct (active_connections w !! session_id) as [c|] eqn:Hc; simpl.
  - intros Hws. destruct (sockets w !! websocket c) as [s|]; simpl.
    + destruct (usable s); simpl; [now rewrite Hc|now rewrite lookup_delete_eq].
    + now rewrite lookup_delete_eq.
  - now rewrite Hc.
Qed.

Lemma broadcast_message_others message session_id ws ws' w :
  bound_to_or_unbound w session_id ws -> ws' <> ws ->
  sockets (snd (broadcast_message message session_id w)) !! ws' = sockets w !! ws'.
Proof.
  unfold bound_to_or_unbound. rewrite broadcast_message_cases.
  destruct (active_connections w !! session_id) as [c|]; [|reflexivity].
  intros Hws Hne. destruct (sockets w !! websocket c) as [s|]; [|reflexivity].
  destruct (usable s); [|reflexivity]. simpl.
  now rewrite lookup_insert_ne by congruence.
Qed.

Lemma broadcast_all_others messages session_id ws ws' w :
  bound_to_or_unbound w session_id ws -> ws' <> ws ->
  sockets (snd (broadcast_all messages session_id w)) !! ws' = sockets w !! ws'.
Proof.
  revert w. induction messages as [|message rest IH]; intros w Hbound Hne;
    [reflexivity|].
  simpl. rewrite (bind_ok _ _ _ _ (broadcast_message_ok message session_id w)).
  rewrite IH by (try apply broadcast_message_bound; assumption).
  now apply broadcast_message_others with (ws := ws).
Qed.

Lemma broadcast_message_delivers message session_id c s w :
  active_connections w !! session_id = Some c ->
  sockets w !! websocket c = Some s ->
  usable s = true ->
  broadcast_message message session_id w =
  (Ok tt, with_sockets (insert (websocket c)
            {| sent := sent s ++ [message]; closed := closed s;
               broken := broken s |}) w).
Proof.
  intros Hc Hs Hu. rewrite broadcast_message_cases. now rewrite Hc, Hs, Hu.
Qed.

Lemma broadcast_all_delivers messages session_id c s w :
  active_connections w !! session_id = Some c ->
  sockets w !! websocket c = Some s ->
  usable s = true ->
  fst (broadcast_all messages session_id w) = Ok tt /\
  sockets (snd (broadcast_all messages session_id w)) !! websocket c
  = Some {| sent := sent s ++ messages; closed := closed s; broken := broken s |}.
Proof.
  revert s w. induction messages as [|message rest IH]; intros s w Hc Hs Hu.
  - simpl. split; [reflexivity|]. rewrite app_nil_r. rewrite Hs. now destruct s.
  - simpl. rewrite (bind_ok _ _ _ _ (broadcast_message_ok message session_id w)).
    rewrite (broadcast_message_delivers _ _ _ _ _ Hc Hs Hu). simpl.
    edestruct (IH {| sent := sent s ++ [message]; closed := closed s;
                     broken := broken s |}) as [Hok Hsent];
      [ | | | split; [exact Hok|rewrite Hsent]].
    + exact Hc.
    + simpl. apply lookup_insert_eq.
    + exact Hu.
    + simpl. now rewrite <- app_assoc.
Qed.

Lemma broadcast_all_unbound messages session_id w :
  active_connections w !! session_id = None ->
  broadcast_all messages session_id w = (Ok tt, w).
Proof.
  intros Hunbound. induction messages as [|message rest IH]; [reflexivity|].
  cbn [broadcast_all]. unfold mbind, M_bind.
  rewrite broadcast_message_cases, Hunbound. exact IH.
Qed.

(** C9, as the code has it. After a websocket has been accepted for a
    session id, the entry of that id in [active_connections], the only
    one there is, names it; the websocket that was bound to the id before
    has been closed, so that it is not usable; a run of events broadcast
    to the session in that state leaves every other websocket exactly as
    it was, and, the new websocket being usable, is appended in order to
    what that one has been sent. The state does not last: the handler of
    the superseded websocket, when its [receive_text] fails, deletes the
    entry of the session id, which by then names the new websocket.
    After that clean-up the session is bound to nothing, and a run of
    events broadcast to it changes no websocket: the new one is sent
    none of them. *)
Theorem bind_supersedes (ws : nat) (session_id : string) (w : World)
    (messages : list Event) :
  let w1 := snd (websocket_endpoint ws session_id w) in
  let w2 := snd (websocket_disconnect session_id w1) in
  (active_connections w2 !! session_id = None /\
   sockets w2 = sockets w1 /\
   broadcast_all messages session_id w2 = (Ok tt, w2)) /\
  (websocket <$> active_connections w1 !! session_id = Some ws) /\
  (forall c s', active_connections w !! session_id = Some c ->
     sockets w1 !! websocket c = Some s' -> usable s' = false) /\
  (forall c s, active_connections w !! session_id = Some c ->
     sockets w !! websocket c = Some s -> usable s = true ->
     closed <$> sockets w1 !! websocket c = Some true) /\
  (forall ws', ws' <> ws ->
     sockets (snd (broadcast_all messages session_id w1)) !! ws' = sockets w1 !! ws') /\
  (forall s, sockets w1 !! ws = Some s -> usable s = true ->
     fst (broadcast_all messages session_id w1) = Ok tt /\
     sent <$> sockets (snd (broadcast_all messages session_id w1)) !! ws
     = Some (sent s ++ messages)%list).
Proof.
  intros w1 w2.
  assert (Hstale : active_connections w2 !! session_id = None /\
                   sockets w2 = sockets w1).
  { unfold w2, w1. rewrite websocket_endpoint_cases. cbn [snd].
    unfold websocket_disconnect, mbind, M_bind, gets, modify.
    cbn. rewrite lookup_insert_eq. cbn. split; [apply lookup_delete_eq|].
    reflexivity. }
  split.
  { destruct Hstale as [Hunbound Hsockets]. repeat split; try assumption.
    now apply broadcast_all_unbound. }
  clear Hstale w2.
  unfold w1. rewrite websocket_endpoint_cases.
  cbn [snd].
  split; [|split; [|split; [|split]]].
  - simpl. now rewrite lookup_insert_eq.
  - intros c s' Hc. rewrite Hc. simpl.
    destruct (sockets w !! websocket c) as [s|] eqn:Hs; simpl.
    + destruct (usable s) eqn:Hu; simpl.
      * rewrite lookup_insert_eq. intros [= <-]. unfold usable. reflexivity.
      * rewrite Hs. now intros [= <-].
    + rewrite Hs. discriminate.
  - intros c s Hc Hs Hu. rewrite Hc, Hs, Hu. simpl.
    now rewrite lookup_insert_eq.
  - intros ws' Hne. apply broadcast_all_others with (ws := ws); [|exact Hne].
    unfold bound_to_or_unbound. simpl. now rewrite lookup_insert_eq.
  - intros s Hs Hu.
    set (c := {| websocket := ws; client_id := uuid4 (uuid_count w) |}).
    match goal with
    | |- context [broadcast_all messages session_id ?w0] =>
        assert (Hc : active_connections w0 !! session_id = Some c)
          by (simpl; apply lookup_insert_eq);
        destruct (broadcast_all_delivers messages session_id c s w0 Hc Hs Hu)
          as [Hok Hsent]
    end.
    split; [exact Hok|].
    change (websocket c) with ws in Hsent. now rewrite Hsent.
Qed.


(** *** Delivery to a bound, usable websocket *)

Lemma ready_frame w w' session_id ws log :
  active_connections w' = active_connections w ->
  sockets w' = sockets w ->
  ready w session_id ws log -> ready w' session_id ws log.
Proof.
  intros Hc Hs (c & s & ? & ? & ? & ? & ?). exists c, s.
  rewrite Hc, Hs. auto.
Qed.

Lemma broadcast_message_ready message session_id ws log w :
  ready w session_id ws log ->
  ready (snd (broadcast_message message session_id w)) session_id ws
    (log ++ [message]).
Proof.
  intros (c & s & Hc & Hws & Hs & Hu & Hlog). subst ws.
  rewrite (broadcast_message_delivers _ _ _ _ _ Hc Hs Hu). simpl.
  eexists c, _. simpl. rewrite lookup_insert_eq.
  repeat split; [exact Hc | exact Hu | simpl; now rewrite Hlog].
Qed.

Lemma stream_chunks_ready session_id message_id ws chunks :
  forall full_response log w,
  ready w session_id ws log ->
  fst (stream_chunks session_id message_id full_response chunks None w)
    = Ok (stream_text full_response chunks) /\
  ready (snd (stream_chunks session_id message_id full_response chunks None w))
    session_id ws (log ++ stream_events message_id full_response chunks).
Proof.
  induction chunks as [|[chunk|repr] rest IH]; intros full log w Hready; simpl.
  - rewrite app_nil_r. now split.
  - rewrite (bind_ok _ _ _ _ (broadcast_message_ok _ session_id w)).
    apply (broadcast_message_ready
             (ChatMessage ("assistant-" +:+ message_id) "assistant"
                (full +:+ chunk) (Some true))) in Hready.
    destruct (IH (full +:+ chunk) _ _ Hready) as [Hok Hnext].
    split; [exact Hok|]. now rewrite <- app_assoc in Hnext.
  - now apply IH.
Qed.


Lemma try_finally_release_eq {A} (body : M A) session_id w :
  try_finally body (release session_id) w
  = (fst (body w), snd (release session_id (snd (body w)))).
Proof.
  unfold try_finally. destruct (body w) as [r w1]. simpl.
  pose proof (release_ok session_id w1) as Hok.
  destruct (release session_id w1) as [[[]|e] w2]; simpl in *;
    [reflexivity | discriminate].
Qed.

Lemma release_ready session_id ws log w :
  ready w session_id ws log ->
  ready (snd (release session_id w)) session_id ws (log ++ [Thinking false]).
Proof.
  intros Hready. unfold release. unfold_M. simpl.
  apply broadcast_message_ready.
  now apply (ready_frame w).
Qed.

Lemma start_request_ready message agent_manager session_id message_id provider model
    ws log w made request :
  ready w session_id ws log ->
  create_provider (environ w) provider model = Ok made ->
  message !! "message" = Some request ->
  exists llm_provider w1,
    start_request message agent_manager session_id message_id provider model w
      = (Ok (AgentManager.set_llm_provider agent_manager llm_provider, llm_provider), w1) /\
    ready w1 session_id ws
      (log ++ [Thinking true;
               ChatMessage ("user-" +:+ message_id) "user" request None]).
Proof.
  intros Hready Hmade Hrequest.
  unfold start_request. unfold_M. simpl. rewrite Hmade. unfold new_provider. simpl.
  set (l := fresh (dom (providers w))).
  set (w1 := with_chat_sessions _ _).
  assert (Hready1 : ready w1 session_id ws log)
    by now apply (ready_frame w).
  pose proof (broadcast_message_ok (Thinking true) session_id w1) as Hok1.
  apply (broadcast_message_ready (Thinking true)) in Hready1.
  destruct (broadcast_message (Thinking true) session_id w1) as [[[]|e1] w2];
    simpl in *; [|discriminate].
  unfold Llm.getitem. rewrite Hrequest.
  set (ev := ChatMessage _ _ _ _).
  pose proof (broadcast_message_ok ev session_id w2) as Hok2.
  apply (broadcast_message_ready ev) in Hready1.
  destruct (broadcast_message ev session_id w2) as [[[]|e2] w3];
    simpl in *; [|discriminate].
  eexists l, _. split; [reflexivity|].
  rewrite <- app_assoc in Hready1.
  now apply (ready_frame w3).
Qed.

Lemma relay_response_generator agent_manager message session_id message_id
    w request chunks failure :
  message !! "message" = Some request ->
  agent_run (AgentManager.agent agent_manager) request true
    = Ok (PyGenerator chunks failure) ->
  relay_response agent_manager message session_id message_id w
  = (full_response ←
       stream_chunks session_id message_id EmptyString chunks failure;
     if truthy full_response then
       broadcast_message
         (ChatMessage ("assistant-" +:+ message_id) "assistant" full_response
            (Some false)) session_id
     else mret tt) w.
Proof.
  intros Hrequest Hrun.
  unfold relay_response, Llm.getitem, AgentManager.process_request.
  rewrite Hrequest. unfold lift, mbind, M_bind. cbn beta iota.
  rewrite Hrun. reflexivity.
Qed.

Lemma relay_generator_ready agent_manager message session_id message_id
    ws log w request chunks :
  ready w session_id ws log ->
  message !! "message" = Some request ->
  agent_run (AgentManager.agent agent_manager) request true
    = Ok (PyGenerator chunks None) ->
  fst (relay_response agent_manager message session_id message_id w) = Ok tt /\
  ready (snd (relay_response agent_manager message session_id message_id w))
    session_id ws
    (log ++ stream_events message_id EmptyString chunks ++
     if truthy (stream_text EmptyString chunks) then
       [ChatMessage ("assistant-" +:+ message_id) "assistant"
          (stream_text EmptyString chunks) (Some false)]
     else []).
Proof.
  intros Hready Hrequest Hrun.
  rewrite (relay_response_generator _ _ _ _ _ _ _ _ Hrequest Hrun).
  destruct (stream_chunks_ready session_id message_id ws chunks
              EmptyString log w Hready) as [Hok Hnext].
  rewrite (bind_ok _ _ _ _ Hok).
  destruct (truthy (stream_text EmptyString chunks)).
  - split; [apply broadcast_message_ok|].
    rewrite app_assoc. now apply broadcast_message_ready.
  - split; [reflexivity|]. now rewrite app_nil_r.
Qed.

(** C8. For an accepted request whose provider can be constructed, on a
    session bound to a usable websocket, when the agent loop yields the
    chunks ["Hel", "lo"]: [chat] answers success and the websocket is
    sent, after what it had been sent, the thinking event, the user
    message, two assistant messages with [is_streaming] true carrying
    "Hel" then "Hello", one assistant message with [is_streaming] false
    carrying "Hello", and the end of thinking; nothing else. *)
Theorem streamed_chunks_delivered (message : gmap string string) (w : World)
    (session_id request : string) (c : Connection) (s : Socket)
    (agent_manager : AgentManager.t) (made : Llm.Provider) :
  accepted message w session_id ->
  chat_sessions w !! session_id = Some agent_manager ->
  active_connections w !! session_id = Some c ->
  sockets w !! websocket c = Some s ->
  usable s = true ->
  create_provider (environ w)
    (default EmptyString (message !! "provider"))
    (default EmptyString (message !! "model")) = Ok made ->
  message !! "message" = Some request ->
  agent_run (AgentManager.agent agent_manager) request true
    = Ok (PyGenerator [ChunkStr "Hel"; ChunkStr "lo"] None) ->
  let message_id := uuid4 (uuid_count w) in
  fst (chat message w) = Ok Success /\
  sent <$> sockets (snd (chat message w)) !! websocket c
  = Some (sent s ++
      [Thinking true;
       ChatMessage ("user-" +:+ message_id) "user" request None;
       ChatMessage ("assistant-" +:+ message_id) "assistant" "Hel" (Some true);
       ChatMessage ("assistant-" +:+ message_id) "assistant" "Hello" (Some true);
       ChatMessage ("assistant-" +:+ message_id) "assistant" "Hello" (Some false);
       Thinking false])%list.
Proof.
  intros Hacc Ham Hc Hs Hu Hmade Hrequest Hrun message_id.
  assert (Hready : ready (with_uuid_count S w) session_id (websocket c) (sent s)).
  { exists c, s. simpl. auto. }
  destruct (start_request_ready message agent_manager session_id message_id _ _ _ _ _ _ _
              Hready Hmade Hrequest) as (l & w1 & Hstart & Hready1).
  destruct (relay_generator_ready
              (AgentManager.set_llm_provider agent_manager l) message session_id
              message_id _ _ _ _ _ Hready1 Hrequest Hrun) as [Hok Hready2].
  apply release_ready in Hready2.
  pose proof (try_finally_release_eq
                (relay_response (AgentManager.set_llm_provider agent_manager l)
                   message session_id message_id) session_id w1) as Htf.
  rewrite Hok in Htf.
  assert (Hchat : chat message w =
            (Ok Success,
             snd (release session_id
                    (snd (relay_response
                            (AgentManager.set_llm_provider agent_manager l)
                            message session_id message_id w1))))).
  { unfold chat, try_except.
    rewrite (chat_body_accepted _ _ _ _ Hacc Ham). fold message_id.
    unfold serve, mbind, M_bind. rewrite Hstart. cbn beta iota.
    rewrite Htf. reflexivity. }
  rewrite Hchat. cbn [fst snd].
  split; [reflexivity|].
  destruct Hready2 as (c' & s' & _ & _ & Hs' & _ & Hlog).
  rewrite Hs'. simpl. rewrite Hlog. now rewrite <- !app_assoc.
Qed.


Lemma chat_handler_tail_ready e session_id ws log w :
  ready w session_id ws log ->
  let ev := ChatMessage ("error-" +:+ uuid4 (uuid_count w)) "assistant"
              ("Error: " +:+ str_exn e) None in
  exists w',
    (broadcast_message (Thinking false) session_id;;
     error_id ← new_uuid;
     broadcast_message
       (ChatMessage ("error-" +:+ error_id) "assistant"
          ("Error: " +:+ str_exn e) None) session_id) w = (Ok tt, w') /\
    ready w' session_id ws (log ++ [Thinking false; ev]).
Proof.
  intros Hready ev.
  pose proof Hready as (c & s & Hc & Hws & Hs & Hu & Hlog). subst ws.
  rewrite (bind_ok _ _ _ _ (broadcast_message_ok _ _ _)).
  apply (broadcast_message_ready (Thinking false)) in Hready.
  rewrite (broadcast_message_delivers _ _ _ _ _ Hc Hs Hu) in *.
  cbn [snd] in *.
  unfold mbind, M_bind, new_uuid. cbn [uuid_count with_sockets]. fold ev.
  apply (ready_frame _ (with_uuid_count S
           (with_sockets (insert (websocket c)
              {| sent := sent s ++ [Thinking false]; closed := closed s;
                 broken := broken s |}) w))) in Hready; [|reflexivity..].
  pose proof (broadcast_message_ok ev session_id
                (with_uuid_count S
                   (with_sockets (insert (websocket c)
                      {| sent := sent s ++ [Thinking false]; closed := closed s;
                         broken := broken s |}) w))) as Hok.
  apply (broadcast_message_ready ev) in Hready.
  destruct (broadcast_message ev session_id _) as [[[]|e1] w']; simpl in *;
    [|discriminate].
  exists w'. split; [reflexivity|]. now rewrite <- app_assoc in Hready.
Qed.

Lemma chat_handler_ready message e session_id ws log w :
  message !! "session_id" = Some session_id ->
  ready w session_id ws log ->
  ready (snd (chat_handler message e w)) session_id ws
    (log ++ [Thinking false;
             ChatMessage ("error-" +:+ uuid4 (uuid_count w)) "assistant"
               ("Error: " +:+ str_exn e) None]).
Proof.
  intros Hsid Hready. unfold chat_handler. rewrite Hsid.
  assert (Hfirst : exists w1,
            (if truthy session_id then set_active_request session_id None
             else mret tt) w = (Ok tt, w1) /\
            ready w1 session_id ws log /\ uuid_count w1 = uuid_count w).
  { destruct (truthy session_id); eexists; (split; [reflexivity|]); split;
      try reflexivity; now apply (ready_frame w). }
  destruct Hfirst as (w1 & Hfirst & Hready1 & Hcount).
  destruct (chat_handler_tail_ready e _ _ _ _ Hready1) as (w2 & Htail & Hready2).
  rewrite Hcount in Hready2.
  pose proof Hready1 as (c & _ & Hc & _).
  unfold mbind at 1 2. unfold M_bind at 1 2. rewrite Hfirst.
  unfold mbind at 1. unfold M_bind at 1. unfold gets at 1. cbn beta iota.
  rewrite Hc. rewrite Htail. exact Hready2.
Qed.

Lemma relay_response_error agent_manager message session_id message_id
    w request e :
  message !! "message" = Some request ->
  agent_run (AgentManager.agent agent_manager) request true = Raise e ->
  relay_response agent_manager message session_id message_id w
  = (full_response ←
       stream_chunks session_id message_id EmptyString
         [ChunkStr "error"; ChunkStr "message"] None;
     if truthy full_response then
       broadcast_message
         (ChatMessage ("assistant-" +:+ message_id) "assistant" full_response
            (Some false)) session_id
     else mret tt) w.
Proof.
  intros Hrequest Hrun.
  unfold relay_response, Llm.getitem, AgentManager.process_request.
  rewrite Hrequest. unfold lift, mbind, M_bind. cbn beta iota.
  rewrite Hrun. reflexivity.
Qed.

Lemma relay_error_ready agent_manager message session_id message_id
    ws log w request e :
  ready w session_id ws log ->
  message !! "message" = Some request ->
  agent_run (AgentManager.agent agent_manager) request true = Raise e ->
  fst (relay_response agent_manager message session_id message_id w) = Ok tt /\
  ready (snd (relay_response agent_manager message session_id message_id w))
    session_id ws
    (log ++
     [ChatMessage ("assistant-" +:+ message_id) "assistant" "error" (Some true);
      ChatMessage ("assistant-" +:+ message_id) "assistant" "errormessage"
        (Some true);
      ChatMessage ("assistant-" +:+ message_id) "assistant" "errormessage"
        (Some false)]).
Proof.
  intros Hready Hrequest Hrun.
  rewrite (relay_response_error _ _ _ _ _ _ _ Hrequest Hrun).
  destruct (stream_chunks_ready session_id message_id ws
              [ChunkStr "error"; ChunkStr "message"]
              EmptyString log w Hready) as [Hok Hnext].
  rewrite (bind_ok _ _ _ _ Hok).
  change (truthy (stream_text EmptyString [ChunkStr "error"; ChunkStr "message"]))
    with true. cbn iota.
  split; [apply broadcast_message_ok|].
  apply (broadcast_message_ready
           (ChatMessage ("assistant-" +:+ message_id) "assistant" "errormessage"
              (Some false))) in Hnext.
  rewrite <- app_assoc in Hnext. exact Hnext.
Qed.

Lemma chat_returns (message : gmap string string) (w : World) :
  exists response,
    fst (chat message w) = Ok response /\
    match fst (chat_body message w) with
    | Ok r => response = r
    | Raise e => response = Failure (str_exn e)
    end.
Proof.
  unfold chat, try_except.
  destruct (chat_body message w) as [[r|e] w1] eqn:Hbody; simpl.
  - eauto.
  - exists (Failure (str_exn e)). split; [|reflexivity].
    apply chat_handler_ok.
Qed.

(** C7, as the code has it, for a request whose fields other than the
    session id are strings. [process_request] returns whatever the agent
    loop does: the agent's result when it returns one, the error value
    [{'error': True, 'message': "Error processing request: " + str(e)}]
    when it raises [e]. When the session id of the request is a string,
    the [chat] endpoint returns a response from every state, whatever
    the agent loop does: an exception [e] that leaves its [try] block
    (one raised while the streamed response is consumed, for instance)
    is answered by [{"status": "error", "message": str(e)}], and a
    session still bound to a usable websocket is sent the end of
    thinking and an assistant message "Error: " + str(e). A session id
    that is falsy, or that is no string and can be hashed, is answered
    by "Invalid session ID". Two errors are not surfaced so. When the
    agent loop raises at once, [chat] iterates the error value of
    [process_request] like a streamed response: the session is sent the
    keys of the dictionary, "error" and "message", as the text of the
    assistant, no failure event, and [chat] answers success. When the
    session id is a list or an object that is not empty, the test
    [session_id not in chat_sessions] raises [TypeError], and so does
    the first assignment of the handler: the exception leaves the
    endpoint. *)
Theorem errors_never_escape (self : AgentManager.t) (request : string)
    (stream : bool) (message : gmap string string) (w : World)
    (session_id : Json) :
  (exists value,
     AgentManager.process_request self request stream = Ok value /\
     match agent_run (AgentManager.agent self) request stream with
     | Ok result => value = result
     | Raise e => value = PyErrorDict ("Error processing request: " +:+ str_exn e)
     end) /\
  (exists response,
     fst (chat message w) = Ok response /\
     match fst (chat_body message w) with
     | Ok r => response = r
     | Raise e => response = Failure (str_exn e)
     end) /\
  (forall e w1 session_id ws log,
     chat_body message w = (Raise e, w1) ->
     message !! "session_id" = Some session_id ->
     ready w1 session_id ws log ->
     fst (chat message w) = Ok (Failure (str_exn e)) /\
     ready (snd (chat message w)) session_id ws
       (log ++ [Thinking false;
                ChatMessage ("error-" +:+ uuid4 (uuid_count w1)) "assistant"
                  ("Error: " +:+ str_exn e) None])) /\
  (forall e session_id agent_manager made ws log,
     accepted message w session_id ->
     chat_sessions w !! session_id = Some agent_manager ->
     ready w session_id ws log ->
     create_provider (environ w)
       (default EmptyString (message !! "provider"))
       (default EmptyString (message !! "model")) = Ok made ->
     message !! "message" = Some request ->
     agent_run (AgentManager.agent agent_manager) request true = Raise e ->
     let message_id := uuid4 (uuid_count w) in
     fst (chat message w) = Ok Success /\
     ready (snd (chat message w)) session_id ws
       (log ++
        [Thinking true;
         ChatMessage ("user-" +:+ message_id) "user" request None;
         ChatMessage ("assistant-" +:+ message_id) "assistant" "error" (Some true);
         ChatMessage ("assistant-" +:+ message_id) "assistant" "errormessage"
           (Some true);
         ChatMessage ("assistant-" +:+ message_id) "assistant" "errormessage"
           (Some false);
         Thinking false])) /\
  (forall s, session_id = JString s ->
     chat_any session_id message = chat (<["session_id" := s]> message) /\
     exists response, fst (chat_any session_id message w) = Ok response) /\
  (PyJson.truthy session_id = false ->
   chat_any session_id message w = (Ok (Failure "Invalid session ID"), w)) /\
  ((forall s, session_id <> JString s) -> PyJson.hash session_id = Ok tt ->
   chat_any session_id message w = (Ok (Failure "Invalid session ID"), w)) /\
  (forall items fields,
     session_id = JArray items \/ session_id = JObject fields ->
     PyJson.truthy session_id = true ->
     chat_any session_id message w
     = (Raise (TypeError ("unhashable type: '" +:+ PyJson.type_name session_id
                          +:+ "'")), w)).
Proof.
  split; [|split; [|split; [|split; [|split; [|split; [|split]]]]]].
  - unfold AgentManager.process_request.
    destruct (agent_run _ _ _); eauto.
  - apply chat_returns.
  - intros e w1 sid ws log Hbody Hsid Hready.
    unfold chat, try_except. rewrite Hbody.
    split; [apply chat_handler_ok | now apply chat_handler_ready].
  - intros e sid agent_manager made ws log Hacc Ham Hready Hmade Hrequest Hrun
      message_id.
    assert (Hready0 : ready (with_uuid_count S w) sid ws log)
      by now apply (ready_frame w).
    destruct (start_request_ready message agent_manager sid message_id _ _ _ _ _ _ _
                Hready0 Hmade Hrequest) as (l & w1 & Hstart & Hready1).
    destruct (relay_error_ready
                (AgentManager.set_llm_provider agent_manager l) message sid
                message_id _ _ _ _ _ Hready1 Hrequest Hrun) as [Hok Hready2].
    apply release_ready in Hready2.
    pose proof (try_finally_release_eq
                  (relay_response (AgentManager.set_llm_provider agent_manager l)
                     message sid message_id) sid w1) as Htf.
    rewrite Hok in Htf.
    assert (Hchat : chat message w =
              (Ok Success,
               snd (release sid
                      (snd (relay_response
                              (AgentManager.set_llm_provider agent_manager l)
                              message sid message_id w1))))).
    { unfold chat, try_except.
      rewrite (chat_body_accepted _ _ _ _ Hacc Ham). fold message_id.
      unfold serve, mbind, M_bind. rewrite Hstart. cbn beta iota.
      rewrite Htf. reflexivity. }
    rewrite Hchat. cbn [fst snd].
    split; [reflexivity|]. now rewrite <- !app_assoc in Hready2.
  - intros s ->. split; [reflexivity|]. cbn [chat_any].
    destruct (chat_returns (<["session_id" := s]> message) w) as (r & Hr & _).
    eauto.
  - intros Hfalsy. destruct session_id; cbn [chat_any];
      try (unfold try_except; cbn [PyJson.truthy] in *; rewrite ?Hfalsy;
           reflexivity).
    cbn [PyJson.truthy] in Hfalsy.
    unfold chat, try_except, chat_body.
    rewrite lookup_insert_eq, Hfalsy. reflexivity.
  - intros Hstring Hhash.
    destruct session_id as [|b|n|nonzero repr|s|items|fields];
      try discriminate Hhash; try (now destruct (Hstring s));
      cbn [chat_any]; unfold try_except; cbn [PyJson.truthy].
    + reflexivity.
    + now destruct b.
    + now destruct (Z.eqb n 0).
    + now destruct nonzero.
  - intros items fields [-> | ->] Htruthy; cbn [chat_any];
      unfold try_except; rewrite Htruthy; reflexivity.
Qed.

(** *** Independence of the active request markers *)

(** A computation that gives, on a state and on the state without its
    markers, the same result and the same state up to the markers. *)
Lemma oblivious_via {A} (m : M A) :
  (forall w, fst (m w) = fst (m (forget w)) /\
             forget (snd (m w)) = forget (snd (m (forget w)))) ->
  oblivious m.
Proof.
  intros Hm w1 w2 Heq.
  destruct (Hm w1) as [Hr1 Hs1], (Hm w2) as [Hr2 Hs2].
  rewrite Hr1, Hr2, Hs1, Hs2, Heq. now split.
Qed.

Lemma oblivious_ret {A} (a : A) : oblivious (mret a).
Proof. intros w1 w2 Heq. now split. Qed.

Lemma oblivious_raise {A} (e : exn) : oblivious (raise (A := A) e).
Proof. intros w1 w2 Heq. now split. Qed.

Lemma oblivious_lift {A} (r : result A) : oblivious (lift r).
Proof. intros w1 w2 Heq. now split. Qed.

Lemma oblivious_bind {A B} (m : M A) (k : A -> M B) :
  oblivious m -> (forall a, oblivious (k a)) -> oblivious (m ≫= k).
Proof.
  intros Hm Hk w1 w2 Heq. destruct (Hm w1 w2 Heq) as [Hr Hs].
  unfold mbind, M_bind.
  destruct (m w1) as [[a1|e1] w1'], (m w2) as [[a2|e2] w2'];
    simpl in *; try discriminate.
  - injection Hr as ->. now apply Hk.
  - injection Hr as ->. now split.
Qed.

Lemma oblivious_try_except {A} (body : M A) (handler : exn -> M A) :
  oblivious body -> (forall e, oblivious (handler e)) ->
  oblivious (try_except body handler).
Proof.
  intros Hm Hk w1 w2 Heq. destruct (Hm w1 w2 Heq) as [Hr Hs].
  unfold try_except.
  destruct (body w1) as [[a1|e1] w1'], (body w2) as [[a2|e2] w2'];
    simpl in *; try discriminate.
  - now split.
  - injection Hr as ->. now apply Hk.
Qed.

Lemma oblivious_try_finally {A} (body : M A) (final : M unit) :
  oblivious body -> oblivious final -> oblivious (try_finally body final).
Proof.
  intros Hm Hf w1 w2 Heq. destruct (Hm w1 w2 Heq) as [Hr Hs].
  unfold try_finally.
  destruct (body w1) as [r1 w1'], (body w2) as [r2 w2']; simpl in *.
  destruct (Hf w1' w2' Hs) as [Hr' Hs'].
  destruct (final w1') as [[[]|e1] w1''], (final w2') as [[[]|e2] w2''];
    simpl in *; try discriminate.
  - now split.
  - injection Hr' as ->. now split.
Qed.

Lemma oblivious_gets {A} (f : World -> A) :
  (forall w, f w = f (forget w)) -> oblivious (gets f).
Proof.
  intros Hf. apply oblivious_via. intros w. unfold gets. simpl.
  split; [now rewrite Hf|reflexivity].
Qed.

Lemma oblivious_modify (h : World -> World) :
  (forall w, forget (h w) = forget (h (forget w))) -> oblivious (modify h).
Proof.
  intros Hh. apply oblivious_via. intros w. unfold modify. simpl.
  split; [reflexivity|apply Hh].
Qed.

Lemma oblivious_set_active_request session_id value :
  oblivious (set_active_request session_id value).
Proof. apply oblivious_modify. reflexivity. Qed.

Lemma oblivious_new_uuid : oblivious new_uuid.
Proof. apply oblivious_via. intros w. now split. Qed.

Lemma oblivious_new_provider made : oblivious (new_provider made).
Proof.
  apply oblivious_via. intros w. unfold new_provider.
  destruct made; now split.
Qed.

Lemma oblivious_broadcast_message message session_id :
  oblivious (broadcast_message message session_id).
Proof.
  apply oblivious_via. intros w. rewrite !broadcast_message_cases. simpl.
  destruct (active_connections w !! session_id) as [c|]; [|now split].
  destruct (sockets w !! websocket c) as [s|]; [|now split].
  destruct (usable s); now split.
Qed.

Lemma oblivious_stream_chunks session_id message_id chunks failure :
  forall full_response,
  oblivious (stream_chunks session_id message_id full_response chunks failure).
Proof.
  induction chunks as [|[chunk|repr] rest IH]; intros full; simpl.
  - destruct failure; [apply oblivious_raise | apply oblivious_ret].
  - apply oblivious_bind; [apply oblivious_broadcast_message|].
    intros _. apply IH.
  - apply IH.
Qed.

Lemma oblivious_relay_response agent_manager message session_id message_id :
  oblivious (relay_response agent_manager message session_id message_id).
Proof.
  unfold relay_response.
  apply oblivious_bind; [apply oblivious_lift|]. intros request.
  apply oblivious_bind; [apply oblivious_lift|]. intros response.
  assert (Hstream : forall chunks failure, oblivious
    (full_response ←
       stream_chunks session_id message_id EmptyString chunks failure;
     if truthy full_response then
       broadcast_message
         (ChatMessage ("assistant-" +:+ message_id) "assistant" full_response
            (Some false)) session_id
     else mret tt)).
  { intros chunks failure.
    apply oblivious_bind; [apply oblivious_stream_chunks|]. intros full.
    destruct (truthy full);
      [apply oblivious_broadcast_message | apply oblivious_ret]. }
  destruct response; first
    [ apply oblivious_broadcast_message | apply Hstream ].
Qed.

Lemma oblivious_release session_id : oblivious (release session_id).
Proof.
  unfold release.
  apply oblivious_bind; [apply oblivious_set_active_request|].
  intros _. apply oblivious_broadcast_message.
Qed.

Lemma oblivious_start_request message agent_manager session_id message_id provider model :
  oblivious (start_request message agent_manager session_id message_id provider model).
Proof.
  unfold start_request.
  apply oblivious_bind; [now apply oblivious_gets|]. intros env.
  apply oblivious_bind; [apply oblivious_new_provider|]. intros p.
  apply oblivious_bind; [now apply oblivious_modify|]. intros _.
  apply oblivious_bind; [apply oblivious_broadcast_message|]. intros _.
  apply oblivious_bind; [apply oblivious_lift|]. intros request.
  apply oblivious_bind; [apply oblivious_broadcast_message|]. intros _.
  apply oblivious_bind; [apply oblivious_set_active_request|]. intros _.
  apply oblivious_ret.
Qed.

Lemma oblivious_serve message agent_manager session_id message_id provider model :
  oblivious (serve message agent_manager session_id message_id provider model).
Proof.
  unfold serve.
  apply oblivious_bind; [apply oblivious_start_request|]. intros [am p].
  apply oblivious_bind; [|intros _; apply oblivious_ret].
  apply oblivious_try_finally;
    [apply oblivious_relay_response | apply oblivious_release].
Qed.

Lemma oblivious_chat_body message : oblivious (chat_body message).
Proof.
  unfold chat_body.
  destruct (message !! "session_id") as [sid|]; [|apply oblivious_ret].
  destruct (negb (truthy sid)); [apply oblivious_ret|].
  apply oblivious_bind; [now apply oblivious_gets|]. intros sessions.
  destruct (sessions !! sid) as [am|]; [|apply oblivious_ret].
  apply oblivious_bind; [now apply oblivious_gets|]. intros connections.
  destruct (bool_decide (connections !! sid = None)); [apply oblivious_ret|].
  apply oblivious_bind; [apply oblivious_new_uuid|]. intros mid.
  destruct (negb _ || negb _); [apply oblivious_ret | apply oblivious_serve].
Qed.

Lemma oblivious_chat_handler message e : oblivious (chat_handler message e).
Proof.
  unfold chat_handler.
  apply oblivious_bind; [|intros _; apply oblivious_ret].
  destruct (message !! "session_id") as [sid|]; [|apply oblivious_ret].
  apply oblivious_bind.
  - destruct (truthy sid);
      [apply oblivious_set_active_request | apply oblivious_ret].
  - intros _. apply oblivious_bind; [now apply oblivious_gets|].
    intros connections. destruct (connections !! sid); [|apply oblivious_ret].
    apply oblivious_bind; [apply oblivious_broadcast_message|]. intros _.
    apply oblivious_bind; [apply oblivious_new_uuid|]. intros u.
    apply oblivious_broadcast_message.
Qed.

(** C1 (amended). [chat] never reads [active_requests]: run from two
    states that differ at most in the markers it gives the same response
    and leaves states that differ at most in the markers, so the same
    sessions, connections, adapters and events sent. A request for a
    session whose marker is non-empty is therefore processed as it would
    be with the marker empty; no check refuses it. *)
Theorem chat_ignores_marker (message : gmap string string) (w : World)
    (requests : gmap string (option nat)) :
  fst (chat message (with_active_requests (fun _ => requests) w))
    = fst (chat message w) /\
  forget (snd (chat message (with_active_requests (fun _ => requests) w)))
    = forget (snd (chat message w)).
Proof.
  apply (oblivious_try_except _ _ (oblivious_chat_body message)
           (oblivious_chat_handler message)).
  reflexivity.
Qed.


End Endpoints.

(** C1, counterexample: a request for a session whose marker holds a
    provider is not refused: [chat] answers success, the agent loop has
    run and its answer has been relayed. *)
Lemma busy_session_is_served :
  App.marker Examples.world_busy "s1" = Some 0 /\
  fst (App.chat (H := Examples.runtime_hello) Examples.request0 Examples.world_busy)
    = Ok App.Success /\
  App.sent <$> App.sockets
      (snd (App.chat (H := Examples.runtime_hello) Examples.request0
              Examples.world_busy)) !! 7
    = Some Examples.events0.
Proof. repeat split; vm_compute; reflexivity. Qed.

Lemma accepted_request0 : accepted Examples.request0 Examples.world_idle "s1".
Proof. repeat split; try (eexists; vm_compute; reflexivity); reflexivity. Qed.

Lemma marker_set_then_cleared_witness :
  (exists am p w1,
     App.start_request Examples.request0 Examples.manager0 "s1" "0" "ollama" "llama3"
       Examples.world_idle = (Ok (am, p), w1) /\
     App.marker w1 "s1" = Some p) /\
  App.marker (snd (App.chat (H := Examples.runtime_hello) Examples.request0
                     Examples.world_idle)) "s1" = None /\
  App.active_requests
    (snd (App.chat (H := Examples.runtime_hello) Examples.request_unselected
            Examples.world_busy))
  = App.active_requests Examples.world_busy /\
  all_idle (snd (App.chat (H := Examples.runtime_hello) Examples.request0
                   Examples.world_idle)).
Proof.
  pose proof (marker_set_then_cleared (H := Examples.runtime_hello)
                Examples.request0 Examples.world_idle "s1" "0" "ollama" "llama3"
                Examples.manager0) as (Hset & _ & Hacc & _ & _ & Hidle).
  pose proof (marker_set_then_cleared (H := Examples.runtime_hello)
                Examples.request_unselected Examples.world_busy "s1" "0" "ollama"
                "llama3" Examples.manager0) as (_ & _ & _ & Hrefused & _).
  split; [|split; [|split]].
  4:{ apply Hidle. intros sid. reflexivity. }
  - destruct (App.start_request Examples.request0 Examples.manager0 "s1" "0" "ollama"
                "llama3" Examples.world_idle) as [[[am p]|e] w1] eqn:Hstart;
      [|vm_compute in Hstart; discriminate].
    exists am, p, w1. split; [reflexivity|]. now apply (Hset am p w1).
  - exact (Hacc accepted_request0).
  - apply Hrefused. intros sid (_ & _ & _ & _ & Hprovider & _).
    vm_compute in Hprovider. discriminate.
Defined.

Lemma cancel_is_noop_when_idle_witness :
  App.cancel_chat "s1" Examples.world_idle = (Ok App.Success, Examples.world_idle) /\
  Llm.cancel_request Examples.deepseek_streaming ∅
    = (Llm.clear_current_request Examples.deepseek_streaming, {[3]} ∪ ∅) /\
  Llm.cancel_request Examples.deepseek_failed ∅ = (Examples.deepseek_failed, ∅) /\
  Llm.cancel_request Examples.ollama0 ∅ = (Examples.ollama0, ∅) /\
  App.provider_cancel_request 0 Examples.world_idle = (Ok tt, Examples.world_idle).
Proof.
  pose proof (cancel_is_noop_when_idle Examples.world_idle "s1"
                Examples.deepseek_streaming ∅
                {| Llm.handle := 3; Llm.handle_status := 200 |} 0)
    as (Hidle & _ & Hattached & _).
  pose proof (cancel_is_noop_when_idle Examples.world_idle "s1"
                Examples.deepseek_failed ∅
                {| Llm.handle := 9; Llm.handle_status := 500 |} 0)
    as (_ & _ & _ & Hfailed & _).
  pose proof (cancel_is_noop_when_idle Examples.world_idle "s1"
                Examples.ollama0 ∅
                {| Llm.handle := 3; Llm.handle_status := 200 |} 0)
    as (_ & _ & _ & _ & Hdetached & Hstored & _).
  split; [|split; [|split; [|split]]].
  - apply Hidle. reflexivity.
  - apply Hattached; [reflexivity | simpl; lia].
  - apply Hfailed; [reflexivity | simpl; lia].
  - apply Hdetached. reflexivity.
  - apply Hstored; reflexivity.
Defined.

Lemma streamed_chunks_delivered_witness :
  fst (App.chat (H := Examples.runtime_hello) Examples.request0 Examples.world_idle)
    = Ok App.Success /\
  App.sent <$> App.sockets
      (snd (App.chat (H := Examples.runtime_hello) Examples.request0
              Examples.world_idle)) !! 7
    = Some Examples.events0.
Proof.
  apply (streamed_chunks_delivered (H := Examples.runtime_hello)
           Examples.request0 Examples.world_idle "s1" "hi"
           Examples.connection0 Examples.socket0 Examples.manager0
           Examples.ollama0).
  - exact accepted_request0.
  - reflexivity.
  - reflexivity.
  - reflexivity.
  - reflexivity.
  - reflexivity.
  - reflexivity.
  - reflexivity.
Defined.

Lemma bind_supersedes_witness :
  let w1 := snd (App.websocket_endpoint (H := Examples.runtime_hello) 8 "s1"
                   Examples.world_idle) in
  App.closed <$> App.sockets w1 !! 7 = Some true /\
  App.sockets (snd (App.broadcast_all Examples.events0 "s1" w1)) !! 7
    = App.sockets w1 !! 7 /\
  App.sent <$> App.sockets (snd (App.broadcast_all Examples.events0 "s1" w1)) !! 8
    = Some Examples.events0.
Proof.
  intros w1.
  pose proof (bind_supersedes (H := Examples.runtime_hello) 8 "s1"
                Examples.world_idle Examples.events0)
    as (_ & _ & Hunusable & Hclosed & Hothers & Hdelivered).
  split; [|split].
  - apply (Hclosed Examples.connection0 Examples.socket0); reflexivity.
  - apply Hothers. discriminate.
  - apply (Hdelivered Examples.socket0); reflexivity.
Defined.

Lemma provider_swap_keeps_agent_witness :
  exists am p w1,
    App.start_request Examples.request0 Examples.manager0 "s1" "0" "ollama" "llama3"
      Examples.world_idle = (Ok (am, p), w1) /\
    AgentManager.agent am = AgentManager.agent Examples.manager0 /\
    App.chat_sessions w1 !! "s1" = Some am.
Proof.
  pose proof (provider_swap_keeps_agent (H := Examples.runtime_hello)
                Examples.manager0 1 "hi" true AgentManager.WebSearchTool
                "web_search" Examples.request0 Examples.world_idle "s1" "0"
                "ollama" "llama3" None None [])
    as (_ & _ & Hstarted & _).
  destruct (App.start_request Examples.request0 Examples.manager0 "s1" "0" "ollama"
              "llama3" Examples.world_idle) as [[[am p]|e] w1] eqn:Hstart;
    [|vm_compute in Hstart; discriminate].
  exists am, p, w1. split; [reflexivity|].
  destruct (Hstarted am p w1 eq_refl) as (_ & Hagent & Hstored). now split.
Defined.

Lemma errors_never_escape_witness :
  fst (App.chat (H := Examples.runtime_lost) Examples.request0 Examples.world_idle)
    = Ok (App.Failure "connection lost") /\
  App.sent <$> App.sockets
      (snd (App.chat (H := Examples.runtime_lost) Examples.request0
              Examples.world_idle)) !! 7
    = Some [App.Thinking true;
            App.ChatMessage "user-0" "user" "hi" None;
            App.ChatMessage "assistant-0" "assistant" "Hel" (Some true);
            App.Thinking false;
            App.Thinking false;
            App.ChatMessage "error-1" "assistant" "Error: connection lost" None].
Proof.
  pose proof (errors_never_escape (H := Examples.runtime_lost) Examples.manager0
                "hi" true Examples.request0 Examples.world_idle JNull)
    as (_ & _ & Hraised & _).
  destruct (Hraised (TransportError "connection lost")
              (snd (App.chat_body (H := Examples.runtime_lost) Examples.request0
                      Examples.world_idle))
              "s1" 7
              [App.Thinking true;
               App.ChatMessage "user-0" "user" "hi" None;
               App.ChatMessage "assistant-0" "assistant" "Hel" (Some true);
               App.Thinking false])
    as [Hresponse Hready].
  - vm_compute. reflexivity.
  - reflexivity.
  - exists Examples.connection0,
      {| App.sent := [App.Thinking true;
                      App.ChatMessage "user-0" "user" "hi" None;
                      App.ChatMessage "assistant-0" "assistant" "Hel" (Some true);
                      App.Thinking false];
         App.closed := false; App.broken := false |}.
    repeat split; vm_compute; reflexivity.
  - split; [exact Hresponse|].
    destruct Hready as (c & s & _ & _ & Hs & _ & Hlog).
    rewrite Hs. simpl. rewrite Hlog. reflexivity.
Defined.

(** C5, counterexample: a request refused by the checks at the head of
    [chat], here for want of a provider, on a session whose marker holds
    a provider: [chat] has returned and the marker is not empty. *)
Lemma refused_request_keeps_marker :
  App.marker Examples.world_busy "s1" = Some 0 /\
  fst (App.chat (H := Examples.runtime_hello) Examples.request_unselected
         Examples.world_busy)
    = Ok (App.Failure "Provider and model must be selected") /\
  App.marker
    (snd (App.chat (H := Examples.runtime_hello) Examples.request_unselected
            Examples.world_busy)) "s1" = Some 0.
Proof. repeat split; vm_compute; reflexivity. Qed.

(** C6, counterexample: the DeepSeek endpoint answers a streamed request
    with status 500. [generate_response] raises for the status with the
    response attached; [cancel_request] then closes nothing and leaves
    the response attached. *)
Lemma failed_response_stays_attached :
  let call := Generate.generate_response (H := Examples.completions0)
                (Examples.adapter Llm.DeepSeek) [Examples.hello] None true in
  snd call = Raise (HTTPError 500 "HTTP error") /\
  Llm._current_request (fst call)
    = Some {| Llm.handle := 9; Llm.handle_status := 500 |} /\
  Llm.cancel_request (fst call) ∅ = (fst call, ∅) /\
  Llm._current_request (fst (Llm.cancel_request (fst call) ∅))
    = Some {| Llm.handle := 9; Llm.handle_status := 500 |}.
Proof. repeat split; vm_compute; reflexivity. Qed.

(** C7, counterexample. With an agent loop that raises at once, [chat]
    answers success and the session is sent the keys of the error
    dictionary as the text of the assistant, not a failure event. With a
    session id that is the list ["s1"], [chat] raises [TypeError]: no
    response is returned, and nothing is sent. *)
Lemma errors_not_surfaced :
  (fst (App.chat (H := Examples.runtime_refusing) Examples.request0
          Examples.world_idle) = Ok App.Success /\
   App.sent <$> App.sockets
       (snd (App.chat (H := Examples.runtime_refusing) Examples.request0
               Examples.world_idle)) !! 7
     = Some [App.Thinking true;
             App.ChatMessage "user-0" "user" "hi" None;
             App.ChatMessage "assistant-0" "assistant" "error" (Some true);
             App.ChatMessage "assistant-0" "assistant" "errormessage" (Some true);
             App.ChatMessage "assistant-0" "assistant" "errormessage" (Some false);
             App.Thinking false]) /\
  App.chat_any (H := Examples.runtime_hello) (JArray [JString "s1"])
    Examples.request0 Examples.world_idle
  = (Raise (TypeError "unhashable type: 'list'"), Examples.world_idle).
Proof. repeat split; vm_compute; reflexivity. Qed.

(** C9, counterexample: the session "s1" is bound to the websocket 7; the
    websocket 8 is accepted for it, which closes 7; the handler of 7
    then leaves its loop and cleans up. The session is bound to nothing:
    the events sent to it afterward are not delivered to the websocket
    8, and a request on the session is refused for want of a
    connection. *)
Lemma superseded_handler_unbinds :
  let w1 := snd (App.websocket_endpoint (H := Examples.runtime_hello) 8 "s1"
                   Examples.world_idle) in
  let w2 := snd (App.websocket_disconnect "s1" w1) in
  App.websocket <$> App.active_connections w1 !! "s1" = Some 8 /\
  App.usable <$> App.sockets w1 !! 8 = Some true /\
  App.active_connections w2 !! "s1" = None /\
  App.sent <$> App.sockets (snd (App.broadcast_all Examples.events0 "s1" w2)) !! 8
    = Some [] /\
  App.chat (H := Examples.runtime_hello) Examples.request0 w2
    = (Ok (App.Failure "No active WebSocket connection"), w2).
Proof. repeat split; vm_compute; reflexivity. Qed.

(** * Further properties of the code *)

(** ** [AgentManager]: tools, imports and status *)

Lemma filter_Forall_id {A} (P : A -> Prop) `{forall x, Decision (P x)}
    (l : list A) :
  Forall P l -> filter P l = l.
Proof.
  induction 1 as [|x xs Hx _ IH]; [reflexivity|].
  rewrite filter_cons, decide_True by exact Hx. now rewrite IH.
Qed.

(** X1. Removing by name undoes an [add_tool]: after [add_tool] and then
    [remove_tool] of the added tool's name, the tool list is the earlier
    list without its entries of that name; it is the earlier list itself
    when the name was new. Removing the same name a second time changes
    nothing more, and removals of two names commute. *)
Theorem add_then_remove_tool (self : AgentManager.t) (tool : Tool)
    (other : string) :
  AgentManager.tools
    (AgentManager.remove_tool (AgentManager.add_tool self tool) (name tool))
  = filter (fun t => name t <> name tool) (AgentManager.tools self) /\
  (Forall (fun t => name t <> name tool) (AgentManager.tools self) ->
   AgentManager.tools
     (AgentManager.remove_tool (AgentManager.add_tool self tool) (name tool))
   = AgentManager.tools self) /\
  AgentManager.tools
    (AgentManager.remove_tool (AgentManager.remove_tool self other) other)
  = AgentManager.tools (AgentManager.remove_tool self other) /\
  AgentManager.tools
    (AgentManager.remove_tool (AgentManager.remove_tool self other) (name tool))
  = AgentManager.tools
      (AgentManager.remove_tool (AgentManager.remove_tool self (name tool)) other).
Proof.
  assert (Hfirst : AgentManager.tools
      (AgentManager.remove_tool (AgentManager.add_tool self tool) (name tool))
    = filter (fun t => name t <> name tool) (AgentManager.tools self)).
  { unfold AgentManager.remove_tool, AgentManager.add_tool.
    cbn [AgentManager.tools AgentManager.set_agent AgentManager.set_tools].
    rewrite filter_app, filter_cons.
    destruct (decide (name tool <> name tool)) as [Hne|_]; [congruence|].
    rewrite filter_nil. apply app_nil_r. }
  split; [exact Hfirst|]. split; [|split].
  - intros Hnew. rewrite Hfirst. now apply filter_Forall_id.
  - unfold AgentManager.remove_tool.
    cbn [AgentManager.tools AgentManager.set_agent AgentManager.set_tools].
    rewrite (list_filter_filter _ _). apply list_filter_iff. tauto.
  - unfold AgentManager.remove_tool.
    cbn [AgentManager.tools AgentManager.set_agent AgentManager.set_tools].
    rewrite !(list_filter_filter _ _). apply list_filter_iff. tauto.
Qed.

Lemma add_then_remove_tool_witness :
  AgentManager.tools
    (AgentManager.remove_tool
       (AgentManager.add_tool Examples.manager0 Examples.mock_tool) "mock_tool")
  = AgentManager.tools Examples.manager0.
Proof.
  destruct (add_then_remove_tool Examples.manager0 Examples.mock_tool "absent")
    as (_ & Hnew & _).
  apply Hnew. repeat constructor; discriminate.
Defined.

(** X2. The status of a manager counts its tools as they are listed,
    duplicates included, so [add_tool] raises the count by one and
    [remove_tool] never raises it; it lists the authorized imports in
    ascending order, each one once, and these are exactly the members of
    the set. *)
Theorem status_reports_configuration (self : AgentManager.t)
    (provider : Llm.Provider) (tool : Tool) (tool_name x : string) :
  let status := AgentManager.get_agent_status self provider in
  AgentManager.num_tools status = length (AgentManager.tools self) /\
  AgentManager.num_tools
    (AgentManager.get_agent_status (AgentManager.add_tool self tool) provider)
    = S (AgentManager.num_tools status) /\
  AgentManager.num_tools
    (AgentManager.get_agent_status (AgentManager.remove_tool self tool_name) provider)
    <= AgentManager.num_tools status /\
  StronglySorted String.le (AgentManager.status_authorized_imports status) /\
  NoDup (AgentManager.status_authorized_imports status) /\
  (x ∈ AgentManager.status_authorized_imports status
   <-> x ∈ AgentManager.authorized_imports self).
Proof.
  intros status. unfold status, AgentManager.get_agent_status.
  cbn [AgentManager.num_tools AgentManager.status_authorized_imports].
  split; [reflexivity|]. split; [|split; [|split; [|split]]].
  - unfold AgentManager.add_tool.
    cbn [AgentManager.tools AgentManager.set_agent AgentManager.set_tools].
    rewrite length_app. simpl. lia.
  - unfold AgentManager.remove_tool.
    cbn [AgentManager.tools AgentManager.set_agent AgentManager.set_tools].
    apply length_filter.
  - apply StronglySorted_merge_sort; apply _.
  - rewrite merge_sort_Permutation. apply NoDup_elements.
  - rewrite merge_sort_Permutation. apply elem_of_elements.
Qed.

(** X3. The authorized imports only grow. A new manager has the ten
    default imports and the additional ones it was given; a configuration
    update keeps every import the manager had and adds the ones it is
    given, and it leaves the tool list alone; adding or removing a tool
    leaves the imports, the provider, the step budget and the verbosity
    alone. The agent installed by an update is given exactly the members
    of the updated set. *)
Theorem authorized_imports_only_grow (self : AgentManager.t)
    (llm_provider : nat) (provider : option nat) (budget : Z)
    (steps : option Z) (chatty : bool) (verbosity : option bool)
    (additional_tools : list Tool) (imports : list string)
    (tool : Tool) (tool_name x : string) :
  let made :=
    AgentManager.__init__ llm_provider budget chatty additional_tools imports in
  let updated :=
    AgentManager.update_configuration self provider steps verbosity imports in
  (AgentManager.default_imports ⊆ AgentManager.authorized_imports made /\
   (x ∈ imports -> x ∈ AgentManager.authorized_imports made)) /\
  (AgentManager.authorized_imports self ⊆ AgentManager.authorized_imports updated /\
   (x ∈ imports -> x ∈ AgentManager.authorized_imports updated) /\
   (x ∈ AgentManager.authorized_imports updated ->
    x ∈ AgentManager.authorized_imports self \/ x ∈ imports) /\
   AgentManager.tools updated = AgentManager.tools self) /\
  (x ∈ Smolagents.additional_authorized_imports (AgentManager.agent updated)
   <-> x ∈ AgentManager.authorized_imports updated) /\
  (AgentManager.authorized_imports (AgentManager.add_tool self tool)
     = AgentManager.authorized_imports self /\
   AgentManager.authorized_imports (AgentManager.remove_tool self tool_name)
     = AgentManager.authorized_imports self /\
   AgentManager.llm_provider (AgentManager.add_tool self tool)
     = AgentManager.llm_provider self /\
   AgentManager.llm_provider (AgentManager.remove_tool self tool_name)
     = AgentManager.llm_provider self /\
   AgentManager.max_steps (AgentManager.add_tool self tool)
     = AgentManager.max_steps self /\
   AgentManager.max_steps (AgentManager.remove_tool self tool_name)
     = AgentManager.max_steps self /\
   AgentManager.verbose (AgentManager.add_tool self tool)
     = AgentManager.verbose self /\
   AgentManager.verbose (AgentManager.remove_tool self tool_name)
     = AgentManager.verbose self).
Proof.
  intros made updated.
  assert (Himports : AgentManager.authorized_imports updated
            = match imports with
              | [] => AgentManager.authorized_imports self
              | _ => AgentManager.authorized_imports self ∪ list_to_set imports
              end).
  { unfold updated, AgentManager.update_configuration.
    destruct provider, steps, verbosity, imports; reflexivity. }
  split; [|split; [|split; [|repeat split]]].
  - unfold made, AgentManager.__init__.
    cbn [AgentManager.authorized_imports AgentManager.set_agent].
    split; [apply union_subseteq_l|]. intros Hx. apply elem_of_union_r.
    now apply elem_of_list_to_set.
  - rewrite Himports. split; [|split; [|split]].
    + destruct imports; [reflexivity | apply union_subseteq_l].
    + intros Hx. destruct imports as [|i rest];
        [now apply elem_of_nil in Hx|].
      apply elem_of_union_r. now apply elem_of_list_to_set.
    + intros Hx. destruct imports as [|i rest]; [now left|].
      apply elem_of_union in Hx as [Hx|Hx]; [now left|right].
      now apply elem_of_list_to_set in Hx.
    + unfold updated, AgentManager.update_configuration.
      destruct provider, steps, verbosity, imports; reflexivity.
  - assert (Hagent : Smolagents.additional_authorized_imports
                       (AgentManager.agent updated)
                     = elements (AgentManager.authorized_imports updated)).
    { unfold updated, AgentManager.update_configuration.
      destruct provider, steps, verbosity, imports; reflexivity. }
    rewrite Hagent. apply elem_of_elements.
Qed.

Lemma authorized_imports_only_grow_witness :
  "scipy" ∈ AgentManager.authorized_imports
    (AgentManager.__init__ 0 10 false [] ["scipy"]) /\
  "yaml" ∈ AgentManager.authorized_imports
    (AgentManager.update_configuration Examples.manager0 None None None ["yaml"]).
Proof.
  split.
  - destruct (authorized_imports_only_grow Examples.manager0 0 None 10 None
                false None [] ["scipy"] Examples.mock_tool "absent" "scipy")
      as ((_ & Hgiven) & _).
    apply Hgiven. repeat constructor.
  - destruct (authorized_imports_only_grow Examples.manager0 0 None 10 None
                false None [] ["yaml"] Examples.mock_tool "absent" "yaml")
      as (_ & (_ & Hgiven & _) & _).
    apply Hgiven. repeat constructor.
Defined.

(** ** The endpoints of [app.py], continued *)

Section MoreEndpoints.
Context `{Runtime}.
Import App.

Ltac unfold_monad :=
  unfold mbind, M_bind, mret, M_ret, gets, modify, lift, raise,
    try_except, try_finally, set_active_request.

(** *** Parts of the state a computation leaves alone *)

Lemma preserves_bind {A B C} (f : World -> C) (m : M A) (k : A -> M B) :
  preserves f m -> (forall a, preserves f (k a)) -> preserves f (m ≫= k).
Proof.
  intros Hm Hk w. specialize (Hm w). unfold mbind, M_bind.
  destruct (m w) as [[a|e] w1]; simpl in *; [|exact Hm].
  now rewrite (Hk a w1).
Qed.

Lemma preserves_try_except {A C} (f : World -> C) (body : M A)
    (handler : exn -> M A) :
  preserves f body -> (forall e, preserves f (handler e)) ->
  preserves f (try_except body handler).
Proof.
  intros Hm Hk w. specialize (Hm w). unfold try_except.
  destruct (body w) as [[a|e] w1]; simpl in *; [exact Hm|].
  now rewrite (Hk e w1).
Qed.

Lemma preserves_try_finally {A C} (f : World -> C) (body : M A) (final : M unit) :
  preserves f body -> preserves f final -> preserves f (try_finally body final).
Proof.
  intros Hm Hf w. specialize (Hm w). unfold try_finally.
  destruct (body w) as [r w1]; simpl in *. specialize (Hf w1).
  destruct (final w1) as [[[]|e] w2]; simpl in *; now rewrite Hf.
Qed.

Lemma preserves_pure {A C} (f : World -> C) (m : M A) :
  (forall w, snd (m w) = w) -> preserves f m.
Proof. intros Hm w. now rewrite Hm. Qed.

Lemma preserves_modify {C} (f : World -> C) (h : World -> World) :
  (forall w, f (h w) = f w) -> preserves f (modify h).
Proof. intros Hh w. apply Hh. Qed.

Lemma preserves_broadcast_message {C} (f : World -> C) message session_id :
  off_the_wire f -> preserves f (broadcast_message message session_id).
Proof.
  intros [Hs Hc] w. rewrite broadcast_message_cases.
  destruct (active_connections w !! session_id) as [c|]; [|reflexivity].
  destruct (sockets w !! websocket c) as [s|]; simpl; [|apply Hc].
  destruct (usable s); simpl; [apply Hs | apply Hc].
Qed.

Lemma preserves_stream_chunks {C} (f : World -> C) session_id message_id
    chunks failure :
  off_the_wire f ->
  forall full_response,
  preserves f (stream_chunks session_id message_id full_response chunks failure).
Proof.
  intros Hf.
  induction chunks as [|[chunk|repr] rest IH]; intros full; simpl.
  - destruct failure; now apply preserves_pure.
  - apply preserves_bind; [now apply preserves_broadcast_message|].
    intros _. apply IH.
  - apply IH.
Qed.

Lemma preserves_relay_response {C} (f : World -> C) agent_manager message
    session_id message_id :
  off_the_wire f ->
  preserves f (relay_response agent_manager message session_id message_id).
Proof.
  intros Hf. unfold relay_response.
  apply preserves_bind; [now apply preserves_pure|]. intros request.
  apply preserves_bind; [now apply preserves_pure|]. intros response.
  assert (Hstream : forall chunks failure, preserves f
    (full_response ←
       stream_chunks session_id message_id EmptyString chunks failure;
     if truthy full_response then
       broadcast_message
         (ChatMessage ("assistant-" +:+ message_id) "assistant" full_response
            (Some false)) session_id
     else mret tt)).
  { intros chunks failure.
    apply preserves_bind; [now apply preserves_stream_chunks|]. intros full.
    destruct (truthy full);
      [now apply preserves_broadcast_message | now apply preserves_pure]. }
  destruct response; first
    [ now apply preserves_broadcast_message | apply Hstream ].
Qed.

Lemma preserves_release {C} (f : World -> C) session_id :
  off_the_wire f -> (forall g w, f (with_active_requests g w) = f w) ->
  preserves f (release session_id).
Proof.
  intros Hf Hr. unfold release.
  apply preserves_bind; [now apply preserves_modify|].
  intros _. now apply preserves_broadcast_message.
Qed.

Lemma preserves_chat_handler {C} (f : World -> C) message e :
  off_the_wire f -> (forall g w, f (with_active_requests g w) = f w) ->
  (forall g w, f (with_uuid_count g w) = f w) ->
  preserves f (chat_handler message e).
Proof.
  intros Hf Hr Hu. unfold chat_handler.
  apply preserves_bind; [|intros _; now apply preserves_pure].
  destruct (message !! "session_id") as [sid|]; [|now apply preserves_pure].
  apply preserves_bind.
  - destruct (truthy sid); [now apply preserves_modify | now apply preserves_pure].
  - intros _. apply preserves_bind; [now apply preserves_pure|].
    intros connections. destruct (connections !! sid); [|now apply preserves_pure].
    apply preserves_bind; [now apply preserves_broadcast_message|]. intros _.
    apply preserves_bind.
    + intros w. apply Hu.
    + intros u. now apply preserves_broadcast_message.
Qed.

Lemma off_the_wire_chat_sessions : off_the_wire chat_sessions.
Proof. now split. Qed.

Lemma off_the_wire_providers : off_the_wire providers.
Proof. now split. Qed.

Lemma off_the_wire_closed_handles : off_the_wire closed_handles.
Proof. now split. Qed.

Lemma off_the_wire_environ : off_the_wire environ.
Proof. now split. Qed.

Lemma off_the_wire_uuid_count : off_the_wire uuid_count.
Proof. now split. Qed.

(** X4. The three refusals at the head of [chat]. A request with no
    session id, an empty one or one that names no session is answered
    "Invalid session ID", and a request for a session with no connection
    "No active WebSocket connection"; both leave the state untouched. A
    request that lacks a provider or a model (or gives an empty one) is
    answered "Provider and model must be selected" after an identifier
    has been drawn, which is all that changes. *)
Theorem chat_refusals (message : gmap string string) (w : World)
    (session_id : string) :
  ((message !! "session_id" = None \/ message !! "session_id" = Some EmptyString \/
    (message !! "session_id" = Some session_id /\
     chat_sessions w !! session_id = None)) ->
   chat message w = (Ok (Failure "Invalid session ID"), w)) /\
  (message !! "session_id" = Some session_id -> truthy session_id = true ->
   is_Some (chat_sessions w !! session_id) ->
   active_connections w !! session_id = None ->
   chat message w = (Ok (Failure "No active WebSocket connection"), w)) /\
  (message !! "session_id" = Some session_id -> truthy session_id = true ->
   is_Some (chat_sessions w !! session_id) ->
   is_Some (active_connections w !! session_id) ->
   truthy_opt (message !! "provider") = false \/
   truthy_opt (message !! "model") = false ->
   chat message w
   = (Ok (Failure "Provider and model must be selected"), with_uuid_count S w)).
Proof.
  split; [|split].
  - intros [Hnone | [Hempty | [Hsid Hunknown]]];
      unfold chat, try_except, chat_body.
    + now rewrite Hnone.
    + now rewrite Hempty.
    + rewrite Hsid. destruct (truthy session_id); [|reflexivity].
      unfold_monad. simpl. now rewrite Hunknown.
  - intros Hsid Htruthy [am Ham] Hc.
    unfold chat, try_except, chat_body. rewrite Hsid, Htruthy.
    unfold_monad. simpl. rewrite Ham, Hc.
    now rewrite bool_decide_eq_true_2 by reflexivity.
  - intros Hsid Htruthy [am Ham] [c Hc] Hmissing.
    unfold chat, try_except, chat_body. rewrite Hsid, Htruthy.
    unfold_monad. simpl. rewrite Ham, Hc.
    rewrite bool_decide_eq_false_2 by discriminate.
    unfold new_uuid.
    assert (Hcheck : negb (truthy (default EmptyString (message !! "provider")))
                     || negb (truthy (default EmptyString (message !! "model")))
                     = true).
    { destruct Hmissing as [Hp | Hm].
      - destruct (message !! "provider") as [p|]; simpl in *;
          [now rewrite Hp | reflexivity].
      - destruct (message !! "model") as [m|]; simpl in *;
          [rewrite Hm | ]; apply orb_true_r. }
    now rewrite Hcheck.
Qed.

Lemma bind_raise_eq {A B} (m : M A) (k : A -> M B) (w : World) (e : exn) :
  fst (m w) = Raise e -> (m ≫= k) w = (Raise e, snd (m w)).
Proof.
  unfold mbind, M_bind. destruct (m w) as [[a'|e'] w']; simpl; congruence.
Qed.

(** *** What [chat] sends for an accepted request *)

Lemma preserves_start_request {C} (f : World -> C) message agent_manager
    session_id message_id provider model :
  off_the_wire f ->
  (forall g w, f (with_active_requests g w) = f w) ->
  (forall g w, f (with_chat_sessions g w) = f w) ->
  (forall g w, f (with_providers g w) = f w) ->
  preserves f
    (start_request message agent_manager session_id message_id provider model).
Proof.
  intros Hf Hr Hs Hp. unfold start_request.
  apply preserves_bind; [now apply preserves_pure|]. intros env.
  apply preserves_bind.
  { intros w. unfold new_provider.
    destruct (create_provider env provider model); [apply Hp | reflexivity]. }
  intros p.
  apply preserves_bind; [now apply preserves_modify|]. intros _.
  apply preserves_bind; [now apply preserves_broadcast_message|]. intros _.
  apply preserves_bind; [now apply preserves_pure|]. intros request.
  apply preserves_bind; [now apply preserves_broadcast_message|]. intros _.
  apply preserves_bind; [now apply preserves_modify|]. intros _.
  now apply preserves_pure.
Qed.

Lemma stream_chunks_outcome session_id message_id ws chunks failure :
  forall full_response log w,
  ready w session_id ws log ->
  fst (stream_chunks session_id message_id full_response chunks failure w)
    = match failure with
      | None => Ok (stream_text full_response chunks)
      | Some e => Raise e
      end /\
  ready (snd (stream_chunks session_id message_id full_response chunks failure w))
    session_id ws (log ++ stream_events message_id full_response chunks).
Proof.
  induction chunks as [|[chunk|repr] rest IH]; intros full log w Hready; simpl.
  - rewrite app_nil_r. destruct failure; now split.
  - rewrite (bind_ok _ _ _ _ (broadcast_message_ok _ session_id w)).
    apply (broadcast_message_ready
             (ChatMessage ("assistant-" +:+ message_id) "assistant"
                (full +:+ chunk) (Some true))) in Hready.
    destruct (IH (full +:+ chunk) _ _ Hready) as [Hok Hnext].
    split; [exact Hok|]. now rewrite <- app_assoc in Hnext.
  - now apply IH.
Qed.

(** The accepted request, up to the agent call. *)
Lemma chat_started message w session_id ws log agent_manager made request :
  accepted message w session_id ->
  chat_sessions w !! session_id = Some agent_manager ->
  ready w session_id ws log ->
  create_provider (environ w)
    (default EmptyString (message !! "provider"))
    (default EmptyString (message !! "model")) = Ok made ->
  message !! "message" = Some request ->
  let message_id := uuid4 (uuid_count w) in
  exists llm_provider w1,
    ready w1 session_id ws
      (log ++ [Thinking true; user_message message_id request]) /\
    uuid_count w1 = S (uuid_count w) /\
    let body := relay_response
                  (AgentManager.set_llm_provider agent_manager llm_provider)
                  message session_id message_id in
    let w2 := snd (release session_id (snd (body w1))) in
    chat message w =
    match fst (body w1) with
    | Ok _ => (Ok Success, w2)
    | Raise e => chat_handler message e w2
    end.
Proof.
  intros Hacc Ham Hready Hmade Hrequest message_id.
  assert (Hready0 : ready (with_uuid_count S w) session_id ws log)
    by now apply (ready_frame w).
  destruct (start_request_ready message agent_manager session_id message_id
              _ _ _ _ _ _ _ Hready0 Hmade Hrequest)
    as (l & w1 & Hstart & Hready1).
  exists l, w1. split; [exact Hready1|]. split.
  - pose proof (preserves_start_request uuid_count message agent_manager
                  session_id message_id
                  (default EmptyString (message !! "provider"))
                  (default EmptyString (message !! "model"))
                  off_the_wire_uuid_count
                  ltac:(reflexivity) ltac:(reflexivity) ltac:(reflexivity)
                  (with_uuid_count S w)) as Hcount.
    rewrite Hstart in Hcount. exact Hcount.
  - intros body w2. unfold chat, try_except.
    rewrite (chat_body_accepted _ _ _ _ Hacc Ham). fold message_id.
    unfold serve, mbind, M_bind. rewrite Hstart. cbn beta iota.
    rewrite try_finally_release_eq. fold body. fold w2.
    destruct (fst (body w1)); reflexivity.
Qed.

Lemma stream_text_join chunks :
  forall full, stream_text full chunks = full +:+ join (chunk_strings chunks).
Proof.
  induction chunks as [|[s|repr] rest IH]; intros full; simpl.
  - now rewrite app_empty_r.
  - rewrite IH. apply app_assoc_str.
  - apply IH.
Qed.

Lemma stream_events_prefixes message_id chunks :
  forall full,
  stream_events message_id full chunks
  = map (fun k => streaming_message message_id
                    (full +:+ join (take k (chunk_strings chunks))))
        (seq 1 (length (chunk_strings chunks))).
Proof.
  induction chunks as [|[s|repr] rest IH]; intros full; simpl.
  - reflexivity.
  - f_equal.
    + unfold streaming_message, join. simpl. now rewrite app_empty_r.
    + rewrite IH, <- (seq_shift _ 1), map_map. apply map_ext. intros k.
      unfold join. simpl. now rewrite app_assoc_str.
  - apply IH.
Qed.

Lemma relay_response_single agent_manager message session_id message_id w
    request text :
  message !! "message" = Some request ->
  agent_run (AgentManager.agent agent_manager) request true = Ok (PyStr text) \/
  agent_run (AgentManager.agent agent_manager) request true = Ok (PyObject text) ->
  relay_response agent_manager message session_id message_id w
  = broadcast_message (final_message message_id text) session_id w.
Proof.
  intros Hrequest Hrun.
  unfold relay_response, Llm.getitem, AgentManager.process_request.
  rewrite Hrequest. unfold lift, mbind, M_bind. cbn beta iota.
  destruct Hrun as [-> | ->]; reflexivity.
Qed.

Lemma uuid_count_after_relay agent_manager message session_id message_id w :
  uuid_count
    (snd (release session_id
            (snd (relay_response agent_manager message session_id message_id w))))
  = uuid_count w.
Proof.
  rewrite (preserves_release uuid_count session_id off_the_wire_uuid_count
             ltac:(reflexivity)).
  apply (preserves_relay_response uuid_count _ _ _ _ off_the_wire_uuid_count).
Qed.

(** X5. An accepted request whose agent call returns a string, or any
    value that is not iterable, is answered by one assistant message with
    [is_streaming] false carrying that string (the [str] of that value),
    also when it is empty: the websocket is sent the thinking event, the
    user's message, that message and the end of thinking, and [chat]
    answers success. *)
Theorem chat_single_answer (message : gmap string string) (w : World)
    (session_id request text : string) (ws : nat) (log : list Event)
    (agent_manager : AgentManager.t) (made : Llm.Provider) :
  accepted message w session_id ->
  chat_sessions w !! session_id = Some agent_manager ->
  ready w session_id ws log ->
  create_provider (environ w)
    (default EmptyString (message !! "provider"))
    (default EmptyString (message !! "model")) = Ok made ->
  message !! "message" = Some request ->
  agent_run (AgentManager.agent agent_manager) request true = Ok (PyStr text) \/
  agent_run (AgentManager.agent agent_manager) request true = Ok (PyObject text) ->
  let message_id := uuid4 (uuid_count w) in
  fst (chat message w) = Ok Success /\
  ready (snd (chat message w)) session_id ws
    (log ++ [Thinking true; user_message message_id request;
             final_message message_id text; Thinking false]).
Proof.
  intros Hacc Ham Hready Hmade Hrequest Hrun message_id.
  destruct (chat_started _ _ _ _ _ _ _ _ Hacc Ham Hready Hmade Hrequest)
    as (l & w1 & Hready1 & _ & Hchat).
  cbv zeta in Hchat. fold message_id in Hchat, Hready1.
  rewrite (relay_response_single
             (AgentManager.set_llm_provider agent_manager l)
             _ _ _ _ _ text Hrequest Hrun) in Hchat.
  rewrite broadcast_message_ok in Hchat. rewrite Hchat. cbn [fst snd].
  split; [reflexivity|].
  apply (broadcast_message_ready (final_message message_id text)) in Hready1.
  apply release_ready in Hready1.
  now rewrite <- !app_assoc in Hready1.
Qed.

(** X6. An accepted request whose agent call returns a lazy sequence that
    ends normally is relayed cumulatively: for the k-th [str] item the
    websocket is sent one assistant message with [is_streaming] true
    carrying the concatenation of the first k [str] items (an empty item
    repeats the text so far); items that are not [str] are skipped. After
    them comes one message with [is_streaming] false carrying the whole
    text, unless that text is empty, in which case none is sent. *)
Theorem chat_streams_cumulatively (message : gmap string string) (w : World)
    (session_id request : string) (ws : nat) (log : list Event)
    (agent_manager : AgentManager.t) (made : Llm.Provider)
    (chunks : list Chunk) :
  accepted message w session_id ->
  chat_sessions w !! session_id = Some agent_manager ->
  ready w session_id ws log ->
  create_provider (environ w)
    (default EmptyString (message !! "provider"))
    (default EmptyString (message !! "model")) = Ok made ->
  message !! "message" = Some request ->
  agent_run (AgentManager.agent agent_manager) request true
    = Ok (PyGenerator chunks None) ->
  let message_id := uuid4 (uuid_count w) in
  let items := chunk_strings chunks in
  fst (chat message w) = Ok Success /\
  ready (snd (chat message w)) session_id ws
    (log ++ [Thinking true; user_message message_id request] ++
     map (fun k => streaming_message message_id (join (take k items)))
       (seq 1 (length items)) ++
     (if truthy (join items) then [final_message message_id (join items)]
      else []) ++
     [Thinking false]).
Proof.
  intros Hacc Ham Hready Hmade Hrequest Hrun message_id items.
  destruct (chat_started _ _ _ _ _ _ _ _ Hacc Ham Hready Hmade Hrequest)
    as (l & w1 & Hready1 & _ & Hchat).
  cbv zeta in Hchat. fold message_id in Hchat, Hready1.
  destruct (relay_generator_ready
              (AgentManager.set_llm_provider agent_manager l) message session_id
              message_id _ _ _ _ _ Hready1 Hrequest Hrun) as [Hok Hready2].
  rewrite Hok in Hchat. rewrite Hchat. cbn [fst snd].
  split; [reflexivity|].
  apply release_ready in Hready2.
  rewrite stream_events_prefixes, stream_text_join in Hready2.
  fold items in Hready2.
  rewrite <- !app_assoc in Hready2. exact Hready2.
Qed.

(** X7. When the lazy sequence returned by the agent call raises [e]
    after some items, [chat] answers with status error and the message
    [str(e)]. The messages relayed before the failure stay sent; no
    message with [is_streaming] false follows them; the websocket is sent
    the end of thinking twice, by the [finally] block and by the handler,
    and then an assistant message "Error: " + str(e). *)
Theorem chat_stream_failure (message : gmap string string) (w : World)
    (session_id request : string) (ws : nat) (log : list Event)
    (agent_manager : AgentManager.t) (made : Llm.Provider)
    (chunks : list Chunk) (e : exn) :
  accepted message w session_id ->
  chat_sessions w !! session_id = Some agent_manager ->
  ready w session_id ws log ->
  create_provider (environ w)
    (default EmptyString (message !! "provider"))
    (default EmptyString (message !! "model")) = Ok made ->
  message !! "message" = Some request ->
  agent_run (AgentManager.agent agent_manager) request true
    = Ok (PyGenerator chunks (Some e)) ->
  let message_id := uuid4 (uuid_count w) in
  let items := chunk_strings chunks in
  fst (chat message w) = Ok (Failure (str_exn e)) /\
  ready (snd (chat message w)) session_id ws
    (log ++ [Thinking true; user_message message_id request] ++
     map (fun k => streaming_message message_id (join (take k items)))
       (seq 1 (length items)) ++
     [Thinking false; Thinking false;
      error_message (uuid4 (S (uuid_count w))) e]).
Proof.
  intros Hacc Ham Hready Hmade Hrequest Hrun message_id items.
  destruct (chat_started _ _ _ _ _ _ _ _ Hacc Ham Hready Hmade Hrequest)
    as (l & w1 & Hready1 & Hcount & Hchat).
  cbv zeta in Hchat. fold message_id in Hchat, Hready1.
  pose proof (uuid_count_after_relay
                (AgentManager.set_llm_provider agent_manager l) message
                session_id message_id w1) as Hcount2.
  rewrite Hcount in Hcount2.
  rewrite (relay_response_generator
             (AgentManager.set_llm_provider agent_manager l)
             _ _ _ _ _ _ _ Hrequest Hrun) in Hchat.
  rewrite (relay_response_generator
             (AgentManager.set_llm_provider agent_manager l)
             _ _ _ _ _ _ _ Hrequest Hrun) in Hcount2.
  destruct (stream_chunks_outcome session_id message_id ws chunks (Some e)
              EmptyString _ w1 Hready1) as [Hraise Hready2].
  rewrite (bind_raise_eq _ _ _ _ Hraise) in Hchat, Hcount2.
  cbn [fst snd] in Hchat, Hcount2.
  apply release_ready in Hready2.
  rewrite Hchat.
  split; [apply chat_handler_ok|].
  pose proof Hacc as (Hsid & _).
  apply (chat_handler_ready message e _ _ _ _ Hsid) in Hready2.
  rewrite Hcount2 in Hready2.
  rewrite stream_events_prefixes in Hready2. fold items in Hready2.
  rewrite <- !app_assoc in Hready2. exact Hready2.
Qed.

(** X8. When the provider of an accepted request cannot be constructed
    (its name is not supported, or its API key is missing), [chat] answers
    with status error and the message of the exception. Nothing has been
    done yet: no thinking event was sent, the session keeps the manager
    and the provider it had and no provider object was stored; the
    websocket is sent the end of thinking and an assistant message
    "Error: " + str(e). *)
Theorem chat_provider_unavailable (message : gmap string string) (w : World)
    (session_id : string) (ws : nat) (log : list Event) (e : exn) :
  accepted message w session_id ->
  ready w session_id ws log ->
  create_provider (environ w)
    (default EmptyString (message !! "provider"))
    (default EmptyString (message !! "model")) = Raise e ->
  fst (chat message w) = Ok (Failure (str_exn e)) /\
  ready (snd (chat message w)) session_id ws
    (log ++ [Thinking false; error_message (uuid4 (S (uuid_count w))) e]) /\
  chat_sessions (snd (chat message w)) = chat_sessions w /\
  providers (snd (chat message w)) = providers w.
Proof.
  intros Hacc Hready Hmade.
  pose proof Hacc as (Hsid & _ & [am Ham] & _).
  assert (Hchat : chat message w
                  = chat_handler message e (with_uuid_count S w)).
  { unfold chat, try_except.
    rewrite (chat_body_accepted _ _ _ _ Hacc Ham).
    unfold serve, start_request, gets, new_provider, mbind, M_bind.
    cbn [environ with_uuid_count]. now rewrite Hmade. }
  rewrite Hchat. split; [apply chat_handler_ok|]. split; [|split].
  - assert (Hready0 : ready (with_uuid_count S w) session_id ws log)
      by now apply (ready_frame w).
    exact (chat_handler_ready message e _ _ _ _ Hsid Hready0).
  - now rewrite (preserves_chat_handler chat_sessions message e
                   off_the_wire_chat_sessions).
  - now rewrite (preserves_chat_handler providers message e
                   off_the_wire_providers).
Qed.

(** X9. An accepted request that has no "message" key fails with
    [KeyError] when the user's message is built, after the provider has
    been created and assigned and the thinking event sent: [chat] answers
    with status error and the message "'message'", the session's manager
    is left holding the new provider, and the websocket is sent the
    thinking event, its end and an assistant message
    "Error: 'message'". *)
Theorem chat_message_missing (message : gmap string string) (w : World)
    (session_id : string) (ws : nat) (log : list Event)
    (agent_manager : AgentManager.t) (made : Llm.Provider) :
  accepted message w session_id ->
  chat_sessions w !! session_id = Some agent_manager ->
  ready w session_id ws log ->
  create_provider (environ w)
    (default EmptyString (message !! "provider"))
    (default EmptyString (message !! "model")) = Ok made ->
  message !! "message" = None ->
  let llm_provider := fresh (dom (providers w)) in
  fst (chat message w) = Ok (Failure "'message'") /\
  ready (snd (chat message w)) session_id ws
    (log ++ [Thinking true; Thinking false;
             error_message (uuid4 (S (uuid_count w))) (KeyError "message")]) /\
  chat_sessions (snd (chat message w)) !! session_id
    = Some (AgentManager.set_llm_provider agent_manager llm_provider) /\
  providers (snd (chat message w)) !! llm_provider = Some made.
Proof.
  intros Hacc Ham Hready Hmade Hmissing l.
  pose proof Hacc as (Hsid & _).
  set (w0 := with_chat_sessions
               (insert session_id (AgentManager.set_llm_provider agent_manager l))
               (with_providers (insert l made) (with_uuid_count S w))).
  assert (Hchat : chat message w
                  = chat_handler message (KeyError "message")
                      (snd (broadcast_message (Thinking true) session_id w0))).
  { unfold chat, try_except.
    rewrite (chat_body_accepted _ _ _ _ Hacc Ham).
    unfold serve, start_request, gets, new_provider, modify, lift,
      Llm.getitem, mbind, M_bind.
    cbn [environ with_uuid_count providers]. rewrite Hmade, Hmissing.
    fold l. fold w0.
    pose proof (broadcast_message_ok (Thinking true) session_id w0) as Hok.
    destruct (broadcast_message (Thinking true) session_id w0) as [[[]|e1] w1];
      simpl in *; [reflexivity | discriminate]. }
  assert (Hready0 : ready w0 session_id ws log) by now apply (ready_frame w).
  apply (broadcast_message_ready (Thinking true)) in Hready0.
  rewrite Hchat. split; [apply chat_handler_ok|]. split; [|split].
  - apply (chat_handler_ready message (KeyError "message") _ _ _ _ Hsid) in Hready0.
    rewrite (preserves_broadcast_message uuid_count _ _ off_the_wire_uuid_count)
      in Hready0.
    now rewrite <- app_assoc in Hready0.
  - rewrite (preserves_chat_handler chat_sessions message _
               off_the_wire_chat_sessions) by reflexivity.
    rewrite (preserves_broadcast_message chat_sessions _ _
               off_the_wire_chat_sessions).
    apply lookup_insert_eq.
  - rewrite (preserves_chat_handler providers message _
               off_the_wire_providers) by reflexivity.
    rewrite (preserves_broadcast_message providers _ _ off_the_wire_providers).
    apply lookup_insert_eq.
Qed.

End MoreEndpoints.

(** ** Provider selection *)

Lemma string_eqb_false (a b : string) : a <> b -> String.eqb a b = false.
Proof. intros Hne. now apply String.eqb_neq. Qed.

(** X10. The provider selection of [chat] knows the four lower-case
    names and no other: any other name, "OpenAI" for one, raises
    "Unsupported provider: " + name. Ollama is always constructed, with
    the local base URL. OpenAI, Anthropic and DeepSeek are constructed
    when their key is in the environment and is not empty, with that
    key, and raise "... API key not provided" otherwise. A constructed
    provider is of the class asked for, carries the model asked for and
    has no transport handle attached. *)
Theorem create_provider_cases (env : gmap string string)
    (provider model : string) (made : Llm.Provider) :
  (provider ∉ ["ollama"; "openai"; "anthropic"; "deepseek"] ->
   App.create_provider env provider model
   = Raise (ValueError ("Unsupported provider: " +:+ provider))) /\
  App.create_provider env "ollama" model
  = Ok {| Llm.cls := Llm.Ollama; Llm.api_key := None; Llm.model_name := model;
          Llm.base_url := Some "http://localhost:11434";
          Llm._current_request := None |} /\
  (truthy_opt (env !! "OPENAI_API_KEY") = false ->
   App.create_provider env "openai" model
   = Raise (ValueError "OpenAI API key not provided")) /\
  (truthy_opt (env !! "ANTHROPIC_API_KEY") = false ->
   App.create_provider env "anthropic" model
   = Raise (ValueError "Anthropic API key not provided")) /\
  (truthy_opt (env !! "DEEPSEEK_API_KEY") = false ->
   App.create_provider env "deepseek" model
   = Raise (ValueError "DeepSeek API key not provided")) /\
  (truthy_opt (env !! "OPENAI_API_KEY") = true ->
   App.create_provider env "openai" model
   = Ok {| Llm.cls := Llm.OpenAI; Llm.api_key := env !! "OPENAI_API_KEY";
           Llm.model_name := model; Llm.base_url := None;
           Llm._current_request := None |}) /\
  (truthy_opt (env !! "ANTHROPIC_API_KEY") = true ->
   App.create_provider env "anthropic" model
   = Ok {| Llm.cls := Llm.Anthropic; Llm.api_key := env !! "ANTHROPIC_API_KEY";
           Llm.model_name := model; Llm.base_url := None;
           Llm._current_request := None |}) /\
  (truthy_opt (env !! "DEEPSEEK_API_KEY") = true ->
   App.create_provider env "deepseek" model
   = Ok {| Llm.cls := Llm.DeepSeek; Llm.api_key := env !! "DEEPSEEK_API_KEY";
           Llm.model_name := model;
           Llm.base_url := Some "https://api.deepseek.com/v1";
           Llm._current_request := None |}) /\
  (App.create_provider env provider model = Ok made ->
   Llm.model_name made = model /\
   Llm._current_request made = None /\
   (provider = "ollama" /\ Llm.cls made = Llm.Ollama \/
    provider = "openai" /\ Llm.cls made = Llm.OpenAI /\
      Llm.api_key made = env !! "OPENAI_API_KEY" /\
      truthy_opt (env !! "OPENAI_API_KEY") = true \/
    provider = "anthropic" /\ Llm.cls made = Llm.Anthropic /\
      Llm.api_key made = env !! "ANTHROPIC_API_KEY" /\
      truthy_opt (env !! "ANTHROPIC_API_KEY") = true \/
    provider = "deepseek" /\ Llm.cls made = Llm.DeepSeek /\
      Llm.api_key made = env !! "DEEPSEEK_API_KEY" /\
      truthy_opt (env !! "DEEPSEEK_API_KEY") = true)).
Proof.
  split; [|split; [|split; [|split; [|split; [|split; [|split; [|split]]]]]]].
  - intros Hnotin. unfold App.create_provider.
    rewrite !string_eqb_false; [reflexivity|..];
      intros ->; apply Hnotin; repeat constructor.
  - reflexivity.
  - intros Hkey. unfold App.create_provider. simpl.
    unfold Llm.OpenAIProvider.__init__, py_or. simpl. now rewrite Hkey.
  - intros Hkey. unfold App.create_provider. simpl.
    unfold Llm.AnthropicProvider.__init__, py_or. simpl. now rewrite Hkey.
  - intros Hkey. unfold App.create_provider. simpl.
    unfold Llm.DeepSeekProvider.__init__, py_or. simpl. now rewrite Hkey.
  - intros Hkey. unfold App.create_provider. simpl.
    unfold Llm.OpenAIProvider.__init__, py_or. simpl. now rewrite Hkey.
  - intros Hkey. unfold App.create_provider. simpl.
    unfold Llm.AnthropicProvider.__init__, py_or. simpl. now rewrite Hkey.
  - intros Hkey. unfold App.create_provider. simpl.
    unfold Llm.DeepSeekProvider.__init__, py_or. simpl. now rewrite Hkey.
  - unfold App.create_provider.
    destruct (String.eqb_spec provider "ollama") as [->|_].
    { intros [= <-]. repeat split. now left. }
    destruct (String.eqb_spec provider "openai") as [->|_].
    { unfold Llm.OpenAIProvider.__init__, py_or. simpl.
      destruct (truthy_opt (env !! "OPENAI_API_KEY")) eqn:Hkey; [|discriminate].
      intros [= <-]. repeat split. right. left. now repeat split. }
    destruct (String.eqb_spec provider "anthropic") as [->|_].
    { unfold Llm.AnthropicProvider.__init__, py_or. simpl.
      destruct (truthy_opt (env !! "ANTHROPIC_API_KEY")) eqn:Hkey; [|discriminate].
      intros [= <-]. repeat split. right. right. left. now repeat split. }
    destruct (String.eqb_spec provider "deepseek") as [->|_]; [|discriminate].
    unfold Llm.DeepSeekProvider.__init__, py_or. simpl.
    destruct (truthy_opt (env !! "DEEPSEEK_API_KEY")) eqn:Hkey; [|discriminate].
    intros [= <-]. repeat split. right. right. right. now repeat split.
Qed.

Lemma create_provider_cases_witness :
  App.create_provider ∅ "OpenAI" "gpt-4"
    = Raise (ValueError "Unsupported provider: OpenAI") /\
  App.create_provider (<["OPENAI_API_KEY" := EmptyString]> ∅) "openai" "gpt-4"
    = Raise (ValueError "OpenAI API key not provided") /\
  Llm._current_request Examples.ollama0 = None /\
  App.create_provider Examples.env_openai "openai" "gpt-4"
    = Ok {| Llm.cls := Llm.OpenAI; Llm.api_key := Some "sk-test";
            Llm.model_name := "gpt-4"; Llm.base_url := None;
            Llm._current_request := None |} /\
  App.create_provider Examples.env_openai "deepseek" "deepseek-chat"
    = Raise (ValueError "DeepSeek API key not provided").
Proof.
  split; [|split; [|split; [|split]]].
  4:{ destruct (create_provider_cases Examples.env_openai "openai" "gpt-4"
                  Examples.ollama0) as (_ & _ & _ & _ & _ & Hopenai & _).
      apply Hopenai. reflexivity. }
  4:{ destruct (create_provider_cases Examples.env_openai "deepseek"
                  "deepseek-chat" Examples.ollama0)
        as (_ & _ & _ & _ & Hdeepseek & _).
      apply Hdeepseek. reflexivity. }
  - destruct (create_provider_cases ∅ "OpenAI" "gpt-4" Examples.ollama0)
      as (Hunsupported & _).
    apply Hunsupported. intros Hin.
    repeat (apply elem_of_cons in Hin as [Hin|Hin]; [discriminate|]).
    now apply elem_of_nil in Hin.
  - destruct (create_provider_cases (<["OPENAI_API_KEY" := EmptyString]> ∅)
                "openai" "gpt-4" Examples.ollama0) as (_ & _ & Hkey & _).
    apply Hkey. reflexivity.
  - destruct (create_provider_cases ∅ "ollama" "llama3" Examples.ollama0)
      as (_ & _ & _ & _ & _ & _ & _ & _ & Hmade).
    now apply Hmade.
Defined.

Lemma ready_world_idle : ready Examples.world_idle "s1" 7 [].
Proof.
  exists Examples.connection0, Examples.socket0. repeat split.
Qed.

Lemma accepted_in_world_idle (message : gmap string string) :
  message !! "session_id" = Some "s1" ->
  truthy (default EmptyString (message !! "provider")) = true ->
  truthy (default EmptyString (message !! "model")) = true ->
  accepted message Examples.world_idle "s1".
Proof.
  intros Hsid Hp Hm. repeat split; try assumption; eexists; reflexivity.
Qed.

(** The log of a websocket that a state is [ready] with. *)
Lemma ready_sent w session_id ws log :
  ready w session_id ws log ->
  App.sent <$> App.sockets w !! ws = Some log.
Proof.
  intros (c & s & _ & _ & Hs & _ & Hlog). rewrite Hs. simpl. now rewrite Hlog.
Qed.

Lemma chat_single_answer_witness :
  fst (App.chat (H := Examples.runtime_plain) Examples.request0 Examples.world_idle)
    = Ok App.Success /\
  App.sent <$> App.sockets
      (snd (App.chat (H := Examples.runtime_plain) Examples.request0
              Examples.world_idle)) !! 7
  = Some [App.Thinking true; user_message "0" "hi";
          final_message "0" "Hi there"; App.Thinking false].
Proof.
  destruct (chat_single_answer (H := Examples.runtime_plain) Examples.request0
              Examples.world_idle "s1" "hi" "Hi there" 7 []
              Examples.manager0 Examples.ollama0) as [Hok Hready].
  - now apply accepted_in_world_idle.
  - reflexivity.
  - exact ready_world_idle.
  - reflexivity.
  - reflexivity.
  - now left.
  - split; [exact Hok|]. exact (ready_sent _ _ _ _ Hready).
Defined.

Lemma chat_streams_cumulatively_witness :
  fst (App.chat (H := Examples.runtime_mixed) Examples.request0 Examples.world_idle)
    = Ok App.Success /\
  App.sent <$> App.sockets
      (snd (App.chat (H := Examples.runtime_mixed) Examples.request0
              Examples.world_idle)) !! 7
  = Some [App.Thinking true; user_message "0" "hi";
          streaming_message "0" "Hel"; streaming_message "0" "Hel";
          streaming_message "0" "Hello"; final_message "0" "Hello";
          App.Thinking false].
Proof.
  destruct (chat_streams_cumulatively (H := Examples.runtime_mixed)
              Examples.request0 Examples.world_idle "s1" "hi" 7 []
              Examples.manager0 Examples.ollama0
              [ChunkObj "ActionStep"; ChunkStr "Hel"; ChunkStr EmptyString;
               ChunkStr "lo"]) as [Hok Hready].
  - now apply accepted_in_world_idle.
  - reflexivity.
  - exact ready_world_idle.
  - reflexivity.
  - reflexivity.
  - reflexivity.
  - split; [exact Hok|]. exact (ready_sent _ _ _ _ Hready).
Defined.

Lemma chat_stream_failure_witness :
  fst (App.chat (H := Examples.runtime_lost) Examples.request0 Examples.world_idle)
    = Ok (App.Failure "connection lost") /\
  App.sent <$> App.sockets
      (snd (App.chat (H := Examples.runtime_lost) Examples.request0
              Examples.world_idle)) !! 7
  = Some [App.Thinking true; user_message "0" "hi";
          streaming_message "0" "Hel";
          App.Thinking false; App.Thinking false;
          error_message "1" (TransportError "connection lost")].
Proof.
  destruct (chat_stream_failure (H := Examples.runtime_lost)
              Examples.request0 Examples.world_idle "s1" "hi" 7 []
              Examples.manager0 Examples.ollama0
              [ChunkStr "Hel"] (TransportError "connection lost"))
    as [Hok Hready].
  - now apply accepted_in_world_idle.
  - reflexivity.
  - exact ready_world_idle.
  - reflexivity.
  - reflexivity.
  - reflexivity.
  - split; [exact Hok|]. exact (ready_sent _ _ _ _ Hready).
Defined.

Lemma chat_provider_unavailable_witness :
  fst (App.chat (H := Examples.runtime_hello) Examples.request_capitals
         Examples.world_idle)
    = Ok (App.Failure "Unsupported provider: OpenAI") /\
  App.sent <$> App.sockets
      (snd (App.chat (H := Examples.runtime_hello) Examples.request_capitals
              Examples.world_idle)) !! 7
  = Some [App.Thinking false;
          error_message "1" (ValueError "Unsupported provider: OpenAI")].
Proof.
  destruct (chat_provider_unavailable (H := Examples.runtime_hello)
              Examples.request_capitals Examples.world_idle "s1" 7 []
              (ValueError "Unsupported provider: OpenAI"))
    as (Hok & Hready & _).
  - now apply accepted_in_world_idle.
  - exact ready_world_idle.
  - reflexivity.
  - split; [exact Hok|]. exact (ready_sent _ _ _ _ Hready).
Defined.

Lemma chat_message_missing_witness :
  fst (App.chat (H := Examples.runtime_hello) Examples.request_no_message
         Examples.world_idle)
    = Ok (App.Failure "'message'") /\
  App.sent <$> App.sockets
      (snd (App.chat (H := Examples.runtime_hello) Examples.request_no_message
              Examples.world_idle)) !! 7
  = Some [App.Thinking true; App.Thinking false;
          error_message "1" (KeyError "message")] /\
  AgentManager.llm_provider <$>
    App.chat_sessions
      (snd (App.chat (H := Examples.runtime_hello) Examples.request_no_message
              Examples.world_idle)) !! "s1"
  = Some 1.
Proof.
  destruct (chat_message_missing (H := Examples.runtime_hello)
              Examples.request_no_message Examples.world_idle "s1" 7 []
              Examples.manager0 Examples.ollama0)
    as (Hok & Hready & Hsession & _).
  - now apply accepted_in_world_idle.
  - reflexivity.
  - exact ready_world_idle.
  - reflexivity.
  - reflexivity.
  - split; [exact Hok|]. split; [exact (ready_sent _ _ _ _ Hready)|].
    rewrite Hsession. reflexivity.
Defined.

Lemma chat_refusals_witness :
  App.chat (H := Examples.runtime_hello) ∅ Examples.world_idle
    = (Ok (App.Failure "Invalid session ID"), Examples.world_idle) /\
  App.chat (H := Examples.runtime_hello)
    (<["session_id" := "s2"]> Examples.request0) Examples.world_two_sessions
    = (Ok (App.Failure "No active WebSocket connection"),
       Examples.world_two_sessions) /\
  App.chat (H := Examples.runtime_hello) Examples.request_unselected
    Examples.world_idle
    = (Ok (App.Failure "Provider and model must be selected"),
       App.with_uuid_count S Examples.world_idle).
Proof.
  split; [|split].
  - apply (chat_refusals (H := Examples.runtime_hello) ∅ Examples.world_idle "s1").
    now left.
  - apply (chat_refusals (H := Examples.runtime_hello)
             (<["session_id" := "s2"]> Examples.request0)
             Examples.world_two_sessions "s2");
      try reflexivity; eexists; reflexivity.
  - apply (chat_refusals (H := Examples.runtime_hello) Examples.request_unselected
             Examples.world_idle "s1");
      try reflexivity; try (eexists; reflexivity). now left.
Defined.

(** ** What an endpoint leaves alone *)

Section Invariants.
Context `{Runtime}.
Import App.

Lemma keeps_bind {A B C} (I : World -> Prop) (f : World -> C)
    (m : M A) (k : A -> M B) :
  keeps I f m -> (forall a, keeps I f (k a)) -> keeps I f (m ≫= k).
Proof.
  intros Hm Hk w HI. destruct (Hm w HI) as [HI1 Hf1].
  unfold mbind, M_bind. destruct (m w) as [[a|e] w1]; simpl in *; [|now split].
  destruct (Hk a w1 HI1) as [HI2 Hf2]. split; [exact HI2|congruence].
Qed.

Lemma keeps_try_except {A C} (I : World -> Prop) (f : World -> C)
    (body : M A) (handler : exn -> M A) :
  keeps I f body -> (forall e, keeps I f (handler e)) ->
  keeps I f (try_except body handler).
Proof.
  intros Hm Hk w HI. destruct (Hm w HI) as [HI1 Hf1].
  unfold try_except. destruct (body w) as [[a|e] w1]; simpl in *; [now split|].
  destruct (Hk e w1 HI1) as [HI2 Hf2]. split; [exact HI2|congruence].
Qed.

Lemma keeps_try_finally {A C} (I : World -> Prop) (f : World -> C)
    (body : M A) (final : M unit) :
  keeps I f body -> keeps I f final -> keeps I f (try_finally body final).
Proof.
  intros Hm Hf w HI. destruct (Hm w HI) as [HI1 Hf1].
  unfold try_finally. destruct (body w) as [r w1]; simpl in *.
  destruct (Hf w1 HI1) as [HI2 Hf2].
  destruct (final w1) as [[[]|e] w2]; simpl in *; split;
    solve [exact HI2 | congruence].
Qed.

Lemma keeps_pure {A C} (I : World -> Prop) (f : World -> C) (m : M A) :
  (forall w, snd (m w) = w) -> keeps I f m.
Proof. intros Hm w HI. rewrite Hm. now split. Qed.

Lemma keeps_stream_chunks {C} (I : World -> Prop) (f : World -> C)
    session_id message_id chunks failure :
  (forall message, keeps I f (broadcast_message message session_id)) ->
  forall full_response,
  keeps I f (stream_chunks session_id message_id full_response chunks failure).
Proof.
  intros Hsend.
  induction chunks as [|[chunk|repr] rest IH]; intros full; simpl.
  - destruct failure; now apply keeps_pure.
  - apply keeps_bind; [apply Hsend | intros _; apply IH].
  - apply IH.
Qed.

Lemma keeps_relay_response {C} (I : World -> Prop) (f : World -> C)
    agent_manager message session_id message_id :
  (forall message, keeps I f (broadcast_message message session_id)) ->
  keeps I f (relay_response agent_manager message session_id message_id).
Proof.
  intros Hsend. unfold relay_response.
  apply keeps_bind; [now apply keeps_pure|]. intros request.
  apply keeps_bind; [now apply keeps_pure|]. intros response.
  assert (Hstream : forall chunks failure, keeps I f
    (full_response ←
       stream_chunks session_id message_id EmptyString chunks failure;
     if truthy full_response then
       broadcast_message
         (ChatMessage ("assistant-" +:+ message_id) "assistant" full_response
            (Some false)) session_id
     else mret tt)).
  { intros chunks failure.
    apply keeps_bind; [now apply keeps_stream_chunks|]. intros full.
    destruct (truthy full); [apply Hsend | now apply keeps_pure]. }
  destruct response; first [ apply Hsend | apply Hstream ].
Qed.

(** [chat] keeps what each of its steps keeps. *)
Lemma keeps_chat {C} (I : World -> Prop) (f : World -> C)
    (message : gmap string string) :
  (forall session_id, message !! "session_id" = Some session_id ->
     (forall value, keeps I f (set_active_request session_id value)) /\
     (forall am, keeps I f (modify (with_chat_sessions (insert session_id am)))) /\
     (forall ev, keeps I f (broadcast_message ev session_id))) ->
  (forall env provider model,
     keeps I f (new_provider (create_provider env provider model))) ->
  keeps I f new_uuid ->
  keeps I f (chat message).
Proof.
  intros Hsession Hnew Huuid.
  unfold chat, chat_body, chat_handler.
  destruct (message !! "session_id") as [sid|];
    [|apply keeps_try_except;
      [now apply keeps_pure
      |intros e; apply keeps_bind; intros; now apply keeps_pure]].
  destruct (Hsession sid eq_refl) as (Hreq & Hses & Hsend).
  apply keeps_try_except.
  - destruct (negb (truthy sid)); [now apply keeps_pure|].
    apply keeps_bind; [now apply keeps_pure|]. intros sessions.
    destruct (sessions !! sid) as [am|]; [|now apply keeps_pure].
    apply keeps_bind; [now apply keeps_pure|]. intros connections.
    destruct (bool_decide _); [now apply keeps_pure|].
    apply keeps_bind; [exact Huuid|]. intros mid.
    destruct (negb _ || negb _); [now apply keeps_pure|].
    unfold serve, start_request, release.
    apply keeps_bind.
    + apply keeps_bind; [now apply keeps_pure|]. intros env.
      apply keeps_bind; [apply Hnew|]. intros p.
      apply keeps_bind; [apply Hses|]. intros _.
      apply keeps_bind; [apply Hsend|]. intros _.
      apply keeps_bind; [now apply keeps_pure|]. intros request.
      apply keeps_bind; [apply Hsend|]. intros _.
      apply keeps_bind; [apply Hreq|]. intros _. now apply keeps_pure.
    + intros [am' p].
      apply keeps_bind; [|intros _; now apply keeps_pure].
      apply keeps_try_finally; [now apply keeps_relay_response|].
      apply keeps_bind; [apply Hreq | intros _; apply Hsend].
  - intros e. apply keeps_bind; [|intros _; now apply keeps_pure].
    apply keeps_bind.
    + destruct (truthy sid); [apply Hreq | now apply keeps_pure].
    + intros _. apply keeps_bind; [now apply keeps_pure|].
      intros connections. destruct (connections !! sid); [|now apply keeps_pure].
      apply keeps_bind; [apply Hsend|]. intros _.
      apply keeps_bind; [exact Huuid|]. intros u. apply Hsend.
Qed.

Lemma keeps_always {A C} (f : World -> C) (m : M A) :
  preserves f m -> keeps (fun _ => True) f m.
Proof. intros Hm w _. split; [exact I | apply Hm]. Qed.

Lemma preserves_new_provider {C} (f : World -> C) made :
  (forall g w, f (with_providers g w) = f w) ->
  preserves f (new_provider made).
Proof.
  intros Hp w. unfold new_provider. destruct made; [apply Hp | reflexivity].
Qed.

Lemma broadcast_message_connections message session_id sid w :
  sid <> session_id ->
  active_connections (snd (broadcast_message message session_id w)) !! sid
  = active_connections w !! sid.
Proof.
  intros Hne. rewrite broadcast_message_cases.
  destruct (active_connections w !! session_id) as [c|]; [|reflexivity].
  destruct (sockets w !! websocket c) as [s|]; simpl;
    [destruct (usable s); simpl|]; try reflexivity;
    now rewrite lookup_delete_ne by congruence.
Qed.

(** X11. [chat] touches one session. For a request that names the session
    [session_id]: the manager, the marker and the connection of every
    other session are what they were; every websocket other than the one
    bound to [session_id] is what it was; every provider object that
    existed still exists, unchanged; and no transport handle is closed
    and the environment is not written. *)
Theorem chat_touches_one_session (message : gmap string string) (w : World)
    (session_id other : string) (ws ws' l : nat) (p : Llm.Provider) :
  message !! "session_id" = Some session_id ->
  let w' := snd (chat message w) in
  (other <> session_id ->
   chat_sessions w' !! other = chat_sessions w !! other /\
   active_requests w' !! other = active_requests w !! other /\
   active_connections w' !! other = active_connections w !! other) /\
  (bound_to_or_unbound w session_id ws -> ws' <> ws ->
   sockets w' !! ws' = sockets w !! ws') /\
  (providers w !! l = Some p -> providers w' !! l = Some p) /\
  closed_handles w' = closed_handles w /\
  environ w' = environ w.
Proof.
  intros Hsid w'. unfold w'.
  split; [|split; [|split; [|split]]].
  - intros Hne. split; [|split].
    + apply (keeps_chat (fun _ => True) (fun w => chat_sessions w !! other));
        [| | |exact Logic.I].
      * intros sid Hsid'. rewrite Hsid in Hsid'. injection Hsid' as <-.
        split; [|split]; intros; apply keeps_always.
        -- now apply preserves_modify.
        -- apply preserves_modify. intros w0. simpl.
           now rewrite lookup_insert_ne by congruence.
        -- apply preserves_broadcast_message. now split.
      * intros. apply keeps_always. now apply preserves_new_provider.
      * apply keeps_always. intros w0. reflexivity.
    + now apply (writes_only_chat _ _ Hsid).
    + apply (keeps_chat (fun _ => True) (fun w => active_connections w !! other));
        [| | |exact Logic.I].
      * intros sid Hsid'. rewrite Hsid in Hsid'. injection Hsid' as <-.
        split; [|split]; intros; apply keeps_always.
        -- now apply preserves_modify.
        -- now apply preserves_modify.
        -- intros w0. now apply broadcast_message_connections.
      * intros. apply keeps_always. now apply preserves_new_provider.
      * apply keeps_always. intros w0. reflexivity.
  - intros Hbound Hne.
    apply (keeps_chat (fun w => bound_to_or_unbound w session_id ws)
             (fun w => sockets w !! ws')); [| | |exact Hbound].
    + intros sid Hsid'. rewrite Hsid in Hsid'. injection Hsid' as <-.
      split; [|split]; intros; intros w0 Hb.
      * now split.
      * now split.
      * split; [now apply broadcast_message_bound
               |now apply broadcast_message_others with (ws := ws)].
    + intros env provider model w0 Hb. unfold new_provider.
      destruct (create_provider env provider model); now split.
    + intros w0 Hb. now split.
  - intros Hl.
    apply (keeps_chat (fun w => providers w !! l = Some p) (fun _ => tt));
      [| | |exact Hl].
    + intros sid _. split; [|split]; intros; intros w0 Hp.
      * now split.
      * now split.
      * split; [|reflexivity].
        now rewrite (preserves_broadcast_message providers _ _
                       off_the_wire_providers).
    + intros env provider model w0 Hp. split; [|reflexivity].
      unfold new_provider.
      destruct (create_provider env provider model) as [made|]; [|exact Hp].
      simpl. rewrite lookup_insert_ne; [exact Hp|].
      intros Heq. apply (is_fresh (dom (providers w0))). rewrite Heq.
      apply elem_of_dom. eauto.
    + intros w0 Hp. now split.
  - apply (keeps_chat (fun _ => True) closed_handles); [| | |exact Logic.I].
    + intros sid _. split; [|split]; intros; apply keeps_always.
      * now apply preserves_modify.
      * now apply preserves_modify.
      * apply preserves_broadcast_message. now split.
    + intros. apply keeps_always. now apply preserves_new_provider.
    + apply keeps_always. intros w0. reflexivity.
  - apply (keeps_chat (fun _ => True) environ); [| | |exact Logic.I].
    + intros sid _. split; [|split]; intros; apply keeps_always.
      * now apply preserves_modify.
      * now apply preserves_modify.
      * apply preserves_broadcast_message. now split.
    + intros. apply keeps_always. now apply preserves_new_provider.
    + apply keeps_always. intros w0. reflexivity.
Qed.

(** *** Provider objects and transport handles *)

Lemma OpenAIProvider_init_as_constructed env model key p :
  Llm.OpenAIProvider.__init__ env model key = Ok p -> as_constructed p.
Proof.
  unfold Llm.OpenAIProvider.__init__.
  destruct (truthy_opt _) eqn:Hkey; [|discriminate].
  intros [= <-]. now repeat split.
Qed.

Lemma AnthropicProvider_init_as_constructed env model key p :
  Llm.AnthropicProvider.__init__ env model key = Ok p -> as_constructed p.
Proof.
  unfold Llm.AnthropicProvider.__init__.
  destruct (truthy_opt _) eqn:Hkey; [|discriminate].
  intros [= <-]. now repeat split.
Qed.

Lemma create_provider_as_constructed env provider model p :
  create_provider env provider model = Ok p -> as_constructed p.
Proof.
  unfold create_provider.
  destruct (String.eqb provider "ollama");
    [intros [= <-]; now repeat split|].
  destruct (String.eqb provider "openai");
    [apply OpenAIProvider_init_as_constructed|].
  destruct (String.eqb provider "anthropic");
    [apply AnthropicProvider_init_as_constructed|].
  destruct (String.eqb provider "deepseek"); [|discriminate].
  unfold Llm.DeepSeekProvider.__init__.
  destruct (truthy_opt _) eqn:Hkey; [|discriminate].
  intros [= <-]. now repeat split.
Qed.

Section Stored.
Variable P : Llm.Provider -> Prop.
Hypothesis P_no_handle : forall p, P p -> Llm._current_request p = None.
Hypothesis P_constructed : forall p, as_constructed p -> P p.

Lemma keeps_stored_frame {A} (m : M A) :
  preserves providers m -> preserves closed_handles m ->
  keeps (stored P) closed_handles m.
Proof.
  intros Hp Hc w Hw. split; [|apply Hc]. unfold stored. rewrite Hp. exact Hw.
Qed.

Lemma keeps_stored_new_provider made :
  (forall p, made = Ok p -> as_constructed p) ->
  keeps (stored P) closed_handles (new_provider made).
Proof.
  intros Hmade w Hw. unfold new_provider. destruct made as [p|e]; [|now split].
  split; [|reflexivity]. intros l q. simpl.
  destruct (decide (l = fresh (dom (providers w)))) as [->|Hne].
  - rewrite lookup_insert_eq. intros [= <-]. now apply P_constructed, Hmade.
  - rewrite lookup_insert_ne by congruence. apply Hw.
Qed.

Lemma keeps_stored_broadcast_message message session_id :
  keeps (stored P) closed_handles (broadcast_message message session_id).
Proof.
  apply keeps_stored_frame; apply preserves_broadcast_message; now split.
Qed.

Lemma keeps_stored_chat message :
  keeps (stored P) closed_handles (chat message).
Proof.
  apply keeps_chat.
  - intros sid _. split; [|split]; intros.
    + apply keeps_stored_frame; now apply preserves_modify.
    + apply keeps_stored_frame; now apply preserves_modify.
    + apply keeps_stored_broadcast_message.
  - intros. apply keeps_stored_new_provider. apply create_provider_as_constructed.
  - apply keeps_stored_frame; intros w; reflexivity.
Qed.

Lemma keeps_stored_new_AgentManager llm_provider max_steps verbose :
  keeps (stored P) closed_handles (new_AgentManager llm_provider max_steps verbose).
Proof.
  unfold new_AgentManager. apply keeps_bind; [|intros; now apply keeps_pure].
  destruct llm_provider; [now apply keeps_pure|].
  apply keeps_bind; [now apply keeps_pure|]. intros env.
  apply keeps_stored_new_provider. apply OpenAIProvider_init_as_constructed.
Qed.

Lemma keeps_stored_new_chat : keeps (stored P) closed_handles new_chat.
Proof.
  unfold new_chat.
  apply keeps_bind; [apply keeps_stored_frame; intros w; reflexivity|]. intros sid.
  apply keeps_bind; [apply keeps_stored_new_AgentManager|]. intros am.
  apply keeps_bind; [apply keeps_stored_frame; now apply preserves_modify|].
  intros _. now apply keeps_pure.
Qed.

Lemma provider_cancel_request_no_handle p w :
  stored P w -> provider_cancel_request p w = (Ok tt, w).
Proof.
  intros Hw. unfold provider_cancel_request.
  destruct (providers w !! p) as [self|] eqn:Hp; [|reflexivity].
  rewrite cancel_request_unfold, (P_no_handle _ (Hw _ _ Hp)).
  destruct w; simpl in *. unfold with_closed_handles, with_providers; simpl.
  now rewrite (insert_id _ _ _ Hp).
Qed.

Lemma cancel_chat_no_handle session_id w :
  stored P w ->
  cancel_chat session_id w
  = (Ok Success,
     match marker w session_id with
     | Some _ => with_active_requests (insert session_id None) w
     | None => w
     end).
Proof.
  intros Hw. unfold cancel_chat.
  unfold mbind, M_bind, mret, M_ret, gets, set_active_request, modify.
  destruct (marker w session_id); [|reflexivity].
  destruct (chat_sessions w !! session_id) as [agent|]; [|reflexivity].
  now rewrite (provider_cancel_request_no_handle _ _ Hw).
Qed.

Lemma keeps_stored_cancel_chat session_id :
  keeps (stored P) closed_handles (cancel_chat session_id).
Proof.
  intros w Hw. rewrite (cancel_chat_no_handle _ _ Hw).
  destruct (marker w session_id); now split.
Qed.

Lemma keeps_stored_websocket_endpoint ws session_id :
  keeps (stored P) closed_handles (websocket_endpoint ws session_id).
Proof.
  intros w Hw. rewrite websocket_endpoint_cases. simpl.
  destruct (active_connections w !! session_id) as [c|]; [|now split].
  destruct (sockets w !! websocket c) as [s|]; [|now split].
  destruct (usable s); now split.
Qed.

Lemma keeps_stored_websocket_disconnect session_id :
  keeps (stored P) closed_handles (websocket_disconnect session_id).
Proof.
  intros w Hw. unfold websocket_disconnect.
  unfold mbind, M_bind, mret, M_ret, gets, modify.
  destruct (active_connections w !! session_id); now split.
Qed.

Lemma keeps_stored_update_provider data :
  keeps (stored P) closed_handles (update_provider data).
Proof.
  unfold update_provider.
  apply keeps_bind; [now apply keeps_pure|]. intros provider.
  apply keeps_bind; [now apply keeps_pure|]. intros env.
  assert (Hconfigure : forall llm_provider : nat, keeps (stored P) closed_handles
    (default_provider ←
       new_provider (Llm.OpenAIProvider.__init__ env "gpt-4-turbo-preview" None);
     temp_agent ← new_AgentManager (Some default_provider) 10 false;
     mret Success)).
  { intros _.
    apply keeps_bind;
      [apply keeps_stored_new_provider, OpenAIProvider_init_as_constructed|].
    intros q. apply keeps_bind; [apply keeps_stored_new_AgentManager|].
    intros am. now apply keeps_pure. }
  destruct (String.eqb provider "OpenAI").
  - apply keeps_bind;
      [apply keeps_stored_new_provider, OpenAIProvider_init_as_constructed|].
    exact Hconfigure.
  - destruct (String.eqb provider "Anthropic"); [|now apply keeps_pure].
    apply keeps_bind;
      [apply keeps_stored_new_provider, AnthropicProvider_init_as_constructed|].
    exact Hconfigure.
Qed.

Lemma keeps_stored_get_tools : keeps (stored P) closed_handles get_tools.
Proof.
  unfold get_tools.
  apply keeps_bind; [apply keeps_stored_new_AgentManager|].
  intros am. now apply keeps_pure.
Qed.

Lemma keeps_stored_get_status : keeps (stored P) closed_handles get_status.
Proof.
  unfold get_status.
  apply keeps_bind; [apply keeps_stored_new_AgentManager|]. intros am.
  apply keeps_bind; [now apply keeps_pure|]. intros [p|]; now apply keeps_pure.
Qed.

Lemma reachable_stored w :
  reachable w -> stored P w /\ closed_handles w = ∅.
Proof.
  assert (Hstep : forall A (m : M A) w0,
            keeps (stored P) closed_handles m ->
            stored P w0 /\ closed_handles w0 = ∅ ->
            stored P (snd (m w0)) /\ closed_handles (snd (m w0)) = ∅).
  { intros A m w0 Hm [Hs Hc]. destruct (Hm w0 Hs) as [Hs' Hc'].
    split; [exact Hs' | congruence]. }
  induction 1 as [env|w g _ IH|w _ IH|w ws sid _ IH|w sid _ IH|w message _ IH
                  |w sid _ IH|w data _ IH|w _ IH|w _ IH].
  - split; [|reflexivity]. intros l p Hl. simpl in Hl.
    now rewrite lookup_empty in Hl.
  - exact IH.
  - now apply Hstep; [apply keeps_stored_new_chat|].
  - now apply Hstep; [apply keeps_stored_websocket_endpoint|].
  - now apply Hstep; [apply keeps_stored_websocket_disconnect|].
  - now apply Hstep; [apply keeps_stored_chat|].
  - now apply Hstep; [apply keeps_stored_cancel_chat|].
  - now apply Hstep; [apply keeps_stored_update_provider|].
  - now apply Hstep; [apply keeps_stored_get_tools|].
  - now apply Hstep; [apply keeps_stored_get_status|].
Qed.

End Stored.

(** X12. No endpoint attaches a transport handle to a provider object or
    closes one. From a state in which no stored provider has a handle
    attached, each of [chat], [new_chat], [cancel_chat],
    [websocket_endpoint], its disconnection, [update_provider],
    [get_tools] and [get_status] leads to such a state again and leaves
    the set of closed handles as it was. In such a state [cancel_chat]
    answers success and changes nothing but the marker of its session,
    which it empties: the [cancel_request] it calls finds nothing to
    close. *)
Theorem endpoints_attach_no_handle (w w' : World)
    (message data : gmap string string) (session_id : string) (ws : nat) :
  no_handles w ->
  (w' ∈ [snd (chat message w); snd (new_chat w);
         snd (cancel_chat session_id w);
         snd (websocket_endpoint ws session_id w);
         snd (websocket_disconnect session_id w);
         snd (update_provider data w);
         snd (get_tools w); snd (get_status w)] ->
   no_handles w' /\ closed_handles w' = closed_handles w) /\
  cancel_chat session_id w
  = (Ok Success,
     match marker w session_id with
     | Some _ => with_active_requests (insert session_id None) w
     | None => w
     end).
Proof.
  intros Hw.
  pose (P := fun p : Llm.Provider => Llm._current_request p = None).
  assert (HP1 : forall p, P p -> Llm._current_request p = None) by (intros p Hp; exact Hp).
  assert (HP2 : forall p, as_constructed p -> P p) by (intros p [Hp _]; exact Hp).
  change (stored P w) in Hw.
  split; [|exact (cancel_chat_no_handle P HP1 _ _ Hw)].
  intros Hin. change (stored P w' /\ closed_handles w' = closed_handles w).
  repeat (apply elem_of_cons in Hin as [->|Hin]).
  - now apply keeps_stored_chat.
  - now apply keeps_stored_new_chat.
  - now apply keeps_stored_cancel_chat.
  - now apply keeps_stored_websocket_endpoint.
  - now apply keeps_stored_websocket_disconnect.
  - now apply keeps_stored_update_provider.
  - now apply keeps_stored_get_tools.
  - now apply keeps_stored_get_status.
  - now apply elem_of_nil in Hin.
Qed.

(** X13. In every state the endpoints lead to, run one after the other
    from the freshly loaded module and whatever the transport does to
    the websockets, each provider object is as its constructor left it:
    it has no transport handle attached, its base URL is that of its
    class, and its API key is not empty where its class takes one. No
    transport handle has been closed. *)
Theorem reachable_providers_as_constructed (w : World) :
  reachable w ->
  stored as_constructed w /\ no_handles w /\ closed_handles w = ∅.
Proof.
  intros Hw.
  destruct (reachable_stored as_constructed (fun p Hp => proj1 Hp)
              (fun p Hp => Hp) w Hw) as [Hs Hc].
  split; [exact Hs|]. split; [|exact Hc].
  intros l p Hl. exact (proj1 (Hs l p Hl)).
Qed.

End Invariants.

Lemma chat_touches_one_session_witness :
  let w' := snd (App.chat (H := Examples.runtime_hello) Examples.request0
                   Examples.world_two_sessions) in
  App.chat_sessions w' !! "s2" = Some Examples.manager0 /\
  App.sockets w' !! 8 = Some Examples.socket0 /\
  App.providers w' !! 0 = Some Examples.ollama0.
Proof.
  destruct (chat_touches_one_session (H := Examples.runtime_hello)
              Examples.request0 Examples.world_two_sessions "s1" "s2" 7 8 0
              Examples.ollama0 eq_refl) as (Hother & Hsock & Hprov & _).
  split; [|split].
  - destruct Hother as (Hs & _); [discriminate|]. rewrite Hs. reflexivity.
  - rewrite Hsock; [reflexivity | reflexivity | discriminate].
  - apply Hprov. reflexivity.
Defined.

Lemma no_handles_world_busy : no_handles Examples.world_busy.
Proof.
  intros l p Hl.
  change (({[ 0 := Examples.ollama0 ]} : gmap nat Llm.Provider) !! l = Some p) in Hl.
  apply lookup_singleton_Some in Hl as [_ <-]. reflexivity.
Qed.

Lemma endpoints_attach_no_handle_witness :
  App.cancel_chat "s1" Examples.world_busy
  = (Ok App.Success,
     App.with_active_requests (insert "s1" None) Examples.world_busy) /\
  App.closed_handles
    (snd (App.chat (H := Examples.runtime_hello) Examples.request0
            Examples.world_busy)) = ∅.
Proof.
  destruct (endpoints_attach_no_handle (H := Examples.runtime_hello)
              Examples.world_busy
              (snd (App.chat (H := Examples.runtime_hello) Examples.request0
                      Examples.world_busy))
              Examples.request0 ∅ "s1" 7 no_handles_world_busy)
    as [Hstep Hcancel].
  split; [exact Hcancel|].
  destruct Hstep as [_ Hclosed]; [apply elem_of_cons; now left | exact Hclosed].
Defined.

Lemma reachable_world_served : reachable (H := Examples.runtime_hello) Examples.world_served.
Proof.
  apply reach_chat, reach_websocket_endpoint, reach_transport, reach_new_chat,
    reach_initial.
Qed.

Lemma reachable_providers_as_constructed_witness :
  stored as_constructed Examples.world_served /\
  no_handles Examples.world_served /\
  App.closed_handles Examples.world_served = ∅.
Proof.
  exact (reachable_providers_as_constructed (H := Examples.runtime_hello)
           Examples.world_served reachable_world_served).
Defined.

(** ** The endpoints that work on a temporary manager *)

Section TemporaryManagers.
Context `{Runtime}.
Import App.

Ltac run_monad :=
  unfold mbind, M_bind, mret, M_ret, gets, modify, lift, raise, new_provider.

Lemma OpenAIProvider_init_default env model :
  Llm.OpenAIProvider.__init__ env model None
  = if truthy_opt (env !! "OPENAI_API_KEY") then
      Ok {| Llm.cls := Llm.OpenAI; Llm.api_key := env !! "OPENAI_API_KEY";
            Llm.model_name := model; Llm.base_url := None;
            Llm._current_request := None |}
    else Raise (ValueError "OpenAI API key not provided").
Proof. reflexivity. Qed.

Lemma AnthropicProvider_init_default env model :
  Llm.AnthropicProvider.__init__ env model None
  = if truthy_opt (env !! "ANTHROPIC_API_KEY") then
      Ok {| Llm.cls := Llm.Anthropic; Llm.api_key := env !! "ANTHROPIC_API_KEY";
            Llm.model_name := model; Llm.base_url := None;
            Llm._current_request := None |}
    else Raise (ValueError "Anthropic API key not provided").
Proof. reflexivity. Qed.

(** [AgentManager(llm_provider=None, ...)]: the default provider is made
    from the environment, or the constructor's error leaves the call. *)
Lemma new_AgentManager_default max_steps verbose w :
  new_AgentManager None max_steps verbose w
  = if truthy_opt (environ w !! "OPENAI_API_KEY") then
      (Ok (AgentManager.__init__ (fresh (dom (providers w))) max_steps verbose [] []),
       with_providers
         (insert (fresh (dom (providers w)))
            {| Llm.cls := Llm.OpenAI; Llm.api_key := environ w !! "OPENAI_API_KEY";
               Llm.model_name := "gpt-4-turbo-preview"; Llm.base_url := None;
               Llm._current_request := None |}) w)
    else (Raise (ValueError "OpenAI API key not provided"), w).
Proof.
  unfold new_AgentManager. run_monad. rewrite OpenAIProvider_init_default.
  destruct (truthy_opt (environ w !! "OPENAI_API_KEY")); reflexivity.
Qed.

Lemma with_providers_reset g w :
  with_providers (fun _ => providers w) (with_providers g w) = w.
Proof. now destruct w. Qed.

Lemma with_providers_same w :
  with_providers (fun _ => providers w) w = w.
Proof. now destruct w. Qed.

Lemma fresh_provider_absent w :
  providers w !! fresh (dom (providers w)) = None.
Proof. apply not_elem_of_dom, is_fresh. Qed.

Lemma lookup_insert_fresh w l (p q : Llm.Provider) :
  providers w !! l = Some p ->
  <[fresh (dom (providers w)) := q]> (providers w) !! l = Some p.
Proof.
  intros Hl. rewrite lookup_insert_ne; [exact Hl|].
  intros <-. now rewrite fresh_provider_absent in Hl.
Qed.

(** X14. [update_provider] by its cases. A request with no "provider" key
    leaves the endpoint with a [KeyError]; a name other than "OpenAI" and
    "Anthropic" (the comparison is exact, so "openai" is one) is answered
    "Unsupported provider"; both leave the state untouched. "OpenAI"
    succeeds exactly when the environment has a non-empty
    [OPENAI_API_KEY]; "Anthropic" needs a non-empty [ANTHROPIC_API_KEY]
    and, for the temporary manager's own provider, a non-empty
    [OPENAI_API_KEY] as well. A missing key leaves the endpoint as a
    [ValueError]: there is no handler. Whatever the case, nothing but the
    store of provider objects changes, no object that existed is changed,
    and no session is given the new provider. The two names this endpoint
    accepts are names the provider selection of [chat] refuses. *)
Theorem update_provider_cases (data : gmap string string) (w : World)
    (provider model : string) (l : nat) (p : Llm.Provider) :
  (data !! "provider" = None ->
   update_provider data w = (Raise (KeyError "provider"), w)) /\
  (data !! "provider" = Some provider ->
   provider <> "OpenAI" -> provider <> "Anthropic" ->
   update_provider data w = (Ok (Failure "Unsupported provider"), w)) /\
  (data !! "provider" = Some "OpenAI" ->
   fst (update_provider data w)
   = if truthy_opt (environ w !! "OPENAI_API_KEY") then Ok Success
     else Raise (ValueError "OpenAI API key not provided")) /\
  (data !! "provider" = Some "Anthropic" ->
   fst (update_provider data w)
   = if truthy_opt (environ w !! "ANTHROPIC_API_KEY") then
       if truthy_opt (environ w !! "OPENAI_API_KEY") then Ok Success
       else Raise (ValueError "OpenAI API key not provided")
     else Raise (ValueError "Anthropic API key not provided")) /\
  with_providers (fun _ => providers w) (snd (update_provider data w)) = w /\
  (providers w !! l = Some p ->
   providers (snd (update_provider data w)) !! l = Some p) /\
  (provider = "OpenAI" \/ provider = "Anthropic" ->
   create_provider (environ w) provider model
   = Raise (ValueError ("Unsupported provider: " +:+ provider))).
Proof.
  assert (Hrun : update_provider data w =
    match data !! "provider" with
    | None => (Raise (KeyError "provider"), w)
    | Some name =>
        if String.eqb name "OpenAI" then
          if truthy_opt (environ w !! "OPENAI_API_KEY") then
            let made := {| Llm.cls := Llm.OpenAI;
                           Llm.api_key := environ w !! "OPENAI_API_KEY";
                           Llm.model_name := "gpt-4-turbo-preview";
                           Llm.base_url := None; Llm._current_request := None |} in
            let w1 := with_providers (insert (fresh (dom (providers w))) made) w in
            (Ok Success,
             with_providers (insert (fresh (dom (providers w1))) made) w1)
          else (Raise (ValueError "OpenAI API key not provided"), w)
        else if String.eqb name "Anthropic" then
          if truthy_opt (environ w !! "ANTHROPIC_API_KEY") then
            let w1 := with_providers
                        (insert (fresh (dom (providers w)))
                           {| Llm.cls := Llm.Anthropic;
                              Llm.api_key := environ w !! "ANTHROPIC_API_KEY";
                              Llm.model_name := "claude-3-opus-20240229";
                              Llm.base_url := None;
                              Llm._current_request := None |}) w in
            if truthy_opt (environ w !! "OPENAI_API_KEY") then
              (Ok Success,
               with_providers
                 (insert (fresh (dom (providers w1)))
                    {| Llm.cls := Llm.OpenAI;
                       Llm.api_key := environ w !! "OPENAI_API_KEY";
                       Llm.model_name := "gpt-4-turbo-preview";
                       Llm.base_url := None; Llm._current_request := None |}) w1)
            else (Raise (ValueError "OpenAI API key not provided"), w1)
          else (Raise (ValueError "Anthropic API key not provided"), w)
        else (Ok (Failure "Unsupported provider"), w)
    end).
  { unfold update_provider, Llm.getitem, new_AgentManager. run_monad.
    destruct (data !! "provider") as [name|]; [|reflexivity].
    rewrite OpenAIProvider_init_default, AnthropicProvider_init_default.
    destruct (String.eqb name "OpenAI").
    - destruct (truthy_opt (environ w !! "OPENAI_API_KEY")); reflexivity.
    - destruct (String.eqb name "Anthropic"); [|reflexivity].
      destruct (truthy_opt (environ w !! "ANTHROPIC_API_KEY")); [|reflexivity].
      simpl. destruct (truthy_opt (environ w !! "OPENAI_API_KEY")); reflexivity. }
  split; [|split; [|split; [|split; [|split; [|split]]]]].
  - intros Hnone. now rewrite Hrun, Hnone.
  - intros Hname Ho Ha. rewrite Hrun, Hname.
    now rewrite (string_eqb_false _ _ Ho), (string_eqb_false _ _ Ha).
  - intros Hname. rewrite Hrun, Hname. simpl.
    destruct (truthy_opt (environ w !! "OPENAI_API_KEY")); reflexivity.
  - intros Hname. rewrite Hrun, Hname. simpl.
    destruct (truthy_opt (environ w !! "ANTHROPIC_API_KEY")); [|reflexivity].
    destruct (truthy_opt (environ w !! "OPENAI_API_KEY")); reflexivity.
  - rewrite Hrun. destruct (data !! "provider") as [name|];
      [|apply with_providers_same].
    destruct (String.eqb name "OpenAI");
      [destruct (truthy_opt (environ w !! "OPENAI_API_KEY")); now destruct w|].
    destruct (String.eqb name "Anthropic"); [|now destruct w].
    destruct (truthy_opt (environ w !! "ANTHROPIC_API_KEY")); [|now destruct w].
    destruct (truthy_opt (environ w !! "OPENAI_API_KEY")); now destruct w.
  - intros Hl. rewrite Hrun. destruct (data !! "provider") as [name|]; [|exact Hl].
    destruct (String.eqb name "OpenAI").
    + destruct (truthy_opt (environ w !! "OPENAI_API_KEY")); [|exact Hl].
      cbv zeta. apply lookup_insert_fresh. simpl. now apply lookup_insert_fresh.
    + destruct (String.eqb name "Anthropic"); [|exact Hl].
      destruct (truthy_opt (environ w !! "ANTHROPIC_API_KEY")); [|exact Hl].
      cbv zeta.
      destruct (truthy_opt (environ w !! "OPENAI_API_KEY")).
      * apply lookup_insert_fresh. simpl. now apply lookup_insert_fresh.
      * simpl. now apply lookup_insert_fresh.
  - intros [-> | ->]; reflexivity.
Qed.

(** X15. [get_tools] and [get_status] answer about a temporary manager,
    never about a session: in every state whose environment has a
    non-empty [OPENAI_API_KEY], [get_tools] lists the six default tools
    and [get_status] reports an [OpenAIProvider], six tools, ten steps,
    no verbosity and the ten default imports in ascending order, whatever
    the sessions hold. Without the key both leave the endpoint with the
    constructor's [ValueError] and the state untouched. In every case
    nothing but the store of provider objects changes. *)
Theorem temporary_manager_endpoints (w : World) :
  (truthy_opt (environ w !! "OPENAI_API_KEY") = true ->
   fst (get_tools w) = Ok AgentManager.default_tools /\
   fst (get_status w)
   = Ok {| AgentManager.status_llm_provider := "OpenAIProvider";
           AgentManager.num_tools := 6;
           AgentManager.status_max_steps := 10;
           AgentManager.status_verbose := false;
           AgentManager.status_authorized_imports :=
             ["datetime"; "json"; "math"; "numpy"; "os"; "pandas"; "random";
              "requests"; "sys"; "time"] |}) /\
  (truthy_opt (environ w !! "OPENAI_API_KEY") = false ->
   get_tools w = (Raise (ValueError "OpenAI API key not provided"), w) /\
   get_status w = (Raise (ValueError "OpenAI API key not provided"), w)) /\
  with_providers (fun _ => providers w) (snd (get_tools w)) = w /\
  with_providers (fun _ => providers w) (snd (get_status w)) = w.
Proof.
  assert (Htools : get_tools w =
    if truthy_opt (environ w !! "OPENAI_API_KEY") then
      (Ok AgentManager.default_tools,
       with_providers
         (insert (fresh (dom (providers w)))
            {| Llm.cls := Llm.OpenAI; Llm.api_key := environ w !! "OPENAI_API_KEY";
               Llm.model_name := "gpt-4-turbo-preview"; Llm.base_url := None;
               Llm._current_request := None |}) w)
    else (Raise (ValueError "OpenAI API key not provided"), w)).
  { unfold get_tools. unfold mbind at 1. unfold M_bind at 1.
    rewrite new_AgentManager_default.
    destruct (truthy_opt (environ w !! "OPENAI_API_KEY")); reflexivity. }
  assert (Hstatus : get_status w =
    if truthy_opt (environ w !! "OPENAI_API_KEY") then
      (Ok {| AgentManager.status_llm_provider := "OpenAIProvider";
             AgentManager.num_tools := 6;
             AgentManager.status_max_steps := 10;
             AgentManager.status_verbose := false;
             AgentManager.status_authorized_imports :=
               ["datetime"; "json"; "math"; "numpy"; "os"; "pandas"; "random";
                "requests"; "sys"; "time"] |},
       with_providers
         (insert (fresh (dom (providers w)))
            {| Llm.cls := Llm.OpenAI; Llm.api_key := environ w !! "OPENAI_API_KEY";
               Llm.model_name := "gpt-4-turbo-preview"; Llm.base_url := None;
               Llm._current_request := None |}) w)
    else (Raise (ValueError "OpenAI API key not provided"), w)).
  { unfold get_status. unfold mbind at 1. unfold M_bind at 1.
    rewrite new_AgentManager_default.
    destruct (truthy_opt (environ w !! "OPENAI_API_KEY")); [|reflexivity].
    unfold mbind, M_bind, gets, mret, M_ret.
    cbn [providers with_providers AgentManager.llm_provider AgentManager.__init__
         AgentManager.set_agent].
    rewrite lookup_insert_eq. reflexivity. }
  rewrite Htools, Hstatus. split; [|split; [|split]].
  - intros ->. now split.
  - intros ->. now split.
  - destruct (truthy_opt (environ w !! "OPENAI_API_KEY")); now destruct w.
  - destruct (truthy_opt (environ w !! "OPENAI_API_KEY")); now destruct w.
Qed.

(** X16. [new_chat] draws the session id first and builds the manager
    second. Without a non-empty [OPENAI_API_KEY] the constructor's
    [ValueError] leaves the endpoint, an identifier has been drawn and no
    session is registered. With the key the endpoint answers the drawn
    id and registers under it a manager with the six default tools, ten
    steps, verbosity on, the default imports and a new [OpenAIProvider]
    object for the default model with the key of the environment; the
    other sessions, the markers, the connections and the websockets are
    as they were. The new session has no connection unless one was bound
    to its id before, and until one is bound a request for it is
    answered "No active WebSocket connection". *)
Theorem new_chat_registers_session (w : World) (other : string)
    (message : gmap string string) :
  let session_id := uuid4 (uuid_count w) in
  let w' := snd (new_chat w) in
  (truthy_opt (environ w !! "OPENAI_API_KEY") = false ->
   new_chat w
   = (Raise (ValueError "OpenAI API key not provided"), with_uuid_count S w)) /\
  (truthy_opt (environ w !! "OPENAI_API_KEY") = true ->
   fst (new_chat w) = Ok session_id /\
   (exists am p,
      chat_sessions w' !! session_id = Some am /\
      AgentManager.tools am = AgentManager.default_tools /\
      AgentManager.max_steps am = 10%Z /\
      AgentManager.verbose am = true /\
      AgentManager.authorized_imports am = AgentManager.default_imports /\
      providers w !! AgentManager.llm_provider am = None /\
      providers w' !! AgentManager.llm_provider am = Some p /\
      Llm.cls p = Llm.OpenAI /\
      Llm.model_name p = "gpt-4-turbo-preview" /\
      Llm.api_key p = environ w !! "OPENAI_API_KEY") /\
   (other <> session_id ->
    chat_sessions w' !! other = chat_sessions w !! other) /\
   active_requests w' = active_requests w /\
   active_connections w' = active_connections w /\
   sockets w' = sockets w /\
   (truthy session_id = true ->
    active_connections w !! session_id = None ->
    message !! "session_id" = Some session_id ->
    chat message w' = (Ok (Failure "No active WebSocket connection"), w'))).
Proof.
  intros session_id w'.
  assert (Hrun : new_chat w =
    if truthy_opt (environ w !! "OPENAI_API_KEY") then
      (Ok session_id,
       with_chat_sessions
         (insert session_id
            (AgentManager.__init__ (fresh (dom (providers w))) 10 true [] []))
         (with_providers
            (insert (fresh (dom (providers w)))
               {| Llm.cls := Llm.OpenAI;
                  Llm.api_key := environ w !! "OPENAI_API_KEY";
                  Llm.model_name := "gpt-4-turbo-preview"; Llm.base_url := None;
                  Llm._current_request := None |}) (with_uuid_count S w)))
    else (Raise (ValueError "OpenAI API key not provided"), with_uuid_count S w)).
  { unfold new_chat, new_uuid. unfold mbind at 1. unfold M_bind at 1.
    unfold mbind at 1. unfold M_bind at 1.
    rewrite new_AgentManager_default. simpl environ. simpl providers.
    destruct (truthy_opt (environ w !! "OPENAI_API_KEY")); reflexivity. }
  split.
  - intros Hkey. now rewrite Hrun, Hkey.
  - intros Hkey. unfold w'. rewrite Hrun, Hkey. simpl.
    split; [reflexivity|]. split; [|split; [|split; [|split; [|split]]]].
    + eexists _, _. rewrite lookup_insert_eq. split; [reflexivity|].
      cbn [AgentManager.llm_provider AgentManager.__init__ AgentManager.set_agent
           AgentManager.tools AgentManager.max_steps AgentManager.verbose
           AgentManager.authorized_imports].
      rewrite lookup_insert_eq, fresh_provider_absent, app_nil_r.
      repeat split.
    + intros Hne. now rewrite lookup_insert_ne by congruence.
    + reflexivity.
    + reflexivity.
    + reflexivity.
    + intros Htruthy Hunbound Hsid. unfold session_id in *.
      unfold chat, try_except, chat_body. rewrite Hsid, Htruthy.
      unfold mbind, M_bind, gets, mret, M_ret. simpl.
      rewrite lookup_insert_eq.
      now rewrite bool_decide_eq_true_2 by exact Hunbound.
Qed.

End TemporaryManagers.

Lemma update_provider_cases_witness :
  App.update_provider {[ "provider" := "openai" ]} Examples.world_idle
    = (Ok (App.Failure "Unsupported provider"), Examples.world_idle) /\
  fst (App.update_provider {[ "provider" := "OpenAI" ]}
         (App.initial Examples.env_openai)) = Ok App.Success /\
  fst (App.update_provider {[ "provider" := "Anthropic" ]}
         (App.initial Examples.env_openai))
    = Raise (ValueError "Anthropic API key not provided") /\
  App.create_provider Examples.env_openai "OpenAI" "gpt-4"
    = Raise (ValueError "Unsupported provider: OpenAI").
Proof.
  split; [|split; [|split]].
  - destruct (update_provider_cases {[ "provider" := "openai" ]}
                Examples.world_idle "openai" "gpt-4" 0 Examples.ollama0)
      as (_ & Hother & _).
    apply Hother; [reflexivity | discriminate | discriminate].
  - destruct (update_provider_cases {[ "provider" := "OpenAI" ]}
                (App.initial Examples.env_openai) "OpenAI" "gpt-4" 0
                Examples.ollama0) as (_ & _ & Hopenai & _).
    rewrite Hopenai; reflexivity.
  - destruct (update_provider_cases {[ "provider" := "Anthropic" ]}
                (App.initial Examples.env_openai) "Anthropic" "gpt-4" 0
                Examples.ollama0) as (_ & _ & _ & Hanthropic & _).
    rewrite Hanthropic; reflexivity.
  - destruct (update_provider_cases {[ "provider" := "OpenAI" ]}
                (App.initial Examples.env_openai) "OpenAI" "gpt-4" 0
                Examples.ollama0) as (_ & _ & _ & _ & _ & _ & Hchat).
    apply Hchat. now left.
Defined.

Lemma temporary_manager_endpoints_witness :
  fst (App.get_tools (App.initial Examples.env_openai))
    = Ok AgentManager.default_tools /\
  App.get_status Examples.world_idle
    = (Raise (ValueError "OpenAI API key not provided"), Examples.world_idle).
Proof.
  split.
  - destruct (temporary_manager_endpoints (App.initial Examples.env_openai))
      as (Hkey & _).
    destruct Hkey as [Htools _]; [reflexivity | exact Htools].
  - destruct (temporary_manager_endpoints Examples.world_idle) as (_ & Hnone & _).
    destruct Hnone as [_ Hstatus]; [reflexivity | exact Hstatus].
Defined.

Lemma new_chat_registers_session_witness :
  fst (App.new_chat (H := Examples.runtime_hello) (App.initial Examples.env_openai))
    = Ok "0" /\
  App.chat (H := Examples.runtime_hello) Examples.request_openai
    Examples.world_opened
    = (Ok (App.Failure "No active WebSocket connection"), Examples.world_opened) /\
  App.new_chat (H := Examples.runtime_hello) Examples.world_idle
    = (Raise (ValueError "OpenAI API key not provided"),
       App.with_uuid_count S Examples.world_idle).
Proof.
  split; [|split].
  - destruct (new_chat_registers_session (H := Examples.runtime_hello)
                (App.initial Examples.env_openai) "s1" Examples.request_openai)
      as (_ & Hkey).
    destruct Hkey as [Hid _]; [reflexivity | exact Hid].
  - destruct (new_chat_registers_session (H := Examples.runtime_hello)
                (App.initial Examples.env_openai) "s1" Examples.request_openai)
      as (_ & Hkey).
    destruct Hkey as (_ & _ & _ & _ & _ & _ & Hchat); [reflexivity|].
    apply Hchat; reflexivity.
  - destruct (new_chat_registers_session (H := Examples.runtime_hello)
                Examples.world_idle "s1" Examples.request_openai) as (Hnone & _).
    apply Hnone. reflexivity.
Defined.

(** ** The answer of [chat] and the delivery of its events *)

Section Delivery.
Context `{Runtime}.
Import App.

Ltac run_monad :=
  unfold mbind, M_bind, mret, M_ret, gets, modify, lift, raise,
    try_except, try_finally, set_active_request.

Lemma fst_bind {A B} (m : M A) (k : A -> M B) (w : World) :
  fst ((m ≫= k) w)
  = match fst (m w) with
    | Ok a => fst (k a (snd (m w)))
    | Raise e => Raise e
    end.
Proof. unfold mbind, M_bind. now destruct (m w) as [[a|e] w1]. Qed.

Lemma stream_chunks_fst session_id message_id chunks failure :
  forall full_response w,
  fst (stream_chunks session_id message_id full_response chunks failure w)
  = match failure with
    | None => Ok (stream_text full_response chunks)
    | Some e => Raise e
    end.
Proof.
  induction chunks as [|[chunk|repr] rest IH]; intros full w; simpl.
  - now destruct failure.
  - rewrite fst_bind, broadcast_message_ok. apply IH.
  - apply IH.
Qed.

Lemma relay_response_fst agent_manager message session_id message_id w :
  fst (relay_response agent_manager message session_id message_id w)
  = relay_outcome agent_manager message.
Proof.
  unfold relay_response, relay_outcome.
  rewrite fst_bind. unfold lift at 1 2. cbn [fst snd].
  destruct (Llm.getitem message "message") as [request|e]; [|reflexivity].
  rewrite fst_bind. unfold lift at 1 2. cbn [fst snd rbind].
  destruct (AgentManager.process_request agent_manager request true)
    as [response|e]; [|reflexivity].
  cbn [rbind].
  assert (Hstream : forall chunks failure,
    fst ((full_response ←
            stream_chunks session_id message_id EmptyString chunks failure;
          if truthy full_response then
            broadcast_message
              (ChatMessage ("assistant-" +:+ message_id) "assistant"
                 full_response (Some false)) session_id
          else mret tt) w)
    = match failure with None => Ok tt | Some e => Raise e end).
  { intros chunks failure. rewrite fst_bind, stream_chunks_fst.
    destruct failure; [reflexivity|].
    destruct (truthy _); [apply broadcast_message_ok | reflexivity]. }
  destruct response as [s|chunks failure|text|repr].
  - apply broadcast_message_ok.
  - rewrite Hstream. now destruct failure.
  - apply Hstream.
  - apply broadcast_message_ok.
Qed.

Lemma start_request_fst message agent_manager session_id message_id provider
    model w :
  fst (start_request message agent_manager session_id message_id provider model w)
  = rbind (create_provider (environ w) provider model) (fun _ =>
    rbind (Llm.getitem message "message") (fun _ =>
    Ok (AgentManager.set_llm_provider agent_manager (fresh (dom (providers w))),
        fresh (dom (providers w))))).
Proof.
  unfold start_request.
  rewrite fst_bind. unfold gets at 1 2. cbv beta iota. cbn [fst snd].
  rewrite fst_bind. unfold new_provider at 1 2.
  destruct (create_provider (environ w) provider model) as [made|e];
    [|reflexivity].
  cbv beta iota zeta. cbn [fst snd rbind].
  rewrite fst_bind. unfold modify at 1 2. cbv beta iota. cbn [fst snd].
  rewrite fst_bind, broadcast_message_ok. cbv beta iota.
  rewrite fst_bind. unfold lift at 1 2. cbn [fst snd].
  destruct (Llm.getitem message "message") as [request|e]; [|reflexivity].
  cbv beta iota. cbn [rbind].
  rewrite fst_bind, broadcast_message_ok. cbv beta iota.
  rewrite fst_bind. reflexivity.
Qed.

Lemma serve_fst message agent_manager session_id message_id provider model w :
  fst (serve message agent_manager session_id message_id provider model w)
  = match rbind (create_provider (environ w) provider model) (fun _ =>
            relay_outcome
              (AgentManager.set_llm_provider agent_manager
                 (fresh (dom (providers w)))) message) with
    | Ok _ => Ok Success
    | Raise e => Raise e
    end.
Proof.
  unfold serve. rewrite fst_bind, start_request_fst.
  destruct (create_provider (environ w) provider model) as [made|e];
    [|reflexivity].
  cbn [rbind]. unfold relay_outcome at 1.
  destruct (Llm.getitem message "message") as [request|e] eqn:Hrequest;
    [|reflexivity].
  cbn [rbind]. cbv beta iota.
  rewrite fst_bind.
  destruct (try_finally_release
              (relay_response
                 (AgentManager.set_llm_provider agent_manager
                    (fresh (dom (providers w)))) message session_id message_id)
              session_id
              (snd (start_request message agent_manager session_id message_id
                      provider model w))) as [Hfst _].
  rewrite Hfst, relay_response_fst. unfold relay_outcome. rewrite Hrequest.
  cbn [rbind].
  destruct (rbind _ _) as [[]|e]; reflexivity.
Qed.

Lemma chat_answer_eq message w session_id agent_manager :
  accepted message w session_id ->
  chat_sessions w !! session_id = Some agent_manager ->
  fst (chat message w) = Ok (chat_answer message w agent_manager).
Proof.
  intros Hacc Ham. unfold chat, try_except.
  rewrite (chat_body_accepted _ _ _ _ Hacc Ham).
  pose proof (serve_fst message agent_manager session_id (uuid4 (uuid_count w))
                (default EmptyString (message !! "provider"))
                (default EmptyString (message !! "model"))
                (with_uuid_count S w)) as Hserve.
  unfold chat_answer. cbn [environ providers with_uuid_count] in Hserve.
  destruct (serve _ _ _ _ _ _ _) as [[a|e] w1]; simpl in Hserve.
  - destruct (rbind _ _) as [[]|e]; [|discriminate].
    injection Hserve as ->. reflexivity.
  - destruct (rbind _ _) as [[]|e']; [discriminate|].
    injection Hserve as ->. apply chat_handler_ok.
Qed.

Lemma broadcast_message_unbound message session_id w :
  active_connections w !! session_id = None ->
  broadcast_message message session_id w = (Ok tt, w).
Proof. intros Hu. now rewrite broadcast_message_cases, Hu. Qed.

Lemma broadcast_message_dead message session_id w :
  dead w session_id ->
  broadcast_message message session_id w
  = (Ok tt, with_active_connections (delete session_id) w).
Proof.
  intros (c & Hc & Hs). rewrite broadcast_message_cases, Hc.
  destruct (sockets w !! websocket c) as [s|] eqn:Hsock; [|reflexivity].
  now rewrite (Hs s eq_refl).
Qed.

Lemma relay_response_unbound agent_manager message session_id message_id w :
  active_connections w !! session_id = None ->
  relay_response agent_manager message session_id message_id w
  = (relay_outcome agent_manager message, w).
Proof.
  intros Hu. apply injective_projections; [apply relay_response_fst|].
  apply (keeps_relay_response
           (fun w => active_connections w !! session_id = None) (fun w => w));
    [|exact Hu].
  intros ev w0 Hu0. rewrite (broadcast_message_unbound _ _ _ Hu0). now split.
Qed.

Lemma release_unbound session_id w :
  active_connections w !! session_id = None ->
  release session_id w
  = (Ok tt, with_active_requests (insert session_id None) w).
Proof.
  intros Hu. unfold release. run_monad. simpl.
  now rewrite broadcast_message_unbound.
Qed.

Lemma chat_handler_unbound message e session_id w :
  message !! "session_id" = Some session_id ->
  truthy session_id = true ->
  active_connections w !! session_id = None ->
  chat_handler message e w
  = (Ok (Failure (str_exn e)),
     with_active_requests (insert session_id None) w).
Proof.
  intros Hsid Htruthy Hu. unfold chat_handler. rewrite Hsid, Htruthy.
  run_monad. simpl. now rewrite Hu.
Qed.

Lemma chat_handler_dead message e session_id w :
  message !! "session_id" = Some session_id ->
  truthy session_id = true ->
  dead w session_id ->
  chat_handler message e w
  = (Ok (Failure (str_exn e)),
     with_uuid_count S
       (with_active_connections (delete session_id)
          (with_active_requests (insert session_id None) w))).
Proof.
  intros Hsid Htruthy Hdead. unfold chat_handler. rewrite Hsid, Htruthy.
  run_monad. simpl. destruct Hdead as (c & Hc & Hs) eqn:Hd. rewrite Hc.
  rewrite (broadcast_message_dead _ _
             (with_active_requests (insert session_id None) w))
    by (exists c; split; assumption).
  unfold new_uuid.
  now rewrite broadcast_message_unbound by (simpl; apply lookup_delete_eq).
Qed.

Lemma start_request_dead message agent_manager session_id message_id provider
    model w made :
  dead w session_id ->
  create_provider (environ w) provider model = Ok made ->
  let l := fresh (dom (providers w)) in
  let am := AgentManager.set_llm_provider agent_manager l in
  let w2 := with_active_connections (delete session_id)
              (with_chat_sessions (insert session_id am)
                 (with_providers (insert l made) w)) in
  start_request message agent_manager session_id message_id provider model w
  = match message !! "message" with
    | Some _ => (Ok (am, l), with_active_requests (insert session_id (Some l)) w2)
    | None => (Raise (KeyError "message"), w2)
    end.
Proof.
  intros Hdead Hmade l am w2.
  unfold start_request. run_monad. simpl. rewrite Hmade. unfold new_provider.
  simpl. fold l. fold am.
  rewrite (broadcast_message_dead _ _
             (with_chat_sessions (insert session_id am)
                (with_providers (insert l made) w))) by exact Hdead.
  fold w2. unfold Llm.getitem.
  destruct (message !! "message") as [request|]; [|reflexivity].
  now rewrite broadcast_message_unbound by (simpl; apply lookup_delete_eq).
Qed.

(** X17. The answer of [chat] does not depend on the delivery of its
    events. An accepted request is answered success when the provider
    could be made, the request has a "message" and the agent's response
    was relayed to its end, and with status error and the message of the
    exception otherwise; whether any event could be sent plays no part,
    so the answer is the same whatever state the websockets are in. When
    the websocket of the session cannot be sent to, the first send of the
    request fails and unbinds the session, after which every event of the
    request is dropped: nothing is sent to any websocket, the session's
    connection is removed and the other connections are kept, and the
    agent is still run. *)
Theorem chat_answer_ignores_delivery (message : gmap string string) (w : World)
    (session_id : string) (agent_manager : AgentManager.t)
    (g : gmap nat Socket -> gmap nat Socket) :
  accepted message w session_id ->
  chat_sessions w !! session_id = Some agent_manager ->
  fst (chat message w) = Ok (chat_answer message w agent_manager) /\
  fst (chat message (with_sockets g w)) = fst (chat message w) /\
  (dead w session_id ->
   sockets (snd (chat message w)) = sockets w /\
   active_connections (snd (chat message w))
   = delete session_id (active_connections w)).
Proof.
  intros Hacc Ham. split; [exact (chat_answer_eq _ _ _ _ Hacc Ham)|]. split.
  - rewrite (chat_answer_eq _ _ _ _ Hacc Ham).
    now rewrite (chat_answer_eq message (with_sockets g w) session_id agent_manager).
  - intros Hdead. pose proof Hacc as (Hsid & Htruthy & _).
    unfold chat, try_except. rewrite (chat_body_accepted _ _ _ _ Hacc Ham).
    set (w0 := with_uuid_count S w).
    set (mid := uuid4 (uuid_count w)).
    set (provider := default EmptyString (message !! "provider")).
    set (model := default EmptyString (message !! "model")).
    assert (Hdead0 : dead w0 session_id) by exact Hdead.
    match goal with
    | |- sockets (snd ?x) = _ /\ _ => remember x as out eqn:Hout
    end.
    unfold serve in Hout. unfold mbind at 1 in Hout. unfold M_bind at 1 in Hout.
    destruct (create_provider (environ w0) provider model) as [made|e] eqn:Hmade.
    + rewrite (start_request_dead _ _ _ _ _ _ _ _ Hdead0 Hmade) in Hout.
      set (l := fresh (dom (providers w0))) in Hout.
      set (am := AgentManager.set_llm_provider agent_manager l) in Hout.
      set (w2 := with_active_connections _ _) in Hout.
      assert (Hu2 : forall f, active_connections (with_active_requests f w2)
                              !! session_id = None)
        by (intros f; simpl; apply lookup_delete_eq).
      destruct (message !! "message") as [request|].
      * unfold mbind at 1 in Hout. unfold M_bind at 1 in Hout.
        rewrite try_finally_release_eq in Hout.
        rewrite (relay_response_unbound am message session_id mid _ (Hu2 _))
          in Hout.
        cbn [fst snd] in Hout.
        rewrite (release_unbound session_id _ (Hu2 _)) in Hout.
        cbn [snd] in Hout.
        destruct (relay_outcome am message) as [[]|e].
        -- subst out. now split.
        -- rewrite (chat_handler_unbound _ _ _ _ Hsid Htruthy) in Hout
             by (simpl; apply lookup_delete_eq).
           subst out. now split.
      * rewrite (chat_handler_unbound _ _ _ _ Hsid Htruthy) in Hout
          by (simpl; apply lookup_delete_eq).
        subst out. now split.
    + assert (Hstart : start_request message agent_manager session_id mid
                         provider model w0 = (Raise e, w0)).
      { unfold start_request, gets, new_provider, mbind, M_bind.
        now rewrite Hmade. }
      rewrite Hstart, (chat_handler_dead _ _ _ _ Hsid Htruthy Hdead0) in Hout.
      subst out. now split.
Qed.

End Delivery.

Lemma chat_answer_ignores_delivery_witness :
  fst (App.chat (H := Examples.runtime_hello) Examples.request0 Examples.world_dead)
    = Ok App.Success /\
  App.sockets
    (snd (App.chat (H := Examples.runtime_hello) Examples.request0
            Examples.world_dead))
    = App.sockets Examples.world_dead /\
  App.active_connections
    (snd (App.chat (H := Examples.runtime_hello) Examples.request0
            Examples.world_dead)) !! "s1" = None.
Proof.
  assert (Hacc : accepted Examples.request0 Examples.world_dead "s1")
    by (repeat split; eexists; reflexivity).
  assert (Hdead : dead Examples.world_dead "s1").
  { exists Examples.connection0. split; [reflexivity|].
    intros s Hs. injection Hs as <-. reflexivity. }
  destruct (chat_answer_ignores_delivery (H := Examples.runtime_hello)
              Examples.request0 Examples.world_dead "s1" Examples.manager0
              (fun m => m) Hacc eq_refl) as (Hanswer & _ & Hstate).
  destruct (Hstate Hdead) as [Hsockets Hconnections].
  split; [exact Hanswer|]. split; [exact Hsockets|].
  rewrite Hconnections. apply lookup_delete_eq.
Defined.

(** ** The endpoints that call other services *)

Section ServiceEndpoints.
Context `{Services}.
Import AppServices.

Lemma filter_sublist {A} (f : A -> bool) (l : list A) :
  List.filter f l `sublist_of` l.
Proof.
  induction l as [|x l IH]; simpl; [constructor|].
  destruct (f x); now constructor.
Qed.

Lemma fmap_fst_diag {A} (l : list A) : (map (fun i => (i, i)) l).*1 = l.
Proof.
  induction l as [|x l IH]; [reflexivity|].
  change (x :: (map (fun i => (i, i)) l).*1 = x :: l). now rewrite IH.
Qed.

(** X18. [get_models] by its cases; it never raises. A provider name
    other than the four lower-case ones is answered with the error
    "Unsupported provider: " + name, and these are exactly the names the
    provider selection of [chat] refuses with the same message. "deepseek"
    is answered by a fixed list of two models, without any call.
    "anthropic" without a non-empty [ANTHROPIC_API_KEY] is answered with
    an error before any call. "ollama" whose service answers with a
    status that is not ok is answered [null], not an error. For "openai"
    the answer lists, in the order of the service and with the id as the
    name, exactly the models whose id starts with "gpt-4" or "gpt-3.5";
    an error of the service is answered with its message. *)
Theorem get_models_cases (env : gmap string string) (provider model : string)
    (response : TagsResponse) (ids : list string) (e : exn)
    (ident name : string) :
  (provider ∉ ["ollama"; "openai"; "anthropic"; "deepseek"] ->
   get_models env provider = ModelsError ("Unsupported provider: " +:+ provider) /\
   App.create_provider env provider model
   = Raise (ValueError ("Unsupported provider: " +:+ provider))) /\
  get_models env "deepseek"
  = ModelList [("deepseek-coder", "DeepSeek Coder");
               ("deepseek-chat", "DeepSeek Chat")] /\
  (truthy_opt (env !! "ANTHROPIC_API_KEY") = false ->
   get_models env "anthropic"
   = ModelsError "ANTHROPIC_API_KEY not found in environment variables") /\
  (requests_get_tags = Ok response -> tags_ok response = false ->
   get_models env "ollama" = ModelsNull) /\
  (openai_models_list = Ok ids ->
   exists models,
     get_models env "openai" = ModelList models /\
     models.*1 `sublist_of` ids /\
     ((ident, name) ∈ models <->
      ident = name /\ ident ∈ ids /\
      (String.prefix "gpt-4" ident = true \/
       String.prefix "gpt-3.5" ident = true))) /\
  (openai_models_list = Raise e ->
   get_models env "openai" = ModelsError (str_exn e)).
Proof.
  split; [|split; [|split; [|split; [|split]]]].
  - intros Hnotin.
    assert (Hne : forall s, s ∈ ["ollama"; "openai"; "anthropic"; "deepseek"] ->
                  String.eqb provider s = false).
    { intros s Hs. apply string_eqb_false. intros ->. now apply Hnotin. }
    unfold get_models, App.create_provider.
    rewrite !Hne by repeat constructor. now split.
  - reflexivity.
  - intros Hkey. unfold get_models. simpl. now rewrite Hkey.
  - intros Hresponse Hok. unfold get_models. simpl.
    now rewrite Hresponse; simpl; rewrite Hok.
  - intros Hids. eexists. unfold get_models. simpl. rewrite Hids. simpl.
    split; [reflexivity|]. split.
    + rewrite fmap_fst_diag. apply filter_sublist.
    + rewrite list_elem_of_fmap. split.
      * intros (i & Heq & Hi). injection Heq as -> ->.
        apply list_elem_of_In, filter_In in Hi as [Hi Hp].
        split; [reflexivity|]. split; [now apply list_elem_of_In|].
        unfold startswith_any in Hp. simpl in Hp.
        rewrite orb_false_r in Hp. now apply orb_true_iff in Hp.
      * intros (-> & Hi & Hp). exists name. split; [reflexivity|].
        apply list_elem_of_In, filter_In. split; [now apply list_elem_of_In|].
        unfold startswith_any. simpl. rewrite orb_false_r.
        now apply orb_true_iff.
  - intros Hraise. unfold get_models. simpl. now rewrite Hraise.
Qed.

(** X19. The checks of [generate_image] and of [web_search]; neither
    endpoint raises. [generate_image] checks the prompt, then the size,
    then the provider: a request without a non-empty prompt is answered
    "Prompt is required" whatever else it holds; with a prompt, a size
    outside the three supported ones is answered with the list of these,
    whatever the provider; with a prompt and a supported size, a provider
    other than "openai" (none at all is formatted as None) is answered as
    unsupported. Only then is the service called, with the prompt and the
    size; the answer is the url of the first image, or the message of the
    error. A request without a size is treated as one for 1024x1024.
    [web_search] answers an error without a non-empty query and an empty
    list of results otherwise: it performs no search. *)
Theorem generate_image_checks (request : gmap string string) (prompt : string) :
  let size := default "1024x1024" (request !! "size") in
  (truthy_opt (request !! "prompt") = false ->
   generate_image request = ImageError "Prompt is required") /\
  (truthy_opt (request !! "prompt") = true -> size ∉ valid_sizes ->
   generate_image request
   = ImageError "Invalid size. Supported sizes are: 256x256, 512x512, 1024x1024") /\
  (truthy_opt (request !! "prompt") = true -> size ∈ valid_sizes ->
   request !! "provider" <> Some "openai" ->
   generate_image request
   = ImageError ("Unsupported provider for image generation: "
                 +:+ format_opt (request !! "provider"))) /\
  (request !! "prompt" = Some prompt -> truthy prompt = true ->
   size ∈ valid_sizes -> request !! "provider" = Some "openai" ->
   generate_image request
   = match images_generate prompt size with
     | Ok (url :: _) => ImageUrl url
     | Ok [] => ImageError "list index out of range"
     | Raise e => ImageError (str_exn e)
     end) /\
  (request !! "size" = None ->
   generate_image request = generate_image (<["size" := "1024x1024"]> request)) /\
  web_search request
  = if truthy_opt (request !! "query") then SearchResults []
    else SearchError "Search query is required".
Proof.
  intros size. split; [|split; [|split; [|split; [|split]]]].
  - intros Hprompt. unfold generate_image. now rewrite Hprompt.
  - intros Hprompt Hsize. unfold generate_image. rewrite Hprompt. simpl negb.
    cbv iota. fold size. now rewrite bool_decide_eq_false_2 by exact Hsize.
  - intros Hprompt Hsize Hprovider. unfold generate_image. rewrite Hprompt.
    simpl negb. cbv iota. fold size.
    rewrite bool_decide_eq_true_2 by exact Hsize. simpl negb. cbv iota.
    now rewrite bool_decide_eq_false_2 by exact Hprovider.
  - intros Hprompt Htruthy Hsize Hprovider. unfold generate_image.
    rewrite Hprompt, Hprovider. simpl truthy_opt. rewrite Htruthy.
    simpl negb. cbv iota. fold size.
    rewrite bool_decide_eq_true_2 by exact Hsize. simpl negb. cbv iota.
    rewrite bool_decide_eq_true_2 by reflexivity. simpl default.
    destruct (images_generate prompt size) as [[|url rest]|e]; reflexivity.
  - intros Hsize. unfold generate_image.
    rewrite lookup_insert_eq, Hsize.
    rewrite !lookup_insert_ne by discriminate. reflexivity.
  - unfold web_search. now destruct (truthy_opt (request !! "query")).
Qed.

End ServiceEndpoints.

Lemma get_models_cases_witness :
  AppServices.get_models (H := Examples.services_down) ∅ "OpenAI"
    = AppServices.ModelsError "Unsupported provider: OpenAI" /\
  AppServices.get_models (H := Examples.services_down) ∅ "anthropic"
    = AppServices.ModelsError "ANTHROPIC_API_KEY not found in environment variables" /\
  AppServices.get_models (H := Examples.services_up) ∅ "ollama"
    = AppServices.ModelsNull /\
  AppServices.get_models (H := Examples.services_up) ∅ "openai"
    = AppServices.ModelList [("gpt-4o", "gpt-4o"); ("gpt-3.5-turbo", "gpt-3.5-turbo")] /\
  AppServices.get_models (H := Examples.services_down) ∅ "openai"
    = AppServices.ModelsError "connection refused".
Proof.
  split; [|split; [|split; [|split]]].
  - destruct (get_models_cases (H := Examples.services_down) ∅ "OpenAI" "gpt-4"
                {| tags_ok := false; tags_names := Ok [] |} [] IndexError
                "gpt-4o" "gpt-4o") as (Hother & _).
    apply Hother. intros Hin. repeat (apply elem_of_cons in Hin as [Hin|Hin];
      [discriminate|]). now apply elem_of_nil in Hin.
  - destruct (get_models_cases (H := Examples.services_down) ∅ "OpenAI" "gpt-4"
                {| tags_ok := false; tags_names := Ok [] |} [] IndexError
                "gpt-4o" "gpt-4o") as (_ & _ & Hkey & _).
    apply Hkey. reflexivity.
  - destruct (get_models_cases (H := Examples.services_up) ∅ "OpenAI" "gpt-4"
                {| tags_ok := false; tags_names := Raise (KeyError "models") |}
                [] IndexError "gpt-4o" "gpt-4o") as (_ & _ & _ & Hnull & _).
    apply Hnull; reflexivity.
  - destruct (get_models_cases (H := Examples.services_up) ∅ "OpenAI" "gpt-4"
                {| tags_ok := false; tags_names := Ok [] |}
                ["gpt-4o"; "whisper-1"; "gpt-3.5-turbo"; "gpt-3"] IndexError
                "gpt-4o" "gpt-4o") as (_ & _ & _ & _ & Hopenai & _).
    destruct (Hopenai eq_refl) as (models & Hmodels & _). reflexivity.
  - destruct (get_models_cases (H := Examples.services_down) ∅ "OpenAI" "gpt-4"
                {| tags_ok := false; tags_names := Ok [] |} []
                (TransportError "connection refused") "gpt-4o" "gpt-4o")
      as (_ & _ & _ & _ & _ & Hraise).
    apply Hraise. reflexivity.
Defined.

Lemma generate_image_checks_witness :
  AppServices.generate_image (H := Examples.services_up)
    {[ "provider" := "openai" ]}
    = AppServices.ImageError "Prompt is required" /\
  AppServices.generate_image (H := Examples.services_up)
    (<["prompt" := "a cat"]> {[ "size" := "640x480" ]})
    = AppServices.ImageError
        "Invalid size. Supported sizes are: 256x256, 512x512, 1024x1024" /\
  AppServices.generate_image (H := Examples.services_up) {[ "prompt" := "a cat" ]}
    = AppServices.ImageError "Unsupported provider for image generation: None" /\
  AppServices.generate_image (H := Examples.services_up)
    (<["prompt" := "a cat"]> {[ "provider" := "openai" ]})
    = AppServices.ImageUrl "https://images.example/1.png".
Proof.
  split; [|split; [|split]].
  - destruct (generate_image_checks (H := Examples.services_up)
                {[ "provider" := "openai" ]} "a cat") as (Hprompt & _).
    apply Hprompt. reflexivity.
  - destruct (generate_image_checks (H := Examples.services_up)
                (<["prompt" := "a cat"]> {[ "size" := "640x480" ]}) "a cat")
      as (_ & Hsize & _).
    apply Hsize; [reflexivity|]. intros Hin.
    repeat (apply elem_of_cons in Hin as [Hin|Hin]; [discriminate|]).
    now apply elem_of_nil in Hin.
  - destruct (generate_image_checks (H := Examples.services_up)
                {[ "prompt" := "a cat" ]} "a cat") as (_ & _ & Hprovider & _).
    apply Hprovider; [reflexivity | repeat constructor | discriminate].
  - destruct (generate_image_checks (H := Examples.services_up)
                (<["prompt" := "a cat"]> {[ "provider" := "openai" ]}) "a cat")
      as (_ & _ & _ & Hcall & _).
    rewrite Hcall; [reflexivity | reflexivity | reflexivity
                    | repeat constructor | reflexivity].
Defined.

(** ** [generate_response] and [get_tool_call] *)

Section GenerateResponse.
Context `{Backends} `{Completions}.
Import Llm.

(** X20. Of the four [generate_response] only DeepSeek's attaches a
    transport handle. The OpenAI, Anthropic and Ollama methods leave the
    object as it was. DeepSeek's stores the response object as soon as
    the post has returned, before the status is checked: the response is
    attached whether the call then succeeds or raises for the status,
    and it replaces one attached earlier without closing it. When the
    status is no error status, a [cancel_request] that follows closes
    the response and empties the slot. When it is one, from 400 to 599,
    [generate_response] raises for the status, and the response is
    falsy: a [cancel_request] that follows neither closes it nor empties
    the slot. When the post itself raises, the object is left as it
    was. *)
Theorem generate_response_handle (self : Provider) (messages : list Message)
    (system_prompt : option string) (stream : bool) (h : nat)
    (response : StreamResponse) (e : exn) (closed : gset nat) :
  let self' := fst (Generate.generate_response self messages system_prompt stream) in
  let url := default EmptyString (base_url self) +:+ "/chat/completions" in
  let body := DeepSeekStream (model_name self)
                (Generate.with_system_prompt system_prompt messages) stream in
  (cls self <> DeepSeek -> self' = self) /\
  (cls self = DeepSeek -> post_stream url body = Ok (h, response) ->
   _current_request self'
     = Some {| handle := h; handle_status := stream_status response |} /\
   clear_current_request self' = clear_current_request self /\
   (~ 400 <= stream_status response < 600 ->
    cancel_request self' closed = (clear_current_request self, {[h]} ∪ closed)) /\
   (400 <= stream_status response < 600 ->
    snd (Generate.generate_response self messages system_prompt stream)
      = Raise (HTTPError (stream_status response) "HTTP error") /\
    cancel_request self' closed = (self', closed))) /\
  (cls self = DeepSeek -> post_stream url body = Raise e ->
   Generate.generate_response self messages system_prompt stream = (self, Raise e)).
Proof.
  intros self' url body. unfold self', Generate.generate_response.
  split; [|split].
  - intros Hcls. destruct (cls self); [reflexivity..|congruence].
  - intros Hcls Hpost. rewrite Hcls.
    unfold Generate.DeepSeekProvider.generate_response.
    fold url. fold body. rewrite Hpost. cbn [fst snd].
    split; [reflexivity|]. split; [reflexivity|]. split.
    + intros Hstatus. rewrite cancel_request_unfold. cbn [_current_request].
      now rewrite (proj2 (handle_ok_status
                            {| handle := h;
                               handle_status := stream_status response |}) Hstatus).
    + intros Hstatus. split.
      * destruct Hstatus as [Hlo Hhi].
        unfold raise_for_status. cbn [status_code].
        apply Nat.leb_le in Hlo. apply Nat.ltb_lt in Hhi.
        now rewrite Hlo, Hhi.
      * rewrite cancel_request_unfold. cbn [_current_request].
        destruct (handle_ok _) eqn:Htrue; [|reflexivity].
        now apply (proj1 (handle_ok_status _)) in Htrue.
  - intros Hcls Hpost. rewrite Hcls.
    unfold Generate.DeepSeekProvider.generate_response.
    fold url. fold body. now rewrite Hpost.
Qed.

Lemma convert_loop_system (system_prompt : string) (messages : list Message) :
  convert_loop EmptyString
    (<["role" := "system"]> (<["content" := system_prompt]> ∅) :: messages)
  = convert_loop ("System: " +:+ system_prompt +:+ PyStr.nl +:+ PyStr.nl) messages.
Proof. reflexivity. Qed.

Lemma append_message_prefix (prompt : string) (msg : Message) (p : string) :
  append_message prompt msg = Ok p -> exists text, p = prompt +:+ text.
Proof.
  unfold append_message, getitem.
  destruct (msg !! "role") as [role|]; [|discriminate].
  destruct (msg !! "content") as [content|]; [|discriminate].
  cbn [rbind].
  repeat match goal with
  | |- context [if ?b then _ else _] => destruct b
  end; intros [= <-]; try (eexists; rewrite ?app_assoc_str; reflexivity).
  exists EmptyString. now rewrite app_empty_r.
Qed.

Lemma convert_loop_prefix (messages : list Message) (prompt p : string) :
  convert_loop prompt messages = Ok p -> exists text, p = prompt +:+ text.
Proof.
  revert prompt. induction messages as [|msg rest IH]; intros prompt; simpl.
  - intros [= <-]. exists EmptyString. now rewrite app_empty_r.
  - destruct (append_message prompt msg) as [p'|] eqn:Hmsg; [|discriminate].
    cbn [rbind]. intros Hrest.
    destruct (append_message_prefix _ _ _ Hmsg) as [t1 ->].
    destruct (IH _ Hrest) as [t2 ->].
    exists (t1 +:+ t2). now rewrite app_assoc_str.
Qed.

(** Stripping leaves the label of a system prompt in its place, up to the
    space that ends it. *)
Lemma strip_system (text : string) :
  PyStr.strip ("System: " +:+ text) = "System:" +:+ PyStr.rstrip (" " +:+ text).
Proof. reflexivity. Qed.

(** X21. The system prompt of [generate_response]. A system prompt that
    is [None] or empty changes nothing. Any other is put before the
    messages as a message of role system, so that the call is the one
    made for the longer conversation without a system prompt: the OpenAI
    method sends it first with role system, and the prompt of the
    Anthropic and Ollama methods is what stripping leaves of the text
    that begins with "System: ", the system prompt and a blank line, and
    goes on with the contributions of the messages. That prompt begins
    with "System:"; the space after the colon, and the end of the system
    prompt, are stripped with the rest when only whitespace follows
    them. *)
Theorem generate_response_system_prompt (self : Provider)
    (messages : list Message) (system_prompt : string) (stream : bool) :
  let system_message : Message :=
    <["role" := "system"]> (<["content" := system_prompt]> ∅) in
  let sent := Generate.with_system_prompt (Some system_prompt) messages in
  Generate.generate_response self messages None stream
  = Generate.generate_response self messages (Some EmptyString) stream /\
  (PyStr.truthy system_prompt = true ->
   Generate.generate_response self messages (Some system_prompt) stream
   = Generate.generate_response self (system_message :: messages) None stream /\
   map OpenAIProvider._map_role_to_openai sent
   = system_message :: map OpenAIProvider._map_role_to_openai messages /\
   AnthropicProvider._convert_messages_to_prompt sent
   = rbind (convert_loop ("System: " +:+ system_prompt +:+ PyStr.nl +:+ PyStr.nl)
              messages) (fun prompt => Ok (PyStr.strip prompt)) /\
   OllamaProvider._convert_messages_to_prompt sent
   = AnthropicProvider._convert_messages_to_prompt sent /\
   (Forall well_keyed messages ->
    AnthropicProvider._convert_messages_to_prompt sent
    = Ok (PyStr.strip ("System: " +:+ system_prompt +:+ PyStr.nl +:+ PyStr.nl
                       +:+ join (map rendered messages)))) /\
   (forall prompt,
      AnthropicProvider._convert_messages_to_prompt sent = Ok prompt ->
      exists text, prompt = "System:" +:+ text)).
Proof.
  intros system_message sent. split; [reflexivity|]. intros Htruthy.
  assert (Hwith : sent = system_message :: messages).
  { unfold sent, Generate.with_system_prompt. simpl. now rewrite Htruthy. }
  assert (Hprompt : AnthropicProvider._convert_messages_to_prompt sent
            = rbind (convert_loop
                       ("System: " +:+ system_prompt +:+ PyStr.nl +:+ PyStr.nl)
                       messages) (fun prompt => Ok (PyStr.strip prompt))).
  { rewrite Hwith. unfold AnthropicProvider._convert_messages_to_prompt.
    unfold system_message. now rewrite convert_loop_system. }
  split; [|split; [|split; [|split; [|split]]]].
  - unfold Generate.generate_response,
      Generate.OpenAIProvider.generate_response,
      Generate.AnthropicProvider.generate_response,
      Generate.OllamaProvider.generate_response,
      Generate.DeepSeekProvider.generate_response.
    fold sent. rewrite Hwith. reflexivity.
  - rewrite Hwith. reflexivity.
  - exact Hprompt.
  - reflexivity.
  - intros Hall. rewrite Hprompt, (convert_loop_join _ _ Hall). cbn [rbind].
    now rewrite !app_assoc_str.
  - intros prompt. rewrite Hprompt.
    destruct (convert_loop _ messages) as [p|] eqn:Hloop; [|discriminate].
    cbn [rbind]. intros [= <-].
    destruct (convert_loop_prefix _ _ _ Hloop) as [text ->].
    rewrite !app_assoc_str, strip_system. eauto.
Qed.

(** X22. Errors of [generate_response] and [get_tool_call]. The OpenAI
    methods catch: [generate_response] always returns, an error of the
    service or an answer without choices coming back as the explanatory
    string of [_handle_api_error], a stream as the stream object; and
    [get_tool_call] always returns: when the service answers, the first
    tool call of the first choice, or [None] when that choice has no
    tool call or when there is no choice; and [None] when the service
    raised. The Anthropic, Ollama and DeepSeek [generate_response] have
    no handler: an error of their service leaves the method as that
    exception. Anthropic's [get_tool_call] does not look at the tools it
    is given: it is the plain call of the adapter with the stop
    sequences. *)
Theorem generate_response_errors (self : Provider) (messages : list Message)
    (system_prompt : option string) (stream : bool) (e : exn)
    (available_tools other_tools : list Tool) (stop_sequences : list string)
    (prompt : string) :
  let sent := Generate.with_system_prompt system_prompt messages in
  let mapped := map OpenAIProvider._map_role_to_openai sent in
  ((exists v, Generate.OpenAIProvider.generate_response self messages
                system_prompt stream = Ok v) /\
   (completions_create (model_name self) mapped stream = Raise e ->
    Generate.OpenAIProvider.generate_response self messages system_prompt stream
    = Ok (Generate.GenText
            (OpenAIProvider._handle_api_error e "generate_response"))) /\
   (forall h contents,
      completions_create (model_name self) mapped stream = Ok (h, contents) ->
      Generate.OpenAIProvider.generate_response self messages system_prompt stream
      = Ok (if stream then Generate.GenObject h
            else match contents with
                 | content :: _ => Generate.GenText content
                 | [] => Generate.GenText
                           (OpenAIProvider._handle_api_error IndexError
                              "generate_response")
                 end))) /\
  ((exists v, Generate.OpenAIProvider.get_tool_call self messages available_tools
                stop_sequences = Ok v) /\
   (completions_create_tools (model_name self)
      (map OpenAIProvider._map_role_to_openai messages) available_tools
      stop_sequences = Raise e ->
    Generate.OpenAIProvider.get_tool_call self messages available_tools
      stop_sequences = Ok None) /\
   (forall choices,
      completions_create_tools (model_name self)
        (map OpenAIProvider._map_role_to_openai messages) available_tools
        stop_sequences = Ok choices ->
      Generate.OpenAIProvider.get_tool_call self messages available_tools
        stop_sequences
      = Ok (match choices with
            | (tool_call :: _) :: _ => Some tool_call
            | _ => None
            end))) /\
  (AnthropicProvider._convert_messages_to_prompt sent = Ok prompt ->
   (if stream then messages_create_chunks (model_name self) prompt = Raise e
    else messages_create_whole (model_name self) prompt = Raise e) ->
   Generate.AnthropicProvider.generate_response self messages system_prompt stream
   = Raise e) /\
  (OllamaProvider._convert_messages_to_prompt sent = Ok prompt ->
   post_stream (default EmptyString (base_url self) +:+ "/api/generate")
     (OllamaStream (model_name self) prompt stream) = Raise e ->
   Generate.OllamaProvider.generate_response self messages system_prompt stream
   = Raise e) /\
  (post_stream (default EmptyString (base_url self) +:+ "/chat/completions")
     (DeepSeekStream (model_name self) sent stream) = Raise e ->
   snd (Generate.DeepSeekProvider.generate_response self messages system_prompt
          stream) = Raise e) /\
  Generate.AnthropicProvider.get_tool_call self messages available_tools
    stop_sequences
  = AnthropicProvider.__call__ self messages (Some stop_sequences) /\
  Generate.AnthropicProvider.get_tool_call self messages available_tools
    stop_sequences
  = Generate.AnthropicProvider.get_tool_call self messages other_tools
      stop_sequences.
Proof.
  intros sent mapped. split; [|split; [|split; [|split; [|split; [|split]]]]].
  - unfold Generate.OpenAIProvider.generate_response. fold sent. fold mapped.
    split; [|split].
    + destruct (rbind _ _); eauto.
    + intros ->. reflexivity.
    + intros h contents ->. cbn [rbind].
      destruct stream; [reflexivity|]. now destruct contents.
  - unfold Generate.OpenAIProvider.get_tool_call. split; [|split].
    + destruct (rbind _ _); eauto.
    + intros ->. reflexivity.
    + intros choices ->. cbn [rbind].
      destruct choices as [|[|tool_call tool_calls] others]; reflexivity.
  - intros Hprompt Hraise.
    unfold Generate.AnthropicProvider.generate_response. fold sent.
    rewrite Hprompt. cbn [rbind]. destruct stream; now rewrite Hraise.
  - intros Hprompt Hraise.
    unfold Generate.OllamaProvider.generate_response. fold sent.
    rewrite Hprompt. cbn [rbind]. now rewrite Hraise.
  - intros Hraise.
    unfold Generate.DeepSeekProvider.generate_response. fold sent.
    now rewrite Hraise.
  - reflexivity.
  - reflexivity.
Qed.

(** The loop of a generator whose body returns on every line ends
    normally, having yielded what the lines gave. *)
Lemma for_lines_ok (body : Line -> result (option Json)) (lines : list Line) :
  Forall (fun line => exists yielded, body line = Ok yielded) lines ->
  Generate.for_lines body lines
  = (omap (fun line => match body line with
                       | Ok yielded => yielded
                       | Raise _ => None
                       end) lines, None).
Proof.
  induction 1 as [|line rest [yielded Hline] _ IH]; [reflexivity|].
  cbn [Generate.for_lines omap list_omap]. rewrite Hline, IH.
  now destruct yielded.
Qed.

(** The first line on which the body raises stops the generator, after
    what the lines before it gave. *)
Lemma for_lines_stop (body : Line -> result (option Json))
    (lines more : list Line) (line : Line) (e : exn) :
  Forall (fun line => exists yielded, body line = Ok yielded) lines ->
  body line = Raise e ->
  Generate.for_lines body (lines ++ line :: more)
  = (fst (Generate.for_lines body lines), Some e).
Proof.
  intros Hlines Hline.
  induction Hlines as [|l rest [yielded Hl] _ IH]; cbn [app Generate.for_lines].
  - now rewrite Hline.
  - rewrite Hl, IH. destruct (Generate.for_lines body rest) as [items failure].
    now destruct yielded.
Qed.

Lemma for_lines_truthy (body : Line -> result (option Json)) (lines : list Line) :
  (forall line item, body line = Ok (Some item) -> PyJson.truthy item = true) ->
  Forall (fun item => PyJson.truthy item = true)
    (fst (Generate.for_lines body lines)).
Proof.
  intros Hbody. induction lines as [|line rest IH]; cbn [Generate.for_lines].
  - constructor.
  - destruct (body line) as [[item|]|e] eqn:Hline; [| |constructor].
    + destruct (Generate.for_lines body rest) as [items failure].
      constructor; [now apply (Hbody line) | exact IH].
    + now destruct (Generate.for_lines body rest) as [items failure].
Qed.

Lemma get_not_object (value : Json) (key : string) (fallback : Json) :
  (forall fields, value <> JObject fields) ->
  PyJson.get value key fallback
  = Raise (AttributeError ("'" +:+ PyJson.type_name value
                           +:+ "' object has no attribute 'get'")).
Proof. intros Hvalue. destruct value; try reflexivity. now destruct (Hvalue fields). Qed.

(** X23. The generators of the streamed answers, run to their end: what
    [generate_response] returns for a stream when the service has
    answered, with a status that is no error status for Ollama and
    DeepSeek, is the generator over the lines, or the chunks, of the
    answer. The
    generators of the Ollama and DeepSeek methods skip the empty lines
    and yield no falsy value. As long as the body of the loop returns,
    the generator goes on, and it ends normally when it does so on every
    line; the first line on which the body raises stops the generator
    with that exception, after what the lines before it gave. The body
    raises [ValueError] on a line that does not parse, and
    [AttributeError] on a line that parses to a value that is no object.
    On an object, Ollama's yields the value under "response" when it is
    truthy. DeepSeek's yields nothing when "choices" is absent or falsy;
    when it is a list whose first item is an object, it yields the
    "content" of the "delta" of that object when truthy, nothing when
    there is no "delta", and raises [AttributeError] when the "delta" is
    no object, null for instance. The generator of the Anthropic method
    yields the first text of each chunk and stops with [IndexError] at a
    chunk that has none. *)
Theorem generators_yield (lines more : list Line) (line : Line) (e : exn)
    (msg : string) (value delta_value : Json)
    (fields choice delta : gmap string Json) (others : list Json)
    (chunks later : list (list string))
    (self : Provider) (messages : list Message) (system_prompt : option string)
    (prompt : string) (h : nat) (streamed : StreamResponse) :
  let ollama := Generate.OllamaProvider.generate_body in
  let deepseek := Generate.DeepSeekProvider.generate_body in
  let given (body : Line -> result (option Json)) (line : Line) :=
    match body line with Ok yielded => yielded | Raise _ => None end in
  let truthy_only (v : option Json) :=
    match v with
    | Some v => if PyJson.truthy v then Some v else None
    | None => None
    end in
  let no_get (v : Json) :=
    AttributeError ("'" +:+ PyJson.type_name v +:+ "' object has no attribute 'get'") in
  let sent := Generate.with_system_prompt system_prompt messages in
  let iterator (run : list Json * option exn) := Generate.GenIter (fst run) (snd run) in
  (~ 400 <= stream_status streamed < 600 ->
   (OllamaProvider._convert_messages_to_prompt sent = Ok prompt ->
    post_stream (default EmptyString (base_url self) +:+ "/api/generate")
      (OllamaStream (model_name self) prompt true) = Ok (h, streamed) ->
    Generate.OllamaProvider.generate_response self messages system_prompt true
    = Ok (iterator (Generate.OllamaProvider.generate (stream_lines streamed)))) /\
   (post_stream (default EmptyString (base_url self) +:+ "/chat/completions")
      (DeepSeekStream (model_name self) sent true) = Ok (h, streamed) ->
    snd (Generate.DeepSeekProvider.generate_response self messages system_prompt
           true)
    = Ok (iterator (Generate.DeepSeekProvider.generate (stream_lines streamed))))) /\
  (AnthropicProvider._convert_messages_to_prompt sent = Ok prompt ->
   messages_create_chunks (model_name self) prompt = Ok chunks ->
   Generate.AnthropicProvider.generate_response self messages system_prompt true
   = Ok (Generate.GenIter (map JString (fst (Generate.first_texts chunks)))
           (snd (Generate.first_texts chunks)))) /\
  (Forall (fun item => PyJson.truthy item = true)
     (fst (Generate.OllamaProvider.generate lines)) /\
   Forall (fun item => PyJson.truthy item = true)
     (fst (Generate.DeepSeekProvider.generate lines))) /\
  (Forall (fun line => exists yielded, ollama line = Ok yielded) lines ->
   Generate.OllamaProvider.generate lines = (omap (given ollama) lines, None) /\
   (ollama line = Raise e ->
    Generate.OllamaProvider.generate (lines ++ line :: more)
    = (omap (given ollama) lines, Some e))) /\
  (Forall (fun line => exists yielded, deepseek line = Ok yielded) lines ->
   Generate.DeepSeekProvider.generate lines = (omap (given deepseek) lines, None) /\
   (deepseek line = Raise e ->
    Generate.DeepSeekProvider.generate (lines ++ line :: more)
    = (omap (given deepseek) lines, Some e))) /\
  (ollama BlankLine = Ok None /\ deepseek BlankLine = Ok None /\
   ollama (BadLine msg) = Raise (ValueError msg) /\
   deepseek (BadLine msg) = Raise (ValueError msg)) /\
  ((forall fields, value <> JObject fields) ->
   ollama (JsonLine value) = Raise (no_get value) /\
   deepseek (JsonLine value) = Raise (no_get value)) /\
  ollama (JsonLine (JObject fields)) = Ok (truthy_only (fields !! "response")) /\
  (PyJson.truthy (default JNull (fields !! "choices")) = false ->
   deepseek (JsonLine (JObject fields)) = Ok None) /\
  (fields !! "choices" = Some (JArray (JObject choice :: others)) ->
   (choice !! "delta" = None -> deepseek (JsonLine (JObject fields)) = Ok None) /\
   (choice !! "delta" = Some (JObject delta) ->
    deepseek (JsonLine (JObject fields)) = Ok (truthy_only (delta !! "content"))) /\
   (choice !! "delta" = Some delta_value ->
    (forall delta, delta_value <> JObject delta) ->
    deepseek (JsonLine (JObject fields)) = Raise (no_get delta_value))) /\
  (Forall (fun chunk => chunk <> []) chunks ->
   Generate.first_texts chunks = (omap head chunks, None) /\
   Generate.first_texts (chunks ++ [] :: later)
   = (omap head chunks, Some IndexError)).
Proof.
  intros ollama deepseek given truthy_only no_get sent iterator.
  subst ollama deepseek.
  split; [|split].
  { intros Hstatus.
    assert (Hok : raise_for_status
                    {| status_code := stream_status streamed;
                       answer := stream_answer streamed |} = Ok tt).
    { unfold raise_for_status. cbn [status_code].
      destruct (Nat.leb_spec 400 (stream_status streamed));
        destruct (Nat.ltb_spec (stream_status streamed) 600);
        try reflexivity. exfalso. apply Hstatus. lia. }
    split.
    - intros Hprompt Hpost.
      unfold Generate.OllamaProvider.generate_response. fold sent.
      rewrite Hprompt. cbn [rbind]. rewrite Hpost. cbn [rbind].
      rewrite Hok. cbn [rbind]. unfold iterator.
      now destruct (Generate.OllamaProvider.generate (stream_lines streamed)).
    - intros Hpost.
      unfold Generate.DeepSeekProvider.generate_response. fold sent.
      rewrite Hpost. cbn [snd]. rewrite Hok. cbn [rbind]. unfold iterator.
      now destruct (Generate.DeepSeekProvider.generate (stream_lines streamed)). }
  { intros Hprompt Hchunks.
    unfold Generate.AnthropicProvider.generate_response. fold sent.
    rewrite Hprompt. cbn [rbind]. rewrite Hchunks. cbn [rbind].
    now destruct (Generate.first_texts chunks). }
  split; [|split; [|split; [|split; [|split; [|split; [|split; [|split]]]]]]].
  - split; apply for_lines_truthy; intros l item.
    + unfold Generate.OllamaProvider.generate_body.
      destruct (Generate.line_truthy l); [|discriminate].
      destruct (Generate.loads l) as [chunk|]; [|discriminate]. cbn [rbind].
      destruct (PyJson.get chunk "response" JNull) as [response|]; [|discriminate].
      cbn [rbind]. destruct (PyJson.truthy response) eqn:Htruthy; [|discriminate].
      now intros [= <-].
    + unfold Generate.DeepSeekProvider.generate_body.
      destruct (Generate.line_truthy l); [|discriminate].
      destruct (Generate.loads l) as [data|]; [|discriminate]. cbn [rbind].
      destruct (PyJson.get data "choices" JNull) as [choices|]; [|discriminate].
      cbn [rbind]. destruct (PyJson.truthy choices); [|discriminate].
      destruct (PyJson.item0 choices) as [item0|]; [|discriminate]. cbn [rbind].
      destruct (PyJson.get item0 "delta" (JObject ∅)) as [d|]; [|discriminate].
      cbn [rbind].
      destruct (PyJson.get d "content" JNull) as [content|]; [|discriminate].
      cbn [rbind]. destruct (PyJson.truthy content) eqn:Htruthy; [|discriminate].
      now intros [= <-].
  - intros Hlines. unfold Generate.OllamaProvider.generate.
    pose proof (for_lines_ok _ _ Hlines) as Hok. split; [exact Hok|].
    intros Hline. rewrite (for_lines_stop _ _ more _ _ Hlines Hline).
    now rewrite Hok.
  - intros Hlines. unfold Generate.DeepSeekProvider.generate.
    pose proof (for_lines_ok _ _ Hlines) as Hok. split; [exact Hok|].
    intros Hline. rewrite (for_lines_stop _ _ more _ _ Hlines Hline).
    now rewrite Hok.
  - repeat split.
  - intros Hvalue. unfold Generate.OllamaProvider.generate_body,
      Generate.DeepSeekProvider.generate_body.
    cbn [Generate.line_truthy Generate.loads rbind].
    rewrite !(get_not_object _ _ _ Hvalue). now split.
  - unfold Generate.OllamaProvider.generate_body.
    cbn [Generate.line_truthy Generate.loads rbind PyJson.get].
    destruct (fields !! "response") as [response|]; unfold truthy_only; cbn [default from_option id];
      [|reflexivity].
    now destruct (PyJson.truthy response).
  - intros Hfalsy. unfold Generate.DeepSeekProvider.generate_body.
    cbn [Generate.line_truthy Generate.loads rbind PyJson.get].
    now rewrite Hfalsy.
  - intros Hchoices. unfold Generate.DeepSeekProvider.generate_body.
    cbn [Generate.line_truthy Generate.loads rbind PyJson.get].
    rewrite Hchoices.
    cbn [default from_option id PyJson.truthy length Nat.eqb negb PyJson.item0 rbind PyJson.get].
    split; [|split].
    + intros ->. reflexivity.
    + intros ->. cbn [default from_option id rbind PyJson.get].
      destruct (delta !! "content") as [content|]; unfold truthy_only; cbn [default from_option id];
        [|reflexivity].
      now destruct (PyJson.truthy content).
    + intros -> Hdelta. cbn [default from_option id rbind].
      now rewrite (get_not_object _ _ _ Hdelta).
  - intros Hchunks. split.
    + induction Hchunks as [|[|text texts] rest Hchunk _ IH];
        [reflexivity | congruence |].
      simpl. now rewrite IH.
    + induction Hchunks as [|[|text texts] rest Hchunk _ IH];
        [reflexivity | congruence |].
      simpl. simpl in IH. now rewrite IH.
Qed.

End GenerateResponse.

Lemma generate_response_handle_witness :
  let failed := fst (Generate.generate_response (H := Examples.completions0)
                       Examples.deepseek_streaming [Examples.hello] None false) in
  let served := fst (Generate.generate_response (H := Examples.completions_up)
                       Examples.deepseek_streaming [Examples.hello] None true) in
  (Llm._current_request failed
     = Some {| Llm.handle := 9; Llm.handle_status := 500 |} /\
   snd (Generate.generate_response (H := Examples.completions0)
          Examples.deepseek_streaming [Examples.hello] None false)
     = Raise (HTTPError 500 "HTTP error") /\
   Llm.cancel_request failed ∅ = (failed, ∅)) /\
  (Llm._current_request served
     = Some {| Llm.handle := 4; Llm.handle_status := 200 |} /\
   Llm.cancel_request served ∅
     = (Llm.clear_current_request Examples.deepseek_streaming, {[4]} ∪ ∅)) /\
  fst (Generate.generate_response (H := Examples.completions0)
         Examples.ollama0 [Examples.hello] None false) = Examples.ollama0.
Proof.
  intros failed served.
  destruct (generate_response_handle (H0 := Examples.completions0)
              Examples.deepseek_streaming [Examples.hello] None false 9
              {| stream_status := 500; stream_answer := None; stream_lines := [] |}
              IndexError ∅) as (_ & Hfailed & _).
  destruct (Hfailed eq_refl eq_refl) as (Hslot & _ & _ & Hstatus).
  destruct Hstatus as [Hraise Hcancel]; [simpl; lia|].
  split; [now split|].
  destruct (generate_response_handle (H0 := Examples.completions_up)
              Examples.deepseek_streaming [Examples.hello] None true 4
              {| stream_status := 200; stream_answer := Some "Hello";
                 stream_lines := [Examples.delta_line (JString "Hel"); BlankLine;
                                  Examples.delta_line (JString "lo")] |}
              IndexError ∅) as (_ & Hserved & _).
  destruct (Hserved eq_refl eq_refl) as (Hslot' & _ & Hcancel' & _).
  split; [split; [exact Hslot' | apply Hcancel'; simpl; lia]|].
  destruct (generate_response_handle (H0 := Examples.completions0)
              Examples.ollama0 [Examples.hello] None false 9
              {| stream_status := 500; stream_answer := None; stream_lines := [] |}
              IndexError ∅) as (Hother & _).
  apply Hother. discriminate.
Defined.

Lemma generate_response_system_prompt_witness :
  Llm.AnthropicProvider._convert_messages_to_prompt
    (Generate.with_system_prompt (Some "Be brief.") [Examples.hello])
  = Ok ("System: Be brief." +:+ PyStr.nl +:+ PyStr.nl
        +:+ "Human: Hello, how are you?") /\
  Llm.AnthropicProvider._convert_messages_to_prompt
    (Generate.with_system_prompt (Some "Be brief. ") [])
  = Ok "System: Be brief." /\
  Llm.AnthropicProvider._convert_messages_to_prompt
    (Generate.with_system_prompt (Some " ") [])
  = Ok "System:".
Proof.
  destruct (generate_response_system_prompt (H0 := Examples.completions0)
              (Examples.adapter Llm.Anthropic) [Examples.hello] "Be brief." false)
    as (_ & Hprompt).
  destruct (Hprompt eq_refl) as (_ & _ & Hanthropic & _).
  split; [rewrite Hanthropic; reflexivity|].
  assert (Hnil : Forall well_keyed []) by constructor.
  destruct (generate_response_system_prompt (H0 := Examples.completions0)
              (Examples.adapter Llm.Anthropic) [] "Be brief. " false)
    as (_ & Hbare).
  destruct (Hbare eq_refl) as (_ & _ & _ & _ & Hjoin & _).
  split; [rewrite (Hjoin Hnil); vm_compute; reflexivity|].
  destruct (generate_response_system_prompt (H0 := Examples.completions0)
              (Examples.adapter Llm.Anthropic) [] " " false)
    as (_ & Hspace).
  destruct (Hspace eq_refl) as (_ & _ & _ & _ & Hjoin' & _).
  rewrite (Hjoin' Hnil). vm_compute. reflexivity.
Defined.

Lemma generate_response_errors_witness :
  Generate.AnthropicProvider.generate_response (H := Examples.completions0)
    (Examples.adapter Llm.Anthropic) [Examples.hello] None false
  = Raise (TransportError "connection refused") /\
  Generate.OpenAIProvider.generate_response (H := Examples.completions0)
    (Examples.adapter Llm.OpenAI) [Examples.hello] None true
  = Ok (Generate.GenObject 5) /\
  Generate.OpenAIProvider.get_tool_call (H := Examples.completions0)
    (Examples.adapter Llm.OpenAI) [Examples.hello] [] []
  = Ok (Some "web_search") /\
  Generate.OpenAIProvider.get_tool_call (H := Examples.completions_up)
    (Examples.adapter Llm.OpenAI) [Examples.hello] [] []
  = Ok None.
Proof.
  destruct (generate_response_errors (H := Examples.backend_down)
              (H0 := Examples.completions0)
              (Examples.adapter Llm.Anthropic) [Examples.hello] None false
              (TransportError "connection refused") [] [] []
              "Human: Hello, how are you?") as (_ & _ & Hanthropic & _).
  split; [apply Hanthropic; reflexivity|].
  destruct (generate_response_errors (H := Examples.backend_down)
              (H0 := Examples.completions0)
              (Examples.adapter Llm.OpenAI) [Examples.hello] None true
              IndexError [] [] [] EmptyString)
    as ((_ & _ & Hopenai) & (_ & _ & Htool) & _).
  split; [exact (Hopenai 5 ["Hello"] eq_refl)|].
  split; [exact (Htool [["web_search"; "web_scrape"]] eq_refl)|].
  destruct (generate_response_errors (H := Examples.backend_down)
              (H0 := Examples.completions_up)
              (Examples.adapter Llm.OpenAI) [Examples.hello] None true
              IndexError [] [] [] EmptyString)
    as (_ & (_ & _ & Hnone) & _).
  exact (Hnone [[]] eq_refl).
Defined.

Lemma generators_yield_witness :
  Generate.OllamaProvider.generate Examples.lines0
    = ([JString "Hel"; JString "lo"], None) /\
  Generate.OllamaProvider.generate
    (Examples.lines0 ++ [BadLine "Expecting value"; BlankLine])
    = ([JString "Hel"; JString "lo"], Some (ValueError "Expecting value")) /\
  Generate.OllamaProvider.generate
    (Examples.lines0 ++ [JsonLine (JInt 42); BlankLine])
    = ([JString "Hel"; JString "lo"],
       Some (AttributeError "'int' object has no attribute 'get'")) /\
  Generate.DeepSeekProvider.generate Examples.lines_deepseek
    = ([JString "Hel"; JString "lo"], None) /\
  Generate.DeepSeekProvider.generate
    (Examples.lines_deepseek ++
     [JsonLine (JObject {[ "choices" :=
        JArray [JObject {[ "delta" := JNull ]}] ]})])
    = ([JString "Hel"; JString "lo"],
       Some (AttributeError "'NoneType' object has no attribute 'get'")) /\
  Generate.first_texts ([["Hel"]; ["lo"; "!"]] ++ [[]; ["late"]])
    = (["Hel"; "lo"], Some IndexError) /\
  snd (Generate.DeepSeekProvider.generate_response (H := Examples.completions_up)
         (Examples.adapter Llm.DeepSeek) [Examples.hello] None true)
    = Ok (Generate.GenIter [JString "Hel"; JString "lo"] None).
Proof.
  assert (Hollama : Forall (fun line => exists yielded,
                      Generate.OllamaProvider.generate_body line = Ok yielded)
                      Examples.lines0)
    by (repeat constructor; eexists; vm_compute; reflexivity).
  assert (Hdeepseek : Forall (fun line => exists yielded,
                        Generate.DeepSeekProvider.generate_body line = Ok yielded)
                        Examples.lines_deepseek)
    by (repeat constructor; eexists; vm_compute; reflexivity).
  assert (Hchunks : Forall (fun chunk : list string => chunk <> [])
                      [["Hel"]; ["lo"; "!"]])
    by (repeat constructor; discriminate).
  pose (streamed := {| stream_status := 200; stream_answer := Some "Hello";
                       stream_lines := [Examples.delta_line (JString "Hel");
                                        BlankLine;
                                        Examples.delta_line (JString "lo")] |}).
  destruct (generators_yield (H0 := Examples.completions_up)
              Examples.lines0 [BlankLine]
              (BadLine "Expecting value") (ValueError "Expecting value")
              "Expecting value" JNull JNull ∅ ∅ ∅ []
              [["Hel"]; ["lo"; "!"]] [["late"]]
              (Examples.adapter Llm.DeepSeek) [Examples.hello] None
              EmptyString 4 streamed)
    as (Hstream & _ & _ & Hgood & _ & _ & _ & _ & _ & _ & Hfirst).
  destruct (Hgood Hollama) as [Hend Hbad].
  split; [rewrite Hend; vm_compute; reflexivity|].
  split; [rewrite (Hbad eq_refl); vm_compute; reflexivity|].
  destruct (generators_yield (H0 := Examples.completions_up)
              Examples.lines0 [BlankLine]
              (JsonLine (JInt 42))
              (AttributeError "'int' object has no attribute 'get'")
              "Expecting value" (JInt 42) JNull ∅ ∅ ∅ [] [] []
              (Examples.adapter Llm.DeepSeek) [Examples.hello] None
              EmptyString 4 streamed)
    as (_ & _ & _ & Hint & _ & _ & Hvalue & _).
  split; [rewrite (proj2 (Hint Hollama));
          [vm_compute; reflexivity | apply Hvalue; discriminate]|].
  destruct (generators_yield (H0 := Examples.completions_up)
              Examples.lines_deepseek []
              (JsonLine (JObject {[ "choices" :=
                 JArray [JObject {[ "delta" := JNull ]}] ]}))
              (AttributeError "'NoneType' object has no attribute 'get'")
              "Expecting value" JNull JNull
              {[ "choices" := JArray [JObject {[ "delta" := JNull ]}] ]}
              {[ "delta" := JNull ]} ∅ [] [] []
              (Examples.adapter Llm.DeepSeek) [Examples.hello] None
              EmptyString 4 streamed)
    as (_ & _ & _ & _ & Hlines & _ & _ & _ & _ & Hdelta & _).
  destruct (Hlines Hdeepseek) as [Hend' Hnull].
  split; [rewrite Hend'; vm_compute; reflexivity|].
  split.
  { rewrite Hnull; [vm_compute; reflexivity|].
    destruct (Hdelta eq_refl) as (_ & _ & Hno).
    apply Hno; [reflexivity | discriminate]. }
  split; [exact (proj2 (Hfirst Hchunks))|].
  destruct Hstream as [_ Hserved]; [simpl; lia|].
  rewrite (Hserved eq_refl). vm_compute. reflexivity.
Defined.

(** ** The tools *)

Section Tools.
Context `{Host}.
Import BaseTools.

(** X24. Failures of the tools. [WebScrapeTool], [SystemCommandTool],
    [FileSystemTool] and [SystemInfoTool] never raise from [forward]: an
    exception of the call they make comes back as the text of their
    error message. [WebSearchTool.forward] has no handler: an exception
    of the search leaves it. [SystemCommandTool] runs the command with a
    timeout of 30 and returns the standard output when that is not
    empty and the standard error otherwise. [FileSystemTool] makes no
    call for an operation other than read, write and list and returns
    [None], not a string; [SystemInfoTool] answers a metric other than
    cpu, memory and disk with the text of the error of its unbound
    local. *)
Theorem tool_failures_are_text (argument path : string) (content : option string)
    (max_results : Z) (m : string) (completed : CompletedProcess) :
  ((exists text, WebScrapeTool.forward argument = Returned text) /\
   (exists text, SystemCommandTool.forward argument = Returned text) /\
   (exists text, FileSystemTool.forward argument path content = Returned text) /\
   (exists text, SystemInfoTool.forward argument = Returned text)) /\
  (ddgs_text argument max_results = Raised m ->
   WebSearchTool.forward argument max_results = Raised m) /\
  (scrape_text argument = Raised m ->
   WebScrapeTool.forward argument = Returned ("Error scraping webpage: " +:+ m)) /\
  (subprocess_run argument 30 = Raised m ->
   SystemCommandTool.forward argument
   = Returned ("Error executing command: " +:+ m)) /\
  (subprocess_run argument 30 = Returned completed ->
   SystemCommandTool.forward argument
   = Returned (if PyStr.truthy (stdout completed) then stdout completed
               else stderr completed)) /\
  (write_file path content = Raised m ->
   FileSystemTool.forward "write" path content
   = Returned (Some ("Error performing file operation: " +:+ m))) /\
  (argument ∉ ["read"; "write"; "list"] ->
   FileSystemTool.forward argument path content = Returned None) /\
  (argument ∉ ["cpu"; "memory"; "disk"] ->
   SystemInfoTool.forward argument
   = Returned ("Error getting system info: " +:+ unbound_local_message "info")).
Proof.
  split; [|split; [|split; [|split; [|split; [|split; [|split]]]]]].
  - split; [|split; [|split]].
    + unfold WebScrapeTool.forward, or_message.
      destruct (scrape_text argument); eauto.
    + unfold SystemCommandTool.forward, or_message.
      destruct (obind _ _); eauto.
    + unfold FileSystemTool.forward, or_message.
      destruct (if String.eqb argument "read" then _ else _); eauto.
    + unfold SystemInfoTool.forward, or_message.
      destruct (if String.eqb argument "cpu" then _ else _); eauto.
  - intros Hsearch. exact Hsearch.
  - intros Hscrape. unfold WebScrapeTool.forward. now rewrite Hscrape.
  - intros Hrun. unfold SystemCommandTool.forward. now rewrite Hrun.
  - intros Hrun. unfold SystemCommandTool.forward. now rewrite Hrun.
  - intros Hwrite. unfold FileSystemTool.forward. simpl. now rewrite Hwrite.
  - intros Hnotin.
    assert (Hne : forall s, s ∈ ["read"; "write"; "list"] ->
                  String.eqb argument s = false).
    { intros s Hs. apply string_eqb_false. intros ->. now apply Hnotin. }
    unfold FileSystemTool.forward. now rewrite !Hne by repeat constructor.
  - intros Hnotin.
    assert (Hne : forall s, s ∈ ["cpu"; "memory"; "disk"] ->
                  String.eqb argument s = false).
    { intros s Hs. apply string_eqb_false. intros ->. now apply Hnotin. }
    unfold SystemInfoTool.forward. now rewrite !Hne by repeat constructor.
Qed.

(** X25. The configuration of [TwitterSearchTool]. The tool is
    initialized exactly when the four Twitter variables of the
    environment are present and not empty and the construction of the
    API object did not raise; an exception of the construction is
    swallowed by the constructor. A tool that is not initialized answers
    every search with the same text about the configuration, without any
    call; an initialized one returns what the search returns, or the text
    of its error: [forward] never raises. *)
Theorem twitter_tool_configuration (env : gmap string string)
    (self : TwitterSearchTool.t) (query : string) (max_results : Z) :
  let configured :=
    forallb PyStr.truthy_opt
      [env !! "TWITTER_API_KEY"; env !! "TWITTER_API_SECRET";
       env !! "TWITTER_ACCESS_TOKEN"; env !! "TWITTER_ACCESS_TOKEN_SECRET"] in
  (TwitterSearchTool.is_initialized (TwitterSearchTool.__init__ env) = true <->
   configured = true /\
   exists h, tweepy_API (default EmptyString (env !! "TWITTER_API_KEY"))
               (default EmptyString (env !! "TWITTER_API_SECRET"))
               (default EmptyString (env !! "TWITTER_ACCESS_TOKEN"))
               (default EmptyString (env !! "TWITTER_ACCESS_TOKEN_SECRET"))
             = Returned h) /\
  (TwitterSearchTool.is_initialized self = false ->
   TwitterSearchTool.forward self query max_results
   = Returned ("Twitter API is not configured. Please set the required "
               +:+ "environment variables: TWITTER_API_KEY, TWITTER_API_SECRET, "
               +:+ "TWITTER_ACCESS_TOKEN, TWITTER_ACCESS_TOKEN_SECRET")) /\
  (forall h, TwitterSearchTool.api self = Some h ->
   TwitterSearchTool.forward self query max_results
   = match search_tweets h query max_results with
     | Returned text => Returned text
     | Raised m => Returned ("Error searching Twitter: " +:+ m)
     end) /\
  (exists text, TwitterSearchTool.forward self query max_results = Returned text).
Proof.
  intros configured. split; [|split; [|split]].
  - unfold TwitterSearchTool.__init__. fold configured.
    destruct configured.
    + destruct (tweepy_API _ _ _ _) as [h|m]; simpl.
      * split; [eauto | reflexivity].
      * split; [discriminate | intros (_ & h & Hh); discriminate].
    + simpl. split; [discriminate | intros (Hc & _); discriminate].
  - unfold TwitterSearchTool.is_initialized, TwitterSearchTool.forward.
    destruct (TwitterSearchTool.api self); [discriminate | reflexivity].
  - intros h Hapi. unfold TwitterSearchTool.forward. now rewrite Hapi.
  - unfold TwitterSearchTool.forward.
    destruct (TwitterSearchTool.api self) as [h|]; [|eauto].
    unfold or_message. destruct (search_tweets h query max_results); eauto.
Qed.

End Tools.

Section Stock.
Import StockTools.

Lemma slice_window {A} (X : list A) (i : nat) (lookback : Z) :
  (0 <= lookback)%Z ->
  (Z.of_nat i + lookback <= Z.of_nat (length X))%Z ->
  slice X (Z.of_nat i) (Z.of_nat i + lookback)
  = take (Z.to_nat lookback) (drop i X).
Proof.
  intros Hlb Hle. unfold slice, clip.
  destruct (Z.ltb_spec (Z.of_nat i) 0) as [Hneg|_]; [lia|].
  destruct (Z.ltb_spec (Z.of_nat i + lookback) 0) as [Hneg|_]; [lia|].
  rewrite !Z.min_l by lia.
  replace (Z.to_nat (Z.of_nat i + lookback - Z.of_nat i)) with (Z.to_nat lookback)
    by lia.
  now rewrite Nat2Z.id.
Qed.

Lemma index_lookup {B} (y : list B) (i : nat) (lookback : Z) :
  (0 <= lookback)%Z ->
  index y (Z.of_nat i + lookback)
  = match y !! (i + Z.to_nat lookback) with
    | Some t => Ok t
    | None => Raise IndexError
    end.
Proof.
  intros Hlb. unfold index.
  destruct (Z.ltb_spec (Z.of_nat i + lookback) 0) as [Hneg|_]; [lia|].
  destruct (Z.ltb_spec (Z.of_nat i + lookback) 0) as [Hneg|_]; [lia|].
  replace (Z.to_nat (Z.of_nat i + lookback)) with (i + Z.to_nat lookback) by lia.
  reflexivity.
Qed.

Lemma sequences_loop_ok {A B} (X : list A) (y : list B) (lookback : Z)
    (range : list nat) :
  (0 <= lookback)%Z ->
  Forall (fun i => i + Z.to_nat lookback < length y) range ->
  exists y_seq,
    sequences_loop X y lookback range
    = Ok (map (fun i => slice X (Z.of_nat i) (Z.of_nat i + lookback)) range, y_seq) /\
    Forall2 (fun i t => y !! (i + Z.to_nat lookback) = Some t) range y_seq.
Proof.
  intros Hlb. induction 1 as [|i rest Hi _ (y_seq & Hloop & Hall)].
  - exists []. split; [reflexivity | constructor].
  - apply lookup_lt_is_Some in Hi as [t Ht].
    exists (t :: y_seq). simpl.
    rewrite (index_lookup _ _ _ Hlb), Ht. simpl. rewrite Hloop. simpl.
    split; [reflexivity | now constructor].
Qed.

(** X26. The windows of [_create_sequences]. For a lookback that is not
    negative and as many targets as rows, it returns one window for each
    row that has at least [lookback] rows before the end, none when there
    are not more rows than the lookback: the window [i] is the [lookback]
    rows from row [i] on, it has exactly that length, and its target is
    the entry of [y] that follows it. With fewer targets than rows, and
    more rows than the lookback, it raises [IndexError]. *)
Theorem create_sequences_windows {A B} (X : list A) (y : list B) (lookback : Z) :
  (0 <= lookback)%Z ->
  (length y = length X ->
   exists X_seq y_seq,
     _create_sequences X y lookback = Ok (X_seq, y_seq) /\
     length X_seq = length X - Z.to_nat lookback /\
     length y_seq = length X_seq /\
     (forall i, i < length X_seq ->
        X_seq !! i = Some (take (Z.to_nat lookback) (drop i X)) /\
        length (take (Z.to_nat lookback) (drop i X)) = Z.to_nat lookback /\
        y_seq !! i = y !! (i + Z.to_nat lookback) /\
        is_Some (y_seq !! i))) /\
  (length X <= Z.to_nat lookback -> _create_sequences X y lookback = Ok ([], [])) /\
  (length y < length X -> Z.to_nat lookback < length X ->
   _create_sequences X y lookback = Raise IndexError).
Proof.
  intros Hlb. split; [|split].
  - intros Hlen. unfold _create_sequences.
    replace (Z.to_nat (Z.of_nat (length X) - lookback))
      with (length X - Z.to_nat lookback) by lia.
    set (n := length X - Z.to_nat lookback).
    destruct (sequences_loop_ok X y lookback (seq 0 n) Hlb)
      as (y_seq & Hloop & Hall).
    { apply Forall_forall. intros i Hi. apply elem_of_seq in Hi. lia. }
    eexists _, y_seq. split; [exact Hloop|].
    pose proof (Forall2_length _ _ _ Hall) as Hlen2. rewrite length_seq in Hlen2.
    rewrite length_map, length_seq. split; [reflexivity|]. split; [lia|].
    intros i Hi.
    assert (Hseq : seq 0 n !! i = Some i)
      by (rewrite lookup_seq; split; [reflexivity | exact Hi]).
    split; [|split; [|split]].
    + rewrite list_lookup_fmap, Hseq. simpl. f_equal.
      apply slice_window; [exact Hlb | lia].
    + rewrite length_take, length_drop. lia.
    + destruct (Forall2_lookup_l _ _ _ _ _ Hall Hseq) as (t & Ht & Hy).
      now rewrite Ht, Hy.
    + apply lookup_lt_is_Some. lia.
  - intros Hshort. unfold _create_sequences.
    replace (Z.to_nat (Z.of_nat (length X) - lookback)) with 0 by lia.
    reflexivity.
  - intros Hfew Hrows. unfold _create_sequences.
    replace (Z.to_nat (Z.of_nat (length X) - lookback))
      with (length X - Z.to_nat lookback) by lia.
    set (n := length X - Z.to_nat lookback).
    assert (Hn : length y - Z.to_nat lookback < n) by lia.
    assert (Hgen : forall start count,
              start + Z.to_nat lookback <= length y ->
              length y - Z.to_nat lookback < start + count ->
              sequences_loop X y lookback (seq start count) = Raise IndexError).
    { intros start count. revert start.
      induction count as [|count IH]; intros start Hstart Hcount; [lia|].
      simpl. rewrite (index_lookup _ _ _ Hlb).
      destruct (y !! (start + Z.to_nat lookback)) as [t|] eqn:Ht; [|reflexivity].
      simpl. apply lookup_lt_Some in Ht.
      rewrite IH by lia. reflexivity. }
    destruct (decide (Z.to_nat lookback <= length y)) as [Hle|Hgt].
    + apply Hgen; lia.
    + destruct n as [|n']; [lia|]. simpl. rewrite (index_lookup _ _ _ Hlb).
      rewrite (lookup_ge_None_2 y) by lia. reflexivity.
Qed.


End Stock.

Lemma tool_failures_are_text_witness :
  BaseTools.WebSearchTool.forward (H := Examples.host_down) "python" 5
    = Raised "connection refused" /\
  BaseTools.WebScrapeTool.forward (H := Examples.host_down) "https://example.com"
    = Returned "Error scraping webpage: connection refused" /\
  BaseTools.SystemCommandTool.forward (H := Examples.host_shell) "ls nowhere"
    = Returned "ls: no such file" /\
  BaseTools.FileSystemTool.forward (H := Examples.host_shell) "delete" "/tmp/f" None
    = Returned None /\
  BaseTools.SystemInfoTool.forward (H := Examples.host_shell) "network"
    = Returned ("Error getting system info: "
                +:+ "local variable 'info' referenced before assignment").
Proof.
  split; [|split; [|split; [|split]]].
  - destruct (tool_failures_are_text (H := Examples.host_down) "python" "/tmp/f"
                None 5 "connection refused"
                {| stdout := EmptyString; stderr := EmptyString |})
      as (_ & Hsearch & _).
    apply Hsearch. reflexivity.
  - destruct (tool_failures_are_text (H := Examples.host_down)
                "https://example.com" "/tmp/f" None 5 "connection refused"
                {| stdout := EmptyString; stderr := EmptyString |})
      as (_ & _ & Hscrape & _).
    apply Hscrape. reflexivity.
  - destruct (tool_failures_are_text (H := Examples.host_shell) "ls nowhere"
                "/tmp/f" None 5 "connection refused"
                {| stdout := EmptyString; stderr := "ls: no such file" |})
      as (_ & _ & _ & _ & Hrun & _).
    apply Hrun. reflexivity.
  - destruct (tool_failures_are_text (H := Examples.host_shell) "delete"
                "/tmp/f" None 5 "connection refused"
                {| stdout := EmptyString; stderr := EmptyString |})
      as (_ & _ & _ & _ & _ & _ & Hoperation & _).
    apply Hoperation. intros Hin.
    repeat (apply elem_of_cons in Hin as [Hin|Hin]; [discriminate|]).
    now apply elem_of_nil in Hin.
  - destruct (tool_failures_are_text (H := Examples.host_shell) "network"
                "/tmp/f" None 5 "connection refused"
                {| stdout := EmptyString; stderr := EmptyString |})
      as (_ & _ & _ & _ & _ & _ & _ & Hmetric).
    apply Hmetric. intros Hin.
    repeat (apply elem_of_cons in Hin as [Hin|Hin]; [discriminate|]).
    now apply elem_of_nil in Hin.
Defined.

Lemma twitter_tool_configuration_witness :
  BaseTools.TwitterSearchTool.is_initialized
    (BaseTools.TwitterSearchTool.__init__ (H := Examples.host_shell)
       Examples.env_twitter) = true /\
  BaseTools.TwitterSearchTool.forward (H := Examples.host_shell)
    (BaseTools.TwitterSearchTool.__init__ (H := Examples.host_down)
       Examples.env_twitter) "rocq" 10
  = Returned ("Twitter API is not configured. Please set the required "
              +:+ "environment variables: TWITTER_API_KEY, TWITTER_API_SECRET, "
              +:+ "TWITTER_ACCESS_TOKEN, TWITTER_ACCESS_TOKEN_SECRET").
Proof.
  split.
  - destruct (twitter_tool_configuration (H := Examples.host_shell)
                Examples.env_twitter
                {| BaseTools.TwitterSearchTool.api := None |} "rocq" 10)
      as (Hinit & _).
    apply Hinit. split; [reflexivity|]. exists 1. reflexivity.
  - destruct (twitter_tool_configuration (H := Examples.host_shell)
                Examples.env_twitter
                (BaseTools.TwitterSearchTool.__init__ (H := Examples.host_down)
                   Examples.env_twitter) "rocq" 10)
      as (_ & Hunconfigured & _).
    apply Hunconfigured. reflexivity.
Defined.

Lemma create_sequences_windows_witness :
  StockTools._create_sequences [10; 11; 12; 13; 14] [20; 21; 22; 23; 24] 3
    = Ok ([[10; 11; 12]; [11; 12; 13]], [23; 24]) /\
  StockTools._create_sequences [10; 11; 12; 13; 14] [20; 21; 22; 23] 3
    = Raise IndexError.
Proof.
  destruct (create_sequences_windows [10; 11; 12; 13; 14] [20; 21; 22; 23; 24] 3
              ltac:(lia)) as (Hok & _).
  destruct (Hok eq_refl) as (X_seq & y_seq & Heq & _).
  split; [reflexivity|].
  destruct (create_sequences_windows [10; 11; 12; 13; 14] [20; 21; 22; 23] 3
              ltac:(lia)) as (_ & _ & Hraise).
  apply Hraise; simpl; lia.
Defined.

